(** * CACC drive-cycle synthesizer and requirement evaluator

    A shallow embedding of [python/create_drive_cycle.py] and
    [python/test/test_cacc_requirements.py].

    Numbers.  Python floats are idealised as exact rationals extended with the
    three IEEE special values ([xnum]): there is no rounding, no overflow and
    no signed zero, but division by zero, [inf - inf], comparisons with NaN
    and pandas' skip-NaN reductions behave as in NumPy.  The synthesizer only
    ever divides by positive sample counts, so it is modelled over plain [Q];
    the one place where rounding decides a shape, the number of samples of
    [np.arange], is computed in binary64 ([F64]).  The arrays of the
    synthesizer are float64 arrays: with two Python [int]s for the duration
    and the step NumPy builds int64 arrays instead, which are not modelled
    ([float_arguments] rules that case out where it matters).
    Transcendental functions ([**] with a fractional exponent, [np.sin],
    [np.pi]) are parameters of the development. *)

From Stdlib Require Import QArith Qabs Qround ZArith List String Ascii Bool Lia Lqa Arith.
From Stdlib Require SpecFloat.
Import ListNotations.

Local Open Scope Q_scope.

(* ================================================================== *)
(** * Extended rationals: the float model *)
(* ================================================================== *)

Module XNum.

Inductive xnum : Type :=
| Fin (q : Q)
| PInf
| NInf
| NaN.

Definition xopp (a : xnum) : xnum :=
  match a with
  | Fin q => Fin (- q)
  | PInf => NInf
  | NInf => PInf
  | NaN => NaN
  end.

Definition xadd (a b : xnum) : xnum :=
  match a, b with
  | NaN, _ | _, NaN => NaN
  | Fin x, Fin y => Fin (x + y)
  | PInf, NInf | NInf, PInf => NaN
  | PInf, _ | _, PInf => PInf
  | NInf, _ | _, NInf => NInf
  end.

Definition xsub (a b : xnum) : xnum := xadd a (xopp b).

(** Sign of an infinity multiplied by the finite [q]; [0 * inf] is NaN. *)
Definition scale_inf (positive : bool) (q : Q) : xnum :=
  match q ?= 0 with
  | Eq => NaN
  | Gt => if positive then PInf else NInf
  | Lt => if positive then NInf else PInf
  end.

Definition xmul (a b : xnum) : xnum :=
  match a, b with
  | NaN, _ | _, NaN => NaN
  | Fin x, Fin y => Fin (x * y)
  | Fin x, PInf | PInf, Fin x => scale_inf true x
  | Fin x, NInf | NInf, Fin x => scale_inf false x
  | PInf, PInf | NInf, NInf => PInf
  | PInf, NInf | NInf, PInf => NInf
  end.

(** Division as NumPy does it on float arrays: no exception, [x/0] is an
    infinity of the sign of [x] and [0/0] is NaN. *)
Definition xdiv (a b : xnum) : xnum :=
  match a, b with
  | NaN, _ | _, NaN => NaN
  | Fin x, Fin y =>
      match y ?= 0 with
      | Eq => match x ?= 0 with Eq => NaN | Gt => PInf | Lt => NInf end
      | _ => Fin (x / y)
      end
  | Fin _, (PInf | NInf) => Fin 0
  | PInf, Fin y => match y ?= 0 with Lt => NInf | _ => PInf end
  | NInf, Fin y => match y ?= 0 with Lt => PInf | _ => NInf end
  | (PInf | NInf), (PInf | NInf) => NaN
  end.

Definition xabs (a : xnum) : xnum :=
  match a with
  | Fin q => Fin (Qabs q)
  | PInf | NInf => PInf
  | NaN => NaN
  end.

Definition Qltb (x y : Q) : bool :=
  match x ?= y with Lt => true | _ => false end.

Definition Qleb (x y : Q) : bool :=
  match x ?= y with Gt => false | _ => true end.

(** [a < b]; every comparison with NaN is false. *)
Definition xltb (a b : xnum) : bool :=
  match a, b with
  | NaN, _ | _, NaN => false
  | Fin x, Fin y => Qltb x y
  | NInf, (Fin _ | PInf) => true
  | Fin _, PInf => true
  | _, _ => false
  end.

Definition xleb (a b : xnum) : bool :=
  match a, b with
  | NaN, _ | _, NaN => false
  | Fin x, Fin y => Qleb x y
  | NInf, _ => true
  | _, PInf => true
  | _, _ => false
  end.

Definition xgtb (a b : xnum) : bool := xltb b a.
Definition xgeb (a b : xnum) : bool := xleb b a.

Definition is_nan (a : xnum) : bool :=
  match a with NaN => true | _ => false end.

(** Numeric equality of two values of the model (rationals up to [==]). *)
Definition xeq (a b : xnum) : Prop :=
  match a, b with
  | Fin x, Fin y => x == y
  | PInf, PInf | NInf, NInf | NaN, NaN => True
  | _, _ => False
  end.

Definition of_nat (n : nat) : xnum := Fin (inject_Z (Z.of_nat n)).
Definition of_Z (z : Z) : xnum := Fin (inject_Z z).

End XNum.

(* ================================================================== *)
(** * Binary64 arithmetic, where rounding decides a shape *)
(* ================================================================== *)

Module F64.

Import SpecFloat.

Definition double : Type := spec_float.

Definition prec : Z := 53.
Definition emax : Z := 1024.

(** The double nearest to a rational: what Python makes of a literal. *)
Definition of_Q (q : Q) : double :=
  match Qnum q with
  | Z0 => S754_zero false
  | Zpos n =>
      SFdiv prec emax (S754_finite false n 0) (S754_finite false (Qden q) 0)
  | Zneg n =>
      SFdiv prec emax (S754_finite true n 0) (S754_finite false (Qden q) 0)
  end.

(** The exact value of a finite double. *)
Definition to_Q (x : double) : option Q :=
  match x with
  | S754_zero _ => Some 0
  | S754_finite s m e =>
      let z := cond_Zopp s (Zpos m) in
      Some (match e with
            | Zneg p => z # (2 ^ p)
            | _ => inject_Z (z * 2 ^ e)
            end)
  | S754_infinity _ | S754_nan => None
  end.

Definition sub : double -> double -> double := SFsub prec emax.
Definition mul : double -> double -> double := SFmul prec emax.
Definition div : double -> double -> double := SFdiv prec emax.

(** [ceil(x)] as an integer; nothing for an infinity or a NaN. *)
Definition ceil (x : double) : option Z := option_map Qceiling (to_Q x).

End F64.
Export XNum.

(* ================================================================== *)
(** * The pandas fragment used by the evaluator *)
(* ================================================================== *)

Module Pandas.

(** A data-access fault: what pandas raises on a missing column or an
    out-of-bounds position. *)
Inductive fault : Type :=
| KeyError (column : string)
| IndexError
| ValueError.

Definition result (A : Type) : Type := (fault + A)%type.

Definition ret {A} (a : A) : result A := inr a.
Definition raise {A} (f : fault) : result A := inl f.
Definition bind {A B} (m : result A) (k : A -> result B) : result B :=
  match m with
  | inl f => inl f
  | inr a => k a
  end.

(** A Series: values carrying their index labels. *)
Definition Series (A : Type) : Type := list (Z * A).

Definition labels {A} (s : Series A) : list Z := map fst s.
Definition values {A} (s : Series A) : list A := map snd s.

(** A DataFrame with one index and named columns of values. *)
Record DataFrame : Type := mkDataFrame {
  df_index : list Z;
  df_data : list (string * list xnum)
}.

Definition columns (df : DataFrame) : list string := map fst (df_data df).

Definition len (df : DataFrame) : nat := List.length (df_index df).

(** pandas keeps every column as long as the index. *)
Definition well_formed (df : DataFrame) : Prop :=
  Forall (fun c => List.length (snd c) = List.length (df_index df)) (df_data df).

Fixpoint lookup (name : string) (data : list (string * list xnum))
  : option (list xnum) :=
  match data with
  | [] => None
  | (k, v) :: rest => if String.eqb k name then Some v else lookup name rest
  end.

(** [df[name]] *)
Definition col (df : DataFrame) (name : string) : result (Series xnum) :=
  match lookup name (df_data df) with
  | Some v => ret (combine (df_index df) v)
  | None => raise (KeyError name)
  end.

(** [df.iloc[k:]]: positional slice; labels are kept. *)
Definition iloc_from (k : nat) (df : DataFrame) : DataFrame :=
  {| df_index := skipn k (df_index df);
     df_data := map (fun c => (fst c, skipn k (snd c))) (df_data df) |}.

(** [s.iloc[i]]: positional access, negative positions count from the end. *)
Definition iloc {A} (s : Series A) (i : Z) : result A :=
  let n := Z.of_nat (List.length s) in
  let p := if (i <? 0)%Z then (n + i)%Z else i in
  if ((0 <=? p) && (p <? n))%Z%bool then
    match nth_error s (Z.to_nat p) with
    | Some (_, v) => ret v
    | None => raise IndexError
    end
  else raise IndexError.

Definition smap {A B} (f : A -> B) (s : Series A) : Series B :=
  map (fun lv => (fst lv, f (snd lv))) s.

(** Element-wise operation on two Series of one frame (identical index). *)
Definition szip {A B C} (f : A -> B -> C) (a : Series A) (b : Series B)
  : Series C :=
  map (fun ab => (fst (fst ab), f (snd (fst ab)) (snd (snd ab)))) (combine a b).

(** [s.any()] *)
Definition any (s : Series bool) : bool := existsb snd s.

(** [s.idxmax()] on a boolean Series: the label of the first maximum, that
    is of the first [True] when there is one; an empty Series raises. *)
Definition idxmax_bool (s : Series bool) : result Z :=
  match find snd s with
  | Some (l, _) => ret l
  | None => match s with (l, _) :: _ => ret l | [] => raise ValueError end
  end.

(** [s.diff()]: first entry NaN, then consecutive differences. *)
Fixpoint diff_from (prev : xnum) (s : Series xnum) : Series xnum :=
  match s with
  | [] => []
  | (l, v) :: rest => (l, xsub v prev) :: diff_from v rest
  end.

Definition diff (s : Series xnum) : Series xnum :=
  match s with
  | [] => []
  | (l, v) :: rest => (l, NaN) :: diff_from v rest
  end.

Definition dropna (s : Series xnum) : Series xnum :=
  filter (fun lv => negb (is_nan (snd lv))) s.

(** [s.mean()], NaN entries skipped; NaN when nothing is left. *)
Definition mean (s : Series xnum) : xnum :=
  let vs := values (dropna s) in
  match vs with
  | [] => NaN
  | _ => xdiv (fold_left xadd vs (Fin 0)) (of_nat (List.length vs))
  end.

(** Running maximum with the label of its first occurrence. *)
Fixpoint argmax_from (best : Z * xnum) (s : Series xnum) : Z * xnum :=
  match s with
  | [] => best
  | (l, v) :: rest =>
      argmax_from (if xltb (snd best) v then (l, v) else best) rest
  end.

Definition argmax (s : Series xnum) : option (Z * xnum) :=
  match dropna s with
  | [] => None
  | b :: rest => Some (argmax_from b rest)
  end.

(** [s.max()], NaN entries skipped; NaN when nothing is left. *)
Definition smax (s : Series xnum) : xnum :=
  match argmax s with
  | Some (_, v) => v
  | None => NaN
  end.

(** [s.idxmax()] on a float Series; nothing but NaN raises. *)
Definition idxmax (s : Series xnum) : result Z :=
  match argmax s with
  | Some (l, _) => ret l
  | None => raise ValueError
  end.

(** [array & series]: a positional array of booleans combined with a
    Series, whose labels the result keeps. *)
Definition and_array (a : list bool) (s : Series bool) : Series bool :=
  map (fun bs => (fst (snd bs), fst bs && snd (snd bs))) (combine a s).

(** [s[mask]]: boolean indexing. *)
Definition select {A} (s : Series A) (mask : Series bool) : Series A :=
  map fst (filter (fun sm => snd (snd sm)) (combine s mask)).

(** ['sub' in s] *)
Fixpoint contains (sub s : string) : bool :=
  String.prefix sub s ||
  match s with
  | EmptyString => false
  | String _ s' => contains sub s'
  end.

End Pandas.
Export Pandas.

Declare Scope result_scope.
Delimit Scope result_scope with result.
Notation "x <- m ;; k" := (bind m (fun x => k))
  (at level 61, m at next level, right associativity) : result_scope.

(* ================================================================== *)
(** * The requirement evaluator ([test_cacc_requirements.py]) *)
(* ================================================================== *)

Module Evaluator.

Local Open Scope string_scope.
Local Open Scope result_scope.

(** One entry of [CACC_SCENARIO_DATA]: the log and the scenario's name. *)
Record Scenario : Type := mkScenario {
  scenario_df : DataFrame;
  scenario_name : string
}.

(** Modelled from the spec: [get_besee_logs_for_scenario_list] (conftest) is
    not part of the sources; the spec's ScenarioLog is "a table indexed by
    sample number", that is the labels [0, 1, ..., n-1]. *)
Definition sample_index (n : nat) : list Z := map Z.of_nat (seq 0 n).

Definition sample_indexed (df : DataFrame) : Prop :=
  df_index df = sample_index (len df).

(** What one run of a test function ends in. *)
Inductive outcome (R : Type) : Type :=
| Passed
| Skipped
| Violation (report : R)
| Aborted (f : fault).

Arguments Passed {R}.
Arguments Skipped {R}.
Arguments Violation {R} report.
Arguments Aborted {R} f.

Definition run {R} (m : result (outcome R)) : outcome R :=
  match m with
  | inl f => Aborted f
  | inr o => o
  end.

(** The quantities formatted into the FDCW-1 assertion message. *)
Record fdcw1_report : Type := mkFdcw1 {
  fdcw1_time : xnum;
  fdcw1_following_distance : xnum;
  fdcw1_min_allowed : xnum;
  fdcw1_lead_speed_mph : xnum
}.

(** The quantities formatted into the FDCW-2 assertion message. *)
Record fdcw2_report : Type := mkFdcw2 {
  fdcw2_time : xnum;
  fdcw2_max_error : xnum;
  fdcw2_desired : xnum;
  fdcw2_actual : xnum
}.

Definition lead_vehicle_columns (df : DataFrame) : list string :=
  filter (contains "ACTOR_lead") (columns df).

Section Requirements.

(** [x ** y] on floats. *)
Variable xpow : xnum -> xnum -> xnum.

Definition lead_speed_mph_of (v : xnum) : xnum := xmul v (Fin 2.237).

Definition min_allowed_of (mph : xnum) : xnum :=
  xadd (xmul (Fin 2.8) (xpow mph (Fin 0.45))) (Fin 8).

Definition test_minimum_following_distance_requirement (scenario : Scenario)
  : outcome fdcw1_report :=
  let df := iloc_from 10 (scenario_df scenario) in
  match lead_vehicle_columns df with
  | [] => Skipped
  | _ :: _ =>
    run (
      lead_x <- col df "ACTOR_lead_x" ;;
      ego_x <- col df "ACTOR_ego_x" ;;
      let following_distances := szip xsub lead_x ego_x in
      lead_speed <- col df "ACTOR_lead_speed" ;;
      let lead_speed_mph := smap lead_speed_mph_of lead_speed in
      let min_allowed_distances := smap min_allowed_of lead_speed_mph in
      let violations := szip xltb following_distances min_allowed_distances in
      if any violations then
        worst_violation_idx <- idxmax_bool violations ;;
        worst_following_distance <- iloc following_distances worst_violation_idx ;;
        worst_min_allowed <- iloc min_allowed_distances worst_violation_idx ;;
        worst_lead_speed_mph <- iloc lead_speed_mph worst_violation_idx ;;
        time <- col df "time" ;;
        worst_time <- iloc time worst_violation_idx ;;
        ret (Violation (mkFdcw1 worst_time worst_following_distance
                                worst_min_allowed worst_lead_speed_mph))
      else ret Passed)
  end.

(** [epsilon = 1e-6] *)
Definition epsilon : xnum := Fin 0.000001.

Definition relative_error_of (desired actual : xnum) : xnum :=
  xmul (xdiv (xabs (xsub desired actual)) (xadd desired epsilon)) (Fin 100).

(** [df.index >= len(df) * 0.5] *)
Definition last_half_mask (df : DataFrame) : list bool :=
  map (fun l => xgeb (of_Z l) (xmul (of_nat (len df)) (Fin 0.5))) (df_index df).

Definition acceleration_of (time actual_speed : Series xnum) : Series xnum :=
  let dt := mean (diff time) in
  smap (fun d => xdiv d dt) (diff actual_speed).

Definition steady_state_mask_of (df : DataFrame)
    (acceleration desired_speed : Series xnum) : Series bool :=
  szip andb
    (and_array (last_half_mask df)
               (smap (fun a => xltb (xabs a) (Fin 0.5)) acceleration))
    (smap (fun d => xgtb d (Fin 1)) desired_speed).

Definition desired_speed_of (df : DataFrame) : result (Series xnum) :=
  match lead_vehicle_columns df with
  | _ :: _ => col df "ACTOR_lead_speed"
  | [] => col df "ego_speed"
  end.

Definition test_speed_error_requirement (scenario : Scenario)
  : outcome fdcw2_report :=
  let df := iloc_from 10 (scenario_df scenario) in
  run (
    desired_speed <- desired_speed_of df ;;
    actual_speed <- col df "ego_speed" ;;
    let relative_speed_error := szip relative_error_of desired_speed actual_speed in
    time <- col df "time" ;;
    let acceleration := acceleration_of time actual_speed in
    let steady_state_mask := steady_state_mask_of df acceleration desired_speed in
    if negb (any steady_state_mask) then ret Skipped
    else
      let steady_state_errors := select relative_speed_error steady_state_mask in
      let max_error := smax steady_state_errors in
      if xgtb max_error (Fin 10) then
        worst_idx <- idxmax steady_state_errors ;;
        worst_time <- iloc time worst_idx ;;
        worst_desired <- iloc desired_speed worst_idx ;;
        worst_actual <- iloc actual_speed worst_idx ;;
        ret (Violation (mkFdcw2 worst_time max_error worst_desired worst_actual))
      else ret Passed).

End Requirements.

End Evaluator.
Export Evaluator.

(* ================================================================== *)
(** * The NumPy fragment used by the synthesizer *)
(* ================================================================== *)

Module Numpy.

(** [int(x)]: truncation towards zero. *)
Definition py_int (x : Q) : Z :=
  if Qltb x 0 then Qceiling x else Qfloor x.

(** The length of [np.arange(start, stop, step)] on floats:
    [ceil((stop - start) / step)], the difference and the quotient being
    taken in binary64 as Python takes them, so that the quotient can exceed
    the exact one ([0.14 / 0.02] is [7.000000000000001]).  Nothing when the
    quotient is not finite. *)
Definition arange_length (start stop step : Q) : option nat :=
  option_map Z.to_nat
    (F64.ceil (F64.div (F64.sub (F64.of_Q stop) (F64.of_Q start))
                       (F64.of_Q step))).

(** [np.arange(start, stop, step)]: the samples [start + i * step]; a zero
    step raises, and so does a length that is not finite. *)
Definition arange (start stop step : Q) : option (list Q) :=
  if Qeq_bool step 0 then None
  else
    match arange_length start stop step with
    | Some n =>
        Some (map (fun i => start + inject_Z (Z.of_nat i) * step) (seq 0 n))
    | None => None
    end.

Definition zeros_like (a : list Q) : list Q := map (fun _ => 0) a.

(** [np.sum(mask)] *)
Definition count_true (mask : list bool) : nat :=
  List.length (filter (fun b => b) mask).

(** [np.any(mask)] *)
Definition np_any (mask : list bool) : bool := existsb (fun b => b) mask.

(** [a[mask]] *)
Fixpoint take_mask {A} (a : list A) (mask : list bool) : list A :=
  match a, mask with
  | x :: a', b :: mask' =>
      if b then x :: take_mask a' mask' else take_mask a' mask'
  | _, _ => []
  end.

(** [a[mask] = vals]: the selected positions receive [vals] in order.  The
    callers always pass as many values as the mask selects; a position left
    without a value keeps its content. *)
Fixpoint mask_assign (a : list Q) (mask : list bool) (vals : list Q) : list Q :=
  match a, mask with
  | x :: a', b :: mask' =>
      if b then
        match vals with
        | v :: vals' => v :: mask_assign a' mask' vals'
        | [] => x :: mask_assign a' mask' []
        end
      else x :: mask_assign a' mask' vals
  | _, _ => a
  end.

(** [a[mask] = c] *)
Fixpoint mask_fill (a : list Q) (mask : list bool) (c : Q) : list Q :=
  match a, mask with
  | x :: a', b :: mask' => (if b then c else x) :: mask_fill a' mask' c
  | _, _ => a
  end.

(** [np.linspace(start, stop, num)] with the end point included. *)
Definition linspace (start stop : Q) (num : nat) : list Q :=
  match num with
  | O => []
  | S O => [0 * (stop - start) + start]
  | S div =>
      let delta := stop - start in
      let d := inject_Z (Z.of_nat div) in
      let step := delta / d in
      let y := map (fun i =>
                 let x := inject_Z (Z.of_nat i) in
                 (if Qeq_bool step 0 then x / d * delta else x * step) + start)
               (seq 0 div) in
      y ++ [stop]
  end.

(** [np.clip(a, lo, hi)], that is [minimum(maximum(a, lo), hi)]. *)
Definition clip1 (lo hi x : Q) : Q :=
  let y := if Qltb x lo then lo else x in
  if Qltb hi y then hi else y.

Definition clip (a : list Q) (lo hi : Q) : list Q := map (clip1 lo hi) a.

(** [a[start:stop]] for non-negative bounds. *)
Definition slice {A} (a : list A) (start stop : nat) : list A :=
  firstn (stop - start) (skipn start a).

(** In-place update through the view [a[start:stop]]. *)
Definition update_slice (a : list Q) (start stop : nat)
    (f : list Q -> list Q) : list Q :=
  firstn start a ++ f (slice a start stop) ++ skipn (Nat.max start stop) a.

Definition mask_and (a b : list bool) : list bool :=
  map (fun ab => fst ab && snd ab) (combine a b).

End Numpy.
Export Numpy.

(* ================================================================== *)
(** * The drive-cycle synthesizer ([create_drive_cycle.py]) *)
(* ================================================================== *)

Module DriveCycle.

(** The returned frame: columns ['Time (s)'] and ['Speed (m/s)']. *)
Record Cycle : Type := mkCycle {
  cycle_time : list Q;
  cycle_speed : list Q
}.

Definition le_mask (time : list Q) (hi : Q) : list bool :=
  map (fun t => Qleb t hi) time.

Definition gt_mask (time : list Q) (lo : Q) : list bool :=
  map (fun t => Qltb lo t) time.

(** [(time > lo) & (time <= hi)] *)
Definition between_mask (time : list Q) (lo hi : Q) : list bool :=
  mask_and (gt_mask time lo) (le_mask time hi).

(** One pass of the body of the loop of [create_city_profile] over the
    slice [start_idx:end_idx]. *)
Definition city_cycle (max_speed : Q) (cycle_time speeds : list Q) : list Q :=
  match cycle_time with
  | [] => speeds
  | _ :: _ =>
      let accel_mask := le_mask cycle_time 5 in
      let speeds :=
        if np_any accel_mask
        then mask_assign speeds accel_mask
               (linspace 0 (max_speed * 0.6) (count_true accel_mask))
        else speeds in
      let cruise_mask := between_mask cycle_time 5 10 in
      let speeds :=
        if np_any cruise_mask
        then mask_fill speeds cruise_mask (max_speed * 0.6)
        else speeds in
      let decel_mask := between_mask cycle_time 10 15 in
      let speeds :=
        if np_any decel_mask
        then mask_assign speeds decel_mask
               (linspace (max_speed * 0.6) 0 (count_true decel_mask))
        else speeds in
      let stop_mask := gt_mask cycle_time 15 in
      if np_any stop_mask then mask_fill speeds stop_mask 0 else speeds
  end.

Definition cycle_duration : Q := 20.

(** The [for i in range(n_cycles)] loop with its [break]. *)
Fixpoint city_loop (cycles : list nat) (time : list Q) (max_speed : Q)
    (speeds : list Q) : list Q :=
  match cycles with
  | [] => speeds
  | i :: rest =>
      let n := List.length time in
      let start_idx :=
        Z.to_nat (py_int (inject_Z (Z.of_nat i) * cycle_duration / 0.02)) in
      let end_idx :=
        Z.to_nat (py_int (inject_Z (Z.of_nat (i + 1)) * cycle_duration / 0.02)) in
      let end_idx := Nat.min end_idx n in
      if (n <=? start_idx)%nat then speeds
      else
        let t0 := nth start_idx time 0 in
        let cycle_time := map (fun t => t - t0) (slice time start_idx end_idx) in
        let speeds :=
          update_slice speeds start_idx end_idx (city_cycle max_speed cycle_time) in
        city_loop rest time max_speed speeds
  end.

Definition create_city_profile (time : list Q) (max_speed min_speed : Q)
  : list Q :=
  let speeds := zeros_like time in
  let n_cycles :=
    Z.to_nat (py_int (inject_Z (Z.of_nat (List.length time))
                      / (cycle_duration / 0.02))) in
  city_loop (seq 0 n_cycles) time max_speed speeds.

Definition create_mixed_profile (time : list Q) (max_speed min_speed : Q)
  : list Q :=
  let speeds := zeros_like time in
  let city_phase := le_mask time 30 in
  let speeds :=
    if np_any city_phase
    then mask_assign speeds city_phase
           (create_city_profile (take_mask time city_phase) (max_speed * 0.7) 0)
    else speeds in
  let hwy_accel_phase := between_mask time 30 50 in
  let speeds :=
    if np_any hwy_accel_phase
    then mask_assign speeds hwy_accel_phase
           (linspace 0 max_speed (count_true hwy_accel_phase))
    else speeds in
  let hwy_cruise_phase := between_mask time 50 70 in
  let speeds :=
    if np_any hwy_cruise_phase
    then mask_fill speeds hwy_cruise_phase max_speed
    else speeds in
  let hwy_decel_phase := gt_mask time 70 in
  if np_any hwy_decel_phase
  then mask_assign speeds hwy_decel_phase
         (linspace max_speed min_speed (count_true hwy_decel_phase))
  else speeds.

Section Synthesizer.

(** [np.sin] and [np.pi]. *)
Variable sin : Q -> Q.
Variable pi : Q.

Definition create_highway_profile (time : list Q) (max_speed min_speed : Q)
  : list Q :=
  let speeds := zeros_like time in
  let accel_phase := le_mask time 20 in
  let speeds :=
    mask_assign speeds accel_phase
      (linspace 0 (max_speed * 0.8) (count_true accel_phase)) in
  let cruise_phase := between_mask time 20 40 in
  let speeds := mask_fill speeds cruise_phase (max_speed * 0.8) in
  let adjust_phase := between_mask time 40 60 in
  let speeds :=
    mask_assign speeds adjust_phase
      (map (fun t => max_speed * 0.8 + 5 * sin (2 * pi * (t - 40) / 20))
           (take_mask time adjust_phase)) in
  let follow_phase := between_mask time 60 80 in
  let speeds := mask_fill speeds follow_phase (max_speed * 0.7) in
  let decel_phase := gt_mask time 80 in
  mask_assign speeds decel_phase
    (linspace (max_speed * 0.7) min_speed (count_true decel_phase)).

(** [None]: [np.arange] raised (a zero step, a length that is not
    finite). *)
Definition create_cacc_optimized_drive_cycle
    (duration_sec dt max_speed_mps min_speed_mps : Q) (scenario_type : string)
  : option Cycle :=
  match arange 0 duration_sec dt with
  | None => None
  | Some time =>
      let speeds :=
        if String.eqb scenario_type "highway"%string
        then create_highway_profile time max_speed_mps min_speed_mps
        else if String.eqb scenario_type "city"%string
        then create_city_profile time max_speed_mps min_speed_mps
        else create_mixed_profile time max_speed_mps min_speed_mps in
      let speeds := clip speeds 0 max_speed_mps in
      Some (mkCycle time speeds)
  end.

End Synthesizer.

End DriveCycle.
Export DriveCycle.

(* ================================================================== *)
(** * The cycle validator ([validate_drive_cycle]) *)
(* ================================================================== *)

Module Validator.

Local Open Scope result_scope.

(** The two columns read by [validate_drive_cycle], as float arrays. *)
Record Frame : Type := mkFrame {
  frame_time : list xnum;
  frame_speed : list xnum
}.

Definition frame_of_cycle (c : Cycle) : Frame :=
  mkFrame (map Fin (cycle_time c)) (map Fin (cycle_speed c)).

(** [np.diff(a)] *)
Fixpoint np_diff (a : list xnum) : list xnum :=
  match a with
  | x :: ((y :: _) as rest) => xsub y x :: np_diff rest
  | _ => []
  end.

Definition np_sum (a : list xnum) : xnum := fold_left xadd a (Fin 0).

(** [np.mean(a)]: NaN on an empty array (NumPy only warns). *)
Definition np_mean (a : list xnum) : xnum :=
  match a with
  | [] => NaN
  | _ :: _ => xdiv (np_sum a) (of_nat (List.length a))
  end.

(** [f[2:] - f[:-2]], element-wise. *)
Definition central_differences (f : list xnum) : list xnum :=
  map (fun ab => xsub (fst ab) (snd ab)) (combine (skipn 2 f) f).

(** [np.gradient(f, dx)] with a scalar spacing: central differences inside,
    one-sided differences at both ends; fewer than two samples raise. *)
Definition gradient (f : list xnum) (dx : xnum) : result (list xnum) :=
  match f, rev f with
  | f0 :: f1 :: _, l1 :: l2 :: _ =>
      ret (xdiv (xsub f1 f0) dx
           :: map (fun d => xdiv d (xmul (Fin 2) dx)) (central_differences f)
           ++ [xdiv (xsub l1 l2) dx])
  | _, _ => raise ValueError
  end.

(** NaN-propagating maximum and minimum of two floats. *)
Definition xmax (a b : xnum) : xnum :=
  if is_nan a || is_nan b then NaN else if xltb a b then b else a.

Definition xmin (a b : xnum) : xnum :=
  if is_nan a || is_nan b then NaN else if xltb b a then b else a.

(** [np.max(a)], [np.min(a)]: an empty array raises. *)
Definition np_max (a : list xnum) : result xnum :=
  match a with
  | [] => raise ValueError
  | x :: rest => ret (fold_left xmax rest x)
  end.

Definition np_min (a : list xnum) : result xnum :=
  match a with
  | [] => raise ValueError
  | x :: rest => ret (fold_left xmin rest x)
  end.

Record ValidationStats : Type := mkStats {
  max_speed_mps : xnum;
  max_speed_mph : xnum;
  min_speed_mps : xnum;
  avg_speed_mps : xnum;
  max_acceleration : xnum;
  max_deceleration : xnum;
  steady_state_percentage : xnum;
  duration_sec : xnum
}.

Definition steady_mask (acceleration : list xnum) : list bool :=
  map (fun a => xltb (xabs a) (Fin 0.5)) acceleration.

(** The TimeSeries invariant on the time column: strictly increasing. *)
Fixpoint increasing (ts : list Q) : Prop :=
  match ts with
  | a :: ((b :: _) as rest) => a < b /\ increasing rest
  | _ => True
  end.

Definition validate_drive_cycle (df : Frame) : result ValidationStats :=
  let time := frame_time df in
  let speed := frame_speed df in
  let dt := np_mean (np_diff time) in
  acceleration <- gradient speed dt ;;
  max_accel <- np_max acceleration ;;
  max_decel <- np_min acceleration ;;
  let steady_state_mask := steady_mask acceleration in
  let steady_state_periods :=
    xdiv (of_nat (count_true steady_state_mask))
         (of_nat (List.length steady_state_mask)) in
  max_speed <- np_max speed ;;
  min_speed <- np_min speed ;;
  match time, rev time with
  | t0 :: _, tn :: _ =>
      ret (mkStats max_speed (xmul max_speed (Fin 2.237)) min_speed
                   (np_mean speed) max_accel max_decel
                   (xmul steady_state_periods (Fin 100))
                   (xsub tn t0))
  | _, _ => raise IndexError
  end.

End Validator.
Export Validator.

(* ================================================================== *)
(** * Vocabulary of the specification and concrete logs *)
(* ================================================================== *)

Module Vocabulary.

Local Open Scope string_scope.

(** A value of the model that is the finite number zero. *)
Definition is_zero (v : xnum) : Prop := xeq v (Fin 0).

(** A speed column that is constant at the finite value [c]. *)
Definition all_equal_to (c : Q) (speed : list xnum) : Prop :=
  Forall (fun v => xeq v (Fin c)) speed.

(** A relative error that cannot exceed any positive bound: NaN or zero. *)
Definition harmless (v : xnum) : Prop := v = NaN \/ is_zero v.

(** Element-wise combination of two value arrays. *)
Definition zip_with {A B C} (f : A -> B -> C) (a : list A) (b : list B)
  : list C :=
  map (fun ab => f (fst ab) (snd ab)) (combine a b).

(** Position of the first [true]. *)
Fixpoint first_true (flags : list bool) : option nat :=
  match flags with
  | [] => None
  | true :: _ => Some O
  | false :: rest => option_map S (first_true rest)
  end.

Section Fdcw1Vocabulary.

Variable xpow : xnum -> xnum -> xnum.

(** Per sample: [lead_x - ego_x]. *)
Definition following_distances_of (lead_x ego_x : list xnum) : list xnum :=
  zip_with xsub lead_x ego_x.

(** Per sample: [2.8 * (lead_speed * 2.237) ** 0.45 + 8]. *)
Definition min_allowed_distances_of (lead_speed : list xnum) : list xnum :=
  map (min_allowed_of xpow) (map lead_speed_mph_of lead_speed).

(** Per sample: [lead_x - ego_x < 2.8 * (lead_speed * 2.237) ** 0.45 + 8]. *)
Definition violation_flags (lead_x ego_x lead_speed : list xnum) : list bool :=
  zip_with xltb (following_distances_of lead_x ego_x)
                (min_allowed_distances_of lead_speed).

End Fdcw1Vocabulary.

(** The trimmed frame of a log indexed by sample number, with the columns
    FDCW-1 reads. *)
Record fdcw1_view (sc : Scenario) (m : nat)
    (lead_x ego_x lead_speed time : list xnum) : Prop := {
  view_lead : lead_vehicle_columns (iloc_from 10 (scenario_df sc)) <> [];
  view_index : df_index (iloc_from 10 (scenario_df sc))
               = map Z.of_nat (seq 10 m);
  view_lead_x : lookup "ACTOR_lead_x" (df_data (iloc_from 10 (scenario_df sc)))
                = Some lead_x;
  view_ego_x : lookup "ACTOR_ego_x" (df_data (iloc_from 10 (scenario_df sc)))
               = Some ego_x;
  view_lead_speed :
    lookup "ACTOR_lead_speed" (df_data (iloc_from 10 (scenario_df sc)))
    = Some lead_speed;
  view_time : lookup "time" (df_data (iloc_from 10 (scenario_df sc)))
              = Some time;
  view_lead_x_length : List.length lead_x = m;
  view_ego_x_length : List.length ego_x = m;
  view_lead_speed_length : List.length lead_speed = m;
  view_time_length : List.length time = m
}.

(** The column FDCW-2 takes the desired speed from. *)
Definition desired_column (df : DataFrame) : string :=
  match lead_vehicle_columns df with
  | [] => "ego_speed"
  | _ :: _ => "ACTOR_lead_speed"
  end.

(** The trimmed frame of a log indexed by sample number, with the columns
    FDCW-2 reads; [desired] is the lead speed, or the ego speed when there
    is no lead vehicle. *)
Record fdcw2_view (sc : Scenario) (m : nat)
    (desired ego time : list xnum) : Prop := {
  view2_index : df_index (iloc_from 10 (scenario_df sc))
                = map Z.of_nat (seq 10 m);
  view2_desired :
    desired_speed_of (iloc_from 10 (scenario_df sc))
    = ret (combine (map Z.of_nat (seq 10 m)) desired);
  view2_ego : lookup "ego_speed" (df_data (iloc_from 10 (scenario_df sc)))
              = Some ego;
  view2_time : lookup "time" (df_data (iloc_from 10 (scenario_df sc)))
               = Some time;
  view2_desired_length : List.length desired = m;
  view2_ego_length : List.length ego = m;
  view2_time_length : List.length time = m
}.

(** What is needed of [**]: [0 ** 0.45] is [0]. *)
Definition power_of_zero (xpow : xnum -> xnum -> xnum) : Prop :=
  forall q, q == 0 -> xpow (Fin q) (Fin 0.45) = Fin 0.

(** The power restricted to the bases 0 and 1, where it is exact. *)
Definition pow_zero_one (b e : xnum) : xnum :=
  match b with
  | Fin q => if Qeq_bool q 0 then Fin 0 else if Qeq_bool q 1 then Fin 1 else NaN
  | _ => NaN
  end.

(** Follows the spec's words: a sample at position [p] of a trimmed log of
    [m] samples is steady-state when it lies in the last 50% of the trimmed
    log, its acceleration is below 0.5 in absolute value and the desired
    speed exceeds 1. *)
Definition steady_state_as_specified (m p : nat) (acc desired : xnum) : bool :=
  (m <=? 2 * p)%nat && xltb (xabs acc) (Fin 0.5) && xgtb desired (Fin 1).

(** A column [0, step, 2 step, ...] and a constant column. *)
Definition ramp (n : nat) (step : Q) : list xnum :=
  map (fun i => Fin (inject_Z (Z.of_nat i) * step)) (seq 0 n).

Definition constant (n : nat) (v : Q) : list xnum := repeat (Fin v) n.

Definition log_of (n : nat) (data : list (string * list xnum)) : Scenario :=
  mkScenario (mkDataFrame (sample_index n) data) "straight_road_cacc_test".

(** Eleven samples at 100 Hz, lead vehicle stopped 5 m ahead of the ego:
    one sample is left after the trim and it violates FDCW-1. *)
Definition log_tail_violation : Scenario :=
  log_of 11
    [("time", ramp 11 0.01); ("ego_speed", constant 11 0);
     ("ACTOR_ego_x", constant 11 0); ("ACTOR_lead_x", constant 11 5);
     ("ACTOR_lead_speed", constant 11 0)].

(** Twenty-one samples, lead vehicle stopped 100 m ahead except at sample
    10, where it is 5 m ahead: only the first trimmed sample violates. *)
Definition log_early_violation : Scenario :=
  log_of 21
    [("time", ramp 21 0.01); ("ego_speed", constant 21 0);
     ("ACTOR_ego_x", constant 21 0);
     ("ACTOR_lead_x", (constant 10 100 ++ [Fin 5] ++ constant 10 100)%list);
     ("ACTOR_lead_speed", constant 21 0)].

(** No lead vehicle, ego creeping backwards at exactly [-epsilon]. *)
Definition log_creeping : Scenario :=
  log_of 12 [("time", ramp 12 0.01); ("ego_speed", constant 12 (-0.000001))].

(** No lead vehicle, ego cruising at 5 m/s. *)
Definition log_cruising : Scenario :=
  log_of 21 [("time", ramp 21 0.01); ("ego_speed", constant 21 5)].

(** Twelve samples: lead at 10 m/s, ego steadily at 5 m/s (50% error). *)
Definition log_slow_ego : Scenario :=
  log_of 12
    [("time", ramp 12 0.01); ("ego_speed", constant 12 5);
     ("ACTOR_ego_x", constant 12 0); ("ACTOR_lead_x", constant 12 100);
     ("ACTOR_lead_speed", constant 12 10)].

(** Thirty samples: lead at 10 m/s, ego at 10 m/s except at samples 11 and
    12, where it runs at 5 m/s. *)
Definition log_early_dip : Scenario :=
  log_of 30
    [("time", ramp 30 0.01);
     ("ego_speed", (constant 11 10 ++ [Fin 5; Fin 5] ++ constant 17 10)%list);
     ("ACTOR_ego_x", constant 30 0); ("ACTOR_lead_x", constant 30 100);
     ("ACTOR_lead_speed", constant 30 10)].

(** Twenty-one samples, lead vehicle stopped 100 m ahead of the ego: no
    sample violates FDCW-1. *)
Definition log_safe_following : Scenario :=
  log_of 21
    [("time", ramp 21 0.01); ("ego_speed", constant 21 0);
     ("ACTOR_ego_x", constant 21 0); ("ACTOR_lead_x", constant 21 100);
     ("ACTOR_lead_speed", constant 21 0)].

(** A log whose only lead-like column is named [ACTOR_leader_speed]. *)
Definition log_leader_only : Scenario :=
  log_of 21
    [("time", ramp 21 0.01); ("ego_speed", constant 21 5);
     ("ACTOR_leader_speed", constant 21 5)].

(** Eight samples only: nothing is left after the trim. *)
Definition log_too_short : Scenario :=
  log_of 8
    [("time", ramp 8 0.01); ("ego_speed", constant 8 5);
     ("ACTOR_ego_x", constant 8 0); ("ACTOR_lead_x", constant 8 1);
     ("ACTOR_lead_speed", constant 8 5)].

(** Thirty samples, lead at 10 m/s and ego at 9.5 m/s throughout. *)
Definition log_close_tracking : Scenario :=
  log_of 30
    [("time", ramp 30 0.01); ("ego_speed", constant 30 9.5);
     ("ACTOR_ego_x", constant 30 0); ("ACTOR_lead_x", constant 30 100);
     ("ACTOR_lead_speed", constant 30 10)].

(** A number without a fractional part. *)
Definition whole (q : Q) : Prop := inject_Z (Qfloor q) == q.

(** NumPy types the array [np.arange(0, duration, dt)] by the Python types
    of its arguments: int64 when both are [int]s, float64 otherwise, and
    [np.zeros_like(time)] has the type of [time].  A number that is not
    whole can only be a [float]: under [float_arguments] the arrays of the
    synthesizer are the float64 arrays of this model.  (Into an int64 array
    every assigned speed would be truncated.) *)
Definition float_arguments (duration dt : Q) : Prop :=
  ~ (whole duration /\ whole dt).

(** The grid [np.arange(0, duration, dt)] of [n] samples. *)
Definition grid (dt : Q) (n : nat) : list Q :=
  map (fun i => 0 + inject_Z (Z.of_nat i) * dt) (seq 0 n).

(** Cycle-local times of one cycle of 1000 samples at 50 Hz. *)
Definition local_grid : list Q :=
  map (fun j => inject_Z (Z.of_nat j) * 0.02) (seq 0 1000).

(** One stop-and-go cycle as [create_city_profile] writes it. *)
Definition stop_and_go (max_speed : Q) : list Q :=
  city_cycle max_speed local_grid (repeat 0 1000).

(** Follows the spec's words: the cycle-local elapsed time of a sample taken
    at time [t], for cycles of 20 seconds. *)
Definition cycle_local (t : Q) : Q :=
  t - cycle_duration * inject_Z (Qfloor (t / cycle_duration)).

(** Follows the spec's words, cruise phase only: whatever the step and the
    duration, a sample whose cycle-local time lies in (5, 10] holds
    [0.6 max]. *)
Definition city_cruise_as_specified (dt duration max_speed min_speed : Q)
  : Prop :=
  forall time k,
    arange 0 duration dt = Some time ->
    (k < List.length time)%nat ->
    5 < cycle_local (nth k time 0) <= 10 ->
    nth k (create_city_profile time max_speed min_speed) 0 == max_speed * 0.6.

End Vocabulary.
Export Vocabulary.

(* ================================================================== *)
(** * Facts about the number model *)
(* ================================================================== *)

Section NumberFacts.

Lemma Qltb_lt (x y : Q) : Qltb x y = true <-> x < y.
Proof.
  unfold Qltb. rewrite Qlt_alt. destruct (x ?= y); split; congruence.
Qed.

Lemma Qltb_ge (x y : Q) : Qltb x y = false <-> y <= x.
Proof.
  unfold Qltb. destruct (Qcompare_spec x y) as [E | L | G]; split; intro H;
    try reflexivity; try discriminate; try lra; exfalso; lra.
Qed.

Lemma Qleb_le (x y : Q) : Qleb x y = true <-> x <= y.
Proof.
  unfold Qleb. destruct (Qcompare_spec x y) as [E | L | G]; split; intro H;
    try reflexivity; try discriminate; try lra; exfalso; lra.
Qed.

Lemma Qleb_gt (x y : Q) : Qleb x y = false <-> y < x.
Proof.
  unfold Qleb. destruct (Qcompare_spec x y) as [E | L | G]; split; intro H;
    try reflexivity; try discriminate; try lra; exfalso; lra.
Qed.

Lemma Qltb_comp (x x' y y' : Q) : x == x' -> y == y' -> Qltb x y = Qltb x' y'.
Proof. intros Hx Hy. unfold Qltb. now rewrite Hx, Hy. Qed.

Lemma Qleb_comp (x x' y y' : Q) : x == x' -> y == y' -> Qleb x y = Qleb x' y'.
Proof. intros Hx Hy. unfold Qleb. now rewrite Hx, Hy. Qed.

Lemma inject_nat_nonneg (n : nat) : 0 <= inject_Z (Z.of_nat n).
Proof.
  change 0 with (inject_Z 0). rewrite <- Zle_Qle. lia.
Qed.

Lemma inject_nat_pos (n : nat) : (0 < n)%nat -> 0 < inject_Z (Z.of_nat n).
Proof.
  intro H. change 0 with (inject_Z 0). rewrite <- Zlt_Qlt. lia.
Qed.

Lemma inject_nat_S (n : nat) :
  inject_Z (Z.of_nat (S n)) == inject_Z (Z.of_nat n) + 1.
Proof.
  rewrite Nat2Z.inj_succ. unfold Z.succ. rewrite inject_Z_plus. reflexivity.
Qed.

Lemma inject_nat_le (a b : nat) :
  (a <= b)%nat -> inject_Z (Z.of_nat a) <= inject_Z (Z.of_nat b).
Proof. intro H. rewrite <- Zle_Qle. lia. Qed.

(** [int] of a non-negative whole number. *)
Lemma py_int_whole (x : Q) (z : Z) : (0 <= z)%Z -> x == inject_Z z -> py_int x = z.
Proof.
  intros Hz Hx. unfold py_int.
  assert (Hlt : Qltb x 0 = false).
  { apply Qltb_ge. rewrite Hx. change 0 with (inject_Z 0).
    now rewrite <- Zle_Qle. }
  rewrite Hlt, (Qfloor_comp _ _ Hx). apply Qfloor_Z.
Qed.

End NumberFacts.

(* ================================================================== *)
(** * Facts about masks and the time grid *)
(* ================================================================== *)

Section ArrayFacts.

(** Case analysis on every conditional of the goal. *)
Ltac destruct_ifs :=
  repeat match goal with
         | |- context [if ?c then _ else _] => destruct c
         end.

Lemma mask_assign_length (a : list Q) (mask : list bool) (vals : list Q) :
  List.length (mask_assign a mask vals) = List.length a.
Proof.
  revert mask vals.
  induction a as [| x a IH]; intros [| b mask] vals; simpl; try reflexivity.
  destruct b; [destruct vals |]; simpl; now rewrite IH.
Qed.

Lemma mask_fill_length (a : list Q) (mask : list bool) (c : Q) :
  List.length (mask_fill a mask c) = List.length a.
Proof.
  revert mask.
  induction a as [| x a IH]; intros [| b mask]; simpl; try reflexivity.
  now rewrite IH.
Qed.

Lemma zeros_like_length (a : list Q) : List.length (zeros_like a) = List.length a.
Proof. unfold zeros_like. apply length_map. Qed.

Lemma city_cycle_length (max_speed : Q) (cycle_time speeds : list Q) :
  List.length (city_cycle max_speed cycle_time speeds) = List.length speeds.
Proof.
  unfold city_cycle. destruct cycle_time as [| t ts]; [reflexivity |].
  destruct_ifs;
    repeat (rewrite ?mask_assign_length, ?mask_fill_length); reflexivity.
Qed.

Lemma update_slice_length (a : list Q) (start stop : nat)
    (f : list Q -> list Q) :
  (forall v, List.length (f v) = List.length v) ->
  List.length (update_slice a start stop f) = List.length a.
Proof.
  intro Hf. unfold update_slice, slice.
  rewrite !length_app, Hf, !length_firstn, !length_skipn. lia.
Qed.

Lemma city_loop_length (cycles : list nat) (time : list Q) (max_speed : Q)
    (speeds : list Q) :
  List.length speeds = List.length time ->
  List.length (city_loop cycles time max_speed speeds) = List.length time.
Proof.
  revert speeds.
  induction cycles as [| i rest IH]; intros speeds Hlen; simpl; [exact Hlen |].
  destruct (Nat.leb_spec (List.length time)
              (Z.to_nat (py_int (inject_Z (Z.of_nat i) * cycle_duration / 0.02))))
    as [Hge | Hlt]; [exact Hlen |].
  apply IH. rewrite update_slice_length; [exact Hlen | apply city_cycle_length].
Qed.

Lemma create_city_profile_length (time : list Q) (max_speed min_speed : Q) :
  List.length (create_city_profile time max_speed min_speed) = List.length time.
Proof.
  unfold create_city_profile. apply city_loop_length, zeros_like_length.
Qed.

Lemma create_mixed_profile_length (time : list Q) (max_speed min_speed : Q) :
  List.length (create_mixed_profile time max_speed min_speed) = List.length time.
Proof.
  unfold create_mixed_profile.
  destruct_ifs;
    repeat (rewrite ?mask_assign_length, ?mask_fill_length);
    apply zeros_like_length.
Qed.

Lemma create_highway_profile_length (sin : Q -> Q) (pi : Q) (time : list Q)
    (max_speed min_speed : Q) :
  List.length (create_highway_profile sin pi time max_speed min_speed)
  = List.length time.
Proof.
  unfold create_highway_profile.
  repeat (rewrite ?mask_assign_length, ?mask_fill_length).
  apply zeros_like_length.
Qed.

Lemma clip1_bounds (lo hi x : Q) : lo <= hi -> lo <= clip1 lo hi x <= hi.
Proof.
  intro H. unfold clip1.
  destruct (Qltb x lo) eqn:E1.
  - destruct (Qltb hi lo) eqn:E2.
    + apply Qltb_lt in E2. lra.
    + lra.
  - apply Qltb_ge in E1.
    destruct (Qltb hi x) eqn:E2.
    + lra.
    + apply Qltb_ge in E2. lra.
Qed.

Lemma clip_bounds (a : list Q) (lo hi : Q) :
  lo <= hi -> Forall (fun v => lo <= v <= hi) (clip a lo hi).
Proof.
  intro H. unfold clip. apply Forall_forall. intros v Hv.
  apply in_map_iff in Hv. destruct Hv as [x [<- _]]. now apply clip1_bounds.
Qed.

(** Whatever its length, the array built by [np.arange(0, duration, dt)]
    is a grid of step [dt] that starts at 0. *)
Lemma arange_is_grid (duration dt : Q) (time : list Q) :
  arange 0 duration dt = Some time -> exists n, time = grid dt n.
Proof.
  unfold arange. destruct (Qeq_bool dt 0); [discriminate |].
  destruct (arange_length 0 duration dt) as [n |]; [| discriminate].
  intro H. injection H as <-. exists n. reflexivity.
Qed.

End ArrayFacts.

(* ================================================================== *)
(** * The synthesizer: dispatch, time grid and bounds *)
(* ================================================================== *)

Section SynthesizerClaims.

Variable sin : Q -> Q.
Variable pi : Q.

(** C9. A [scenario_type] other than "highway", "city" and "mixed" yields
    exactly the drive cycle of "mixed" for the same numeric inputs. *)
Theorem C9_unrecognized_scenario_falls_back_to_mixed
    (duration dt max_speed min_speed : Q) (scenario_type : string) :
  scenario_type <> "highway"%string ->
  scenario_type <> "city"%string ->
  scenario_type <> "mixed"%string ->
  create_cacc_optimized_drive_cycle sin pi duration dt max_speed min_speed
    scenario_type
  = create_cacc_optimized_drive_cycle sin pi duration dt max_speed min_speed
      "mixed"%string.
Proof.
  intros Hh Hc _. unfold create_cacc_optimized_drive_cycle.
  destruct (arange 0 duration dt) as [time |]; [| reflexivity].
  destruct (String.eqb_spec scenario_type "highway"); [contradiction |].
  destruct (String.eqb_spec scenario_type "city"); [contradiction |].
  reflexivity.
Qed.

(** C4 (the code departs from it). For a duration of 0.14 s and the default
    step of 0.02 s the quotient [0.14 / 0.02] is [7.000000000000001] in
    binary64, so that [np.arange] returns eight samples and not seven. The
    last one is [7 * 0.02], which is the duration itself, in binary64 as
    over the rationals: the time grid does not stop short of the duration.
    This holds for every scenario type. *)
Theorem C4_last_sample_reaches_the_duration (scenario_type : string) :
  (exists x, F64.to_Q (F64.div (F64.of_Q 0.14) (F64.of_Q 0.02)) = Some x
             /\ 7 < x)
  /\ F64.mul (F64.of_Q 7) (F64.of_Q 0.02) = F64.of_Q 0.14
  /\ exists c,
       create_cacc_optimized_drive_cycle sin pi 0.14 0.02 30 5 scenario_type
       = Some c
       /\ List.length (cycle_time c) = 8%nat
       /\ List.length (cycle_speed c) = 8%nat
       /\ nth 7 (cycle_time c) 0 == 0.14
       /\ ~ (forall i, (i < List.length (cycle_time c))%nat ->
               nth i (cycle_time c) 0 < 0.14).
Proof.
  split; [eexists; split; [vm_compute; reflexivity | reflexivity] |].
  split; [vm_compute; reflexivity |].
  assert (Har : arange 0 0.14 0.02 = Some (grid 0.02 8))
    by (vm_compute; reflexivity).
  unfold create_cacc_optimized_drive_cycle. rewrite Har.
  eexists. split; [reflexivity |]. cbn [cycle_time cycle_speed].
  split; [reflexivity |]. split.
  { unfold clip. rewrite length_map.
    destruct (String.eqb scenario_type "highway");
      [apply create_highway_profile_length |].
    destruct (String.eqb scenario_type "city");
      [apply create_city_profile_length | apply create_mixed_profile_length]. }
  split; [reflexivity |].
  intro H. specialize (H 7%nat). cbv in H.
  assert (Hlt : (7 < 8)%nat) by lia. specialize (H Hlt). discriminate H.
Qed.

End SynthesizerClaims.

Lemma C9_witness :
  create_cacc_optimized_drive_cycle (fun x => x) 3 100 0.02 30 5 "rural"%string
  = create_cacc_optimized_drive_cycle (fun x => x) 3 100 0.02 30 5 "mixed"%string.
Proof.
  apply (C9_unrecognized_scenario_falls_back_to_mixed (fun x => x) 3
           100 0.02 30 5 "rural"%string); discriminate.
Defined.

(* ================================================================== *)
(** * The validator on a constant-speed series *)
(* ================================================================== *)

Section ValidatorFacts.

Lemma is_zero_inv (v : xnum) : is_zero v -> exists q, v = Fin q /\ q == 0.
Proof.
  destruct v as [q | | |]; simpl; intro H; try contradiction.
  exists q. split; [reflexivity | exact H].
Qed.

Lemma np_diff_fin (ts : list Q) :
  increasing ts ->
  exists ds, np_diff (map Fin ts) = map Fin ds
             /\ Forall (fun d => 0 < d) ds
             /\ List.length ds = (List.length ts - 1)%nat.
Proof.
  induction ts as [| a [| b rest] IH]; intro Hinc.
  - exists []. repeat split; constructor.
  - exists []. repeat split; constructor.
  - destruct Hinc as [Hab Hrest].
    destruct (IH Hrest) as [ds [Hds [Hpos Hlen]]].
    exists ((b + - a) :: ds).
    split; [| split].
    + change (np_diff (map Fin (a :: b :: rest)))
        with (xsub (Fin b) (Fin a) :: np_diff (map Fin (b :: rest))).
      now rewrite Hds.
    + constructor; [lra | exact Hpos].
    + simpl in *. lia.
Qed.

Lemma fold_xadd_fin (l : list Q) (a : Q) :
  fold_left xadd (map Fin l) (Fin a) = Fin (fold_left Qplus l a).
Proof.
  revert a. induction l as [| x l IH]; intro a; simpl; [reflexivity | apply IH].
Qed.

Lemma fold_Qplus_pos (l : list Q) (a : Q) :
  Forall (fun d => 0 < d) l -> 0 <= a -> l <> [] -> 0 < fold_left Qplus l a.
Proof.
  revert a. induction l as [| x l IH]; intros a Hl Ha Hne; [congruence |].
  inversion Hl as [| ? ? Hx Hl']; subst. simpl.
  destruct l as [| y l'].
  - simpl. lra.
  - apply IH; [exact Hl' | lra | discriminate].
Qed.

(** The effective step of a strictly increasing time column is a positive
    finite number. *)
Lemma mean_step_positive (ts : list Q) :
  (2 <= List.length ts)%nat -> increasing ts ->
  exists d, np_mean (np_diff (map Fin ts)) = Fin d /\ 0 < d.
Proof.
  intros Hlen Hinc.
  destruct (np_diff_fin ts Hinc) as [ds [Hds [Hpos Hdl]]].
  rewrite Hds.
  destruct ds as [| d0 ds']; [simpl in Hdl; lia |].
  unfold np_mean, np_sum. cbn [map].
  change (Fin d0 :: map Fin ds') with (map Fin (d0 :: ds')).
  rewrite fold_xadd_fin, length_map. unfold of_nat, xdiv.
  set (n := inject_Z (Z.of_nat (List.length (d0 :: ds')))).
  set (s := fold_left Qplus (d0 :: ds') 0).
  assert (Hn : 0 < n) by (apply inject_nat_pos; simpl; lia).
  assert (Hs : 0 < s).
  { apply fold_Qplus_pos; [exact Hpos | lra | discriminate]. }
  assert (Hcmp : (n ?= 0) = Gt) by (now apply Qgt_alt).
  rewrite Hcmp. exists (s / n). split; [reflexivity |].
  apply Qlt_shift_div_l; lra.
Qed.

Lemma xdiv_difference_zero (a b d : Q) :
  a == b -> 0 < d -> is_zero (xdiv (xsub (Fin a) (Fin b)) (Fin d)).
Proof.
  intros Hab Hd. unfold xsub, xopp, xadd, xdiv.
  assert (Hcmp : (d ?= 0) = Gt) by (now apply Qgt_alt).
  rewrite Hcmp. unfold is_zero, xeq. field_simplify_eq; lra.
Qed.

Lemma all_equal_pair (c : Q) (u v : xnum) (d : Q) :
  xeq u (Fin c) -> xeq v (Fin c) -> 0 < d ->
  is_zero (xdiv (xsub u v) (Fin d)).
Proof.
  intros Hu Hv Hd.
  destruct u as [a | | |]; simpl in Hu; try contradiction.
  destruct v as [b | | |]; simpl in Hv; try contradiction.
  apply xdiv_difference_zero; [lra | exact Hd].
Qed.

Lemma central_differences_constant (c d : Q) (speed : list xnum) :
  all_equal_to c speed -> 0 < d ->
  Forall is_zero
    (map (fun x => xdiv x (xmul (Fin 2) (Fin d))) (central_differences speed)).
Proof.
  intros Hall Hd. apply Forall_forall. intros v Hv.
  apply in_map_iff in Hv. destruct Hv as [x [<- Hx]].
  unfold central_differences in Hx. apply in_map_iff in Hx.
  destruct Hx as [[u w] [<- Huw]]. simpl.
  pose proof (in_combine_l _ _ _ _ Huw) as Hu.
  pose proof (in_combine_r _ _ _ _ Huw) as Hw.
  assert (Hu' : In u speed).
  { rewrite <- (firstn_skipn 2 speed). apply in_or_app. now right. }
  unfold all_equal_to in Hall. rewrite Forall_forall in Hall.
  apply (all_equal_pair c); [now apply Hall | now apply Hall | lra].
Qed.

Lemma gradient_constant (c d : Q) (speed : list xnum) :
  (2 <= List.length speed)%nat -> all_equal_to c speed -> 0 < d ->
  exists acc, gradient speed (Fin d) = ret acc
              /\ Forall is_zero acc
              /\ List.length acc = List.length speed.
Proof.
  intros Hlen Hall Hd. unfold gradient.
  destruct speed as [| f0 [| f1 rest]]; try (simpl in Hlen; lia).
  destruct (rev (f0 :: f1 :: rest)) as [| l1 [| l2 tl]] eqn:Hrev.
  - apply (f_equal (@List.length xnum)) in Hrev.
    rewrite length_rev in Hrev. discriminate.
  - apply (f_equal (@List.length xnum)) in Hrev.
    rewrite length_rev in Hrev. discriminate.
  - assert (Hin : forall v, In v (l1 :: l2 :: tl) -> xeq v (Fin c)).
    { intros v Hv. rewrite <- Hrev in Hv. apply in_rev in Hv.
      unfold all_equal_to in Hall. rewrite Forall_forall in Hall.
      now apply Hall. }
    assert (Hin0 : forall v, In v (f0 :: f1 :: rest) -> xeq v (Fin c)).
    { unfold all_equal_to in Hall. now rewrite Forall_forall in Hall. }
    eexists. split; [reflexivity |]. split.
    + constructor.
      * apply (all_equal_pair c); [apply Hin0 | apply Hin0 | exact Hd];
          simpl; auto.
      * apply Forall_app. split.
        -- now apply (central_differences_constant c).
        -- constructor; [| constructor].
           apply (all_equal_pair c); [apply Hin | apply Hin | exact Hd];
             simpl; auto.
    + cbn [List.length]. rewrite length_app, length_map.
      unfold central_differences. rewrite length_map, length_combine.
      cbn [skipn List.length]. lia.
Qed.

Lemma fold_xmax_zero (acc : list xnum) (a : xnum) :
  is_zero a -> Forall is_zero acc -> is_zero (fold_left xmax acc a).
Proof.
  revert a. induction acc as [| x acc IH]; intros a Ha Hall; [exact Ha |].
  inversion Hall as [| ? ? Hx Hrest]; subst. simpl. apply IH; [| exact Hrest].
  destruct (is_zero_inv _ Ha) as [qa [-> _]].
  destruct (is_zero_inv _ Hx) as [qx [-> _]].
  unfold xmax. simpl. destruct (Qltb qa qx); assumption.
Qed.

Lemma fold_xmin_zero (acc : list xnum) (a : xnum) :
  is_zero a -> Forall is_zero acc -> is_zero (fold_left xmin acc a).
Proof.
  revert a. induction acc as [| x acc IH]; intros a Ha Hall; [exact Ha |].
  inversion Hall as [| ? ? Hx Hrest]; subst. simpl. apply IH; [| exact Hrest].
  destruct (is_zero_inv _ Ha) as [qa [-> _]].
  destruct (is_zero_inv _ Hx) as [qx [-> _]].
  unfold xmin. simpl. destruct (Qltb qx qa); assumption.
Qed.

Lemma steady_mask_zero (acc : list xnum) :
  Forall is_zero acc ->
  count_true (steady_mask acc) = List.length acc
  /\ List.length (steady_mask acc) = List.length acc.
Proof.
  intro Hall. unfold steady_mask. rewrite length_map. split; [| reflexivity].
  unfold count_true. induction Hall as [| x l Hx Hl IH]; [reflexivity |].
  destruct (is_zero_inv _ Hx) as [q [-> Hq]]. simpl.
  assert (Hlt : Qltb (Qabs q) 0.5 = true).
  { apply Qltb_lt. rewrite Hq. reflexivity. }
  rewrite Hlt. simpl. now rewrite IH.
Qed.

Lemma combine_nth_lt {A B} (a : list A) (b : list B) (i : nat) (da : A) (db : B) :
  (i < List.length a)%nat -> (i < List.length b)%nat ->
  nth i (combine a b) (da, db) = (nth i a da, nth i b db).
Proof.
  revert b i. induction a as [| x a IH]; intros [| y b] [| i] Ha Hb;
    simpl in *; try lia; try reflexivity.
  apply IH; lia.
Qed.

Lemma central_differences_nth (f : list xnum) (i : nat) :
  (i + 2 < List.length f)%nat ->
  nth i (central_differences f) NaN = xsub (nth (i + 2) f NaN) (nth i f NaN).
Proof.
  intro Hi. unfold central_differences.
  set (g := fun ab : xnum * xnum => xsub (fst ab) (snd ab)).
  rewrite (nth_indep _ NaN (g (NaN, NaN)))
    by (rewrite length_map, length_combine, length_skipn; lia).
  rewrite (map_nth g), combine_nth_lt by (rewrite ?length_skipn; lia).
  unfold g. cbn [fst snd]. rewrite nth_skipn. f_equal. f_equal. lia.
Qed.

(** The shape of [np.gradient]: one-sided differences at both ends, central
    differences over two steps inside. *)
Lemma gradient_shape (f : list xnum) (dx : xnum) (acc : list xnum) :
  gradient f dx = ret acc ->
  let n := List.length f in
  List.length acc = n
  /\ (2 <= n)%nat
  /\ nth 0 acc NaN = xdiv (xsub (nth 1 f NaN) (nth 0 f NaN)) dx
  /\ (forall i, (0 < i)%nat -> (i + 1 < n)%nat ->
        nth i acc NaN
        = xdiv (xsub (nth (i + 1) f NaN) (nth (i - 1) f NaN))
               (xmul (Fin 2) dx))
  /\ nth (n - 1) acc NaN
     = xdiv (xsub (nth (n - 1) f NaN) (nth (n - 2) f NaN)) dx.
Proof.
  unfold gradient. set (d2 := xmul (Fin 2) dx). intro H.
  destruct f as [| f0 [| f1 rest]]; try discriminate.
  destruct (rev (f0 :: f1 :: rest)) as [| l1 [| l2 tl]] eqn:Hrev;
    try discriminate.
  injection H as <-. cbv zeta.
  set (f := f0 :: f1 :: rest) in *.
  assert (Lf : List.length f = S (S (List.length rest))) by reflexivity.
  assert (Lc : List.length
                 (map (fun d => xdiv d d2) (central_differences f))
               = List.length rest).
  { unfold central_differences. rewrite !length_map, length_combine.
    unfold f. cbn [skipn List.length]. lia. }
  assert (Hf : f = rev tl ++ [l2; l1]).
  { rewrite <- (rev_involutive f), Hrev. cbn [rev].
    now rewrite <- app_assoc. }
  assert (Ltl : List.length (rev tl) = List.length rest).
  { apply (f_equal (@List.length xnum)) in Hf.
    rewrite length_app, Lf in Hf. simpl in Hf. lia. }
  assert (Hl1 : nth (List.length f - 1) f NaN = l1).
  { rewrite Lf. rewrite Hf at 1. rewrite app_nth2 by lia.
    replace (S (S (List.length rest)) - 1 - List.length (rev tl))%nat
      with 1%nat by lia.
    reflexivity. }
  assert (Hl2 : nth (List.length f - 2) f NaN = l2).
  { rewrite Lf. rewrite Hf at 1. rewrite app_nth2 by lia.
    replace (S (S (List.length rest)) - 2 - List.length (rev tl))%nat
      with 0%nat by lia.
    reflexivity. }
  split.
  { cbn [List.length]. rewrite length_app, Lc, Lf. simpl. lia. }
  split; [lia |]. split; [reflexivity |]. split.
  - intros i Hi Hn. destruct i as [| i]; [lia |]. cbn [nth].
    rewrite app_nth1 by (rewrite Lc; lia).
    set (g := fun d => xdiv d d2).
    rewrite (nth_indep _ NaN (g NaN)) by (fold g in Lc; rewrite Lc; lia).
    rewrite (map_nth g), central_differences_nth by lia. unfold g.
    replace (S i + 1)%nat with (i + 2)%nat by lia.
    replace (S i - 1)%nat with i by lia. reflexivity.
  - rewrite Hl1, Hl2, Lf.
    replace (S (S (List.length rest)) - 1)%nat with (S (List.length rest))
      by lia.
    cbn [nth]. rewrite app_nth2 by (rewrite Lc; lia).
    rewrite Lc, Nat.sub_diag. reflexivity.
Qed.

End ValidatorFacts.

(** C10. On a series of at least two samples with strictly increasing time
    and one constant finite speed, [validate_drive_cycle] returns statistics
    whose steady-state percentage is 100 and whose maximum acceleration and
    deceleration are 0; the acceleration it uses is the gradient of the
    speed at the mean sample spacing, zero at every sample. *)
Theorem C10_constant_speed_is_fully_steady (ts : list Q) (speed : list xnum)
    (c : Q) :
  (2 <= List.length ts)%nat ->
  increasing ts ->
  List.length speed = List.length ts ->
  all_equal_to c speed ->
  exists stats acc,
    validate_drive_cycle (mkFrame (map Fin ts) speed) = ret stats
    /\ gradient speed (np_mean (np_diff (map Fin ts))) = ret acc
    /\ Forall is_zero acc
    /\ xeq (steady_state_percentage stats)
           (xmul (xdiv (of_nat (count_true (steady_mask acc)))
                       (of_nat (List.length acc))) (Fin 100))
    /\ xeq (steady_state_percentage stats) (Fin 100)
    /\ xeq (max_acceleration stats) (Fin 0)
    /\ xeq (max_deceleration stats) (Fin 0).
Proof.
  intros Hlen Hinc Hsl Hall.
  destruct (mean_step_positive ts Hlen Hinc) as [d [Hdt Hd]].
  assert (Hlen' : (2 <= List.length speed)%nat) by lia.
  destruct (gradient_constant c d speed Hlen' Hall Hd) as [acc [Hg [Hz Hal]]].
  destruct (steady_mask_zero acc Hz) as [Hcount Hml].
  unfold validate_drive_cycle. cbn [frame_time frame_speed].
  rewrite Hdt, Hg. cbn [bind ret].
  destruct acc as [| a0 acc']; [simpl in Hal; lia |].
  cbn [np_max np_min bind ret].
  destruct speed as [| s0 speed']; [simpl in Hlen'; lia |].
  cbn [np_max np_min bind ret].
  destruct ts as [| t0 ts']; [simpl in Hlen; lia |].
  cbn [map].
  destruct (rev (Fin t0 :: map Fin ts')) as [| tn tl] eqn:Hrev.
  { apply (f_equal (@List.length xnum)) in Hrev.
    rewrite length_rev in Hrev. discriminate. }
  inversion Hz as [| ? ? Ha0 Hz']; subst.
  set (n := List.length (a0 :: acc')) in *.
  assert (Hpct : xeq (xmul (xdiv (of_nat (count_true (steady_mask (a0 :: acc'))))
                                 (of_nat (List.length (steady_mask (a0 :: acc')))))
                           (Fin 100)) (Fin 100)).
  { rewrite Hcount, Hml. fold n. unfold of_nat, xdiv.
    assert (Hn : 0 < inject_Z (Z.of_nat n))
      by (apply inject_nat_pos; unfold n; simpl; lia).
    assert (Hcmp : (inject_Z (Z.of_nat n) ?= 0) = Gt) by (now apply Qgt_alt).
    rewrite Hcmp. cbn [xmul xeq]. field. lra. }
  eexists. exists (a0 :: acc').
  split; [reflexivity |]. split; [reflexivity |]. split; [exact Hz |].
  cbn [steady_state_percentage max_acceleration max_deceleration].
  split.
  { rewrite Hml. fold n.
    destruct (xmul (xdiv (of_nat (count_true (steady_mask (a0 :: acc'))))
                         (of_nat n)) (Fin 100)) as [q | | |]; simpl; auto.
    reflexivity. }
  split; [exact Hpct |].
  split; [now apply fold_xmax_zero | now apply fold_xmin_zero].
Qed.

Lemma C10_witness :
  exists stats,
    validate_drive_cycle
      (mkFrame (map Fin [0; 0.02; 0.04]) [Fin 12; Fin 12; Fin 12]) = ret stats
    /\ xeq (steady_state_percentage stats) (Fin 100)
    /\ xeq (max_acceleration stats) (Fin 0)
    /\ xeq (max_deceleration stats) (Fin 0).
Proof.
  destruct (C10_constant_speed_is_fully_steady [0; 0.02; 0.04]
              [Fin 12; Fin 12; Fin 12] 12)
    as [stats [acc [Hv [_ [_ [_ [Hp [Ha Hd]]]]]]]].
  - simpl. lia.
  - simpl. repeat split; reflexivity.
  - reflexivity.
  - repeat constructor; reflexivity.
  - exists stats. auto.
Defined.

(* ================================================================== *)
(** * Facts about Series built over one index *)
(* ================================================================== *)

Section SeriesFacts.

Lemma zip_with_length {A B C} (f : A -> B -> C) (a : list A) (b : list B) :
  List.length a = List.length b ->
  List.length (zip_with f a b) = List.length a.
Proof.
  intro H. unfold zip_with. rewrite length_map, length_combine. lia.
Qed.

Lemma smap_combine {A B} (f : A -> B) (idx : list Z) (v : list A) :
  smap f (combine idx v) = combine idx (map f v).
Proof.
  revert v. induction idx as [| l idx IH]; intros [| x v]; simpl;
    try reflexivity.
  unfold smap in *. simpl. now rewrite IH.
Qed.

Lemma szip_combine {A B C} (f : A -> B -> C) (idx : list Z)
    (a : list A) (b : list B) :
  szip f (combine idx a) (combine idx b) = combine idx (zip_with f a b).
Proof.
  revert a b. induction idx as [| l idx IH]; intros [| x a] [| y b]; simpl;
    try reflexivity.
  unfold szip, zip_with in *. simpl. now rewrite IH.
Qed.

Lemma any_combine (idx : list Z) (flags : list bool) :
  List.length idx = List.length flags ->
  any (combine idx flags) = true <-> first_true flags <> None.
Proof.
  revert flags. induction idx as [| l idx IH]; intros [| b flags] Hlen;
    simpl in *; try discriminate.
  - split; [discriminate | congruence].
  - destruct b; simpl.
    + split; [discriminate | reflexivity].
    + unfold any in IH. rewrite IH by lia.
      destruct (first_true flags); simpl; split; congruence.
Qed.

Lemma find_first_true (idx : list Z) (flags : list bool) (p : nat) :
  List.length idx = List.length flags ->
  first_true flags = Some p ->
  find snd (combine idx flags) = Some (nth p idx 0%Z, true)
  /\ (p < List.length idx)%nat.
Proof.
  revert flags p.
  induction idx as [| l idx IH]; intros [| b flags] p Hlen Hp;
    simpl in *; try discriminate.
  destruct b; simpl.
  - injection Hp as <-. split; [reflexivity | lia].
  - destruct (first_true flags) as [q |] eqn:Hq; [| discriminate].
    injection Hp as <-.
    destruct (IH flags q ltac:(lia) Hq) as [Hfind Hlt].
    split; [exact Hfind | lia].
Qed.

Lemma idxmax_bool_combine (idx : list Z) (flags : list bool) (p : nat) :
  List.length idx = List.length flags ->
  first_true flags = Some p ->
  idxmax_bool (combine idx flags) = ret (nth p idx 0%Z)
  /\ (p < List.length idx)%nat.
Proof.
  intros Hlen Hp. unfold idxmax_bool.
  destruct (find_first_true idx flags p Hlen Hp) as [-> Hlt].
  split; [reflexivity | exact Hlt].
Qed.

Lemma iloc_combine_inside {A} (idx : list Z) (v : list A) (i : nat) (d : A) :
  List.length idx = List.length v ->
  (i < List.length v)%nat ->
  iloc (combine idx v) (Z.of_nat i) = ret (nth i v d).
Proof.
  intros Hlen Hi. unfold iloc. rewrite length_combine, Hlen, Nat.min_id.
  assert (H0 : (Z.of_nat i <? 0)%Z = false) by (apply Z.ltb_ge; lia).
  rewrite H0.
  assert (H1 : ((0 <=? Z.of_nat i) && (Z.of_nat i <? Z.of_nat (List.length v)))%Z%bool
               = true).
  { apply andb_true_iff. split; [apply Z.leb_le | apply Z.ltb_lt]; lia. }
  rewrite H1, Nat2Z.id.
  destruct (nth_error (combine idx v) i) as [[l x] |] eqn:Hn.
  - f_equal.
    pose proof (nth_error_nth _ _ (0%Z, d) Hn) as Hnth.
    rewrite combine_nth in Hnth by exact Hlen.
    now injection Hnth as _ <-.
  - apply nth_error_None in Hn. rewrite length_combine in Hn. lia.
Qed.

Lemma iloc_combine_outside {A} (idx : list Z) (v : list A) (i : Z) :
  (Z.of_nat (List.length (combine idx v)) <= i)%Z ->
  iloc (combine idx v) i = raise IndexError.
Proof.
  intro Hi. unfold iloc.
  assert (H0 : (i <? 0)%Z = false) by (apply Z.ltb_ge; lia).
  rewrite H0.
  assert (H1 : (i <? Z.of_nat (List.length (combine idx v)))%Z = false)
    by (apply Z.ltb_ge; lia).
  rewrite H1, andb_false_r. reflexivity.
Qed.

Lemma lookup_iloc_from (k : nat) (name : string)
    (data : list (string * list xnum)) :
  lookup name (map (fun c => (fst c, skipn k (snd c))) data)
  = option_map (skipn k) (lookup name data).
Proof.
  induction data as [| [key v] data IH]; simpl; [reflexivity |].
  destruct (String.eqb key name); [reflexivity | exact IH].
Qed.

Lemma columns_iloc_from (k : nat) (df : DataFrame) :
  columns (iloc_from k df) = columns df.
Proof.
  unfold columns, iloc_from. simpl. rewrite map_map. reflexivity.
Qed.

Lemma sample_index_trimmed (k n : nat) :
  skipn k (sample_index n) = map Z.of_nat (seq k (n - k)).
Proof.
  unfold sample_index. rewrite skipn_map, skipn_seq. reflexivity.
Qed.

Lemma lookup_well_formed (df : DataFrame) (name : string) (v : list xnum) :
  well_formed df -> lookup name (df_data df) = Some v ->
  List.length v = len df.
Proof.
  unfold well_formed, len. intros Hwf.
  induction (df_data df) as [| [key w] data IH]; simpl; [discriminate |].
  inversion Hwf as [| ? ? Hw Hrest]; subst.
  destruct (String.eqb key name).
  - intro H. injection H as <-. exact Hw.
  - now apply IH.
Qed.

End SeriesFacts.

(* ================================================================== *)
(** * FDCW-1: what the evaluator returns *)
(* ================================================================== *)

Section Fdcw1Facts.

Variable xpow : xnum -> xnum -> xnum.

Local Open Scope string_scope.

Lemma any_first_true_none (idx : list Z) (flags : list bool) :
  List.length idx = List.length flags ->
  first_true flags = None -> any (combine idx flags) = false.
Proof.
  intros Hlen Hnone.
  destruct (any (combine idx flags)) eqn:Hany; [| reflexivity].
  apply any_combine in Hany; [contradiction | exact Hlen].
Qed.

Lemma any_first_true_some (idx : list Z) (flags : list bool) (p : nat) :
  List.length idx = List.length flags ->
  first_true flags = Some p -> any (combine idx flags) = true.
Proof.
  intros Hlen Hsome. apply any_combine; [exact Hlen | congruence].
Qed.

Lemma trimmed_label (m p : nat) :
  (p < m)%nat -> nth p (map Z.of_nat (seq 10 m)) 0%Z = Z.of_nat (p + 10).
Proof.
  intro Hp. change 0%Z with (Z.of_nat 0).
  rewrite map_nth, seq_nth by exact Hp. f_equal. lia.
Qed.

(** The outcome of FDCW-1 on a log indexed by sample number: it passes when
    no trimmed sample violates; otherwise the label [p + 10] of the first
    violating position [p] is used as a position, so that the report carries
    the sample ten places further on, or the lookup leaves the frame. *)
Theorem fdcw1_outcome (sc : Scenario) (m : nat)
    (lead_x ego_x lead_speed time : list xnum) :
  fdcw1_view sc m lead_x ego_x lead_speed time ->
  test_minimum_following_distance_requirement xpow sc
  = match first_true (violation_flags xpow lead_x ego_x lead_speed) with
    | None => Passed
    | Some p =>
        if (p + 10 <? m)%nat then
          Violation
            (mkFdcw1 (nth (p + 10) time NaN)
               (nth (p + 10) (following_distances_of lead_x ego_x) NaN)
               (nth (p + 10) (min_allowed_distances_of xpow lead_speed) NaN)
               (nth (p + 10) (map lead_speed_mph_of lead_speed) NaN))
        else Aborted IndexError
    end.
Proof.
  intros [Hlead Hidx Hlx Hex Hls Htm Llx Lex Lls Ltm].
  unfold test_minimum_following_distance_requirement.
  destruct (lead_vehicle_columns (iloc_from 10 (scenario_df sc)))
    as [| c0 cs]; [contradiction |].
  unfold col. rewrite Hlx, Hex, Hls, Htm, Hidx. cbn [bind ret run].
  set (idx := map Z.of_nat (seq 10 m)).
  assert (Lidx : List.length idx = m)
    by (unfold idx; now rewrite length_map, length_seq).
  rewrite !smap_combine, !szip_combine.
  fold (following_distances_of lead_x ego_x).
  fold (min_allowed_distances_of xpow lead_speed).
  fold (violation_flags xpow lead_x ego_x lead_speed).
  assert (Lfd : List.length (following_distances_of lead_x ego_x) = m).
  { unfold following_distances_of. rewrite zip_with_length; lia. }
  assert (Lmph : List.length (map lead_speed_mph_of lead_speed) = m)
    by now rewrite length_map.
  assert (Lma : List.length (min_allowed_distances_of xpow lead_speed) = m).
  { unfold min_allowed_distances_of. now rewrite !length_map. }
  assert (Lfl : List.length (violation_flags xpow lead_x ego_x lead_speed) = m).
  { unfold violation_flags. rewrite zip_with_length; lia. }
  destruct (first_true (violation_flags xpow lead_x ego_x lead_speed))
    as [p |] eqn:Hfirst.
  - rewrite (any_first_true_some idx _ p) by (lia || exact Hfirst).
    destruct (idxmax_bool_combine idx
                (violation_flags xpow lead_x ego_x lead_speed) p
                ltac:(lia) Hfirst) as [-> Hp].
    unfold idx at 1. rewrite trimmed_label by lia. cbn [bind ret].
    destruct (Nat.ltb_spec (p + 10) m) as [Hin | Hout].
    + rewrite (iloc_combine_inside idx _ (p + 10) NaN) by lia.
      cbn [bind ret].
      rewrite (iloc_combine_inside idx _ (p + 10) NaN) by lia.
      cbn [bind ret].
      rewrite (iloc_combine_inside idx _ (p + 10) NaN) by lia.
      cbn [bind ret].
      rewrite (iloc_combine_inside idx _ (p + 10) NaN) by lia.
      reflexivity.
    + rewrite iloc_combine_outside; [reflexivity |].
      rewrite length_combine. lia.
  - rewrite (any_first_true_none idx _) by (lia || exact Hfirst).
    reflexivity.
Qed.

(** On such a log FDCW-1 passes exactly when no trimmed sample violates. *)
Corollary fdcw1_passes_iff (sc : Scenario) (m : nat)
    (lead_x ego_x lead_speed time : list xnum) :
  fdcw1_view sc m lead_x ego_x lead_speed time ->
  test_minimum_following_distance_requirement xpow sc = Passed
  <-> (forall p, nth p (violation_flags xpow lead_x ego_x lead_speed) false = false).
Proof.
  intro Hview. rewrite (fdcw1_outcome sc m _ _ _ _ Hview).
  generalize (violation_flags xpow lead_x ego_x lead_speed). intro flags.
  split.
  - destruct (first_true flags) as [p |] eqn:Hfirst.
    + destruct (p + 10 <? m)%nat; discriminate.
    + intros _. clear - Hfirst. induction flags as [| b flags IH].
      * intros [| p]; reflexivity.
      * simpl in Hfirst. destruct b; [discriminate |].
        destruct (first_true flags); [discriminate |].
        intros [| p]; [reflexivity | now apply IH].
  - intro Hall. assert (Hnone : first_true flags = None).
    { clear - Hall. induction flags as [| b flags IH]; [reflexivity |].
      pose proof (Hall O) as H0. simpl in H0. subst b. simpl.
      rewrite IH; [reflexivity |]. intro p. exact (Hall (S p)). }
    now rewrite Hnone.
Qed.

(** Without a lead-vehicle column FDCW-1 is skipped. *)
Theorem fdcw1_skips_without_lead (sc : Scenario) :
  lead_vehicle_columns (scenario_df sc) = [] ->
  test_minimum_following_distance_requirement xpow sc = Skipped.
Proof.
  intro H. unfold test_minimum_following_distance_requirement.
  unfold lead_vehicle_columns in *. rewrite columns_iloc_from, H. reflexivity.
Qed.

Lemma trimmed_lookup (df : DataFrame) (name : string) (v : list xnum) :
  well_formed df ->
  lookup name (df_data df) = Some v ->
  lookup name (df_data (iloc_from 10 df)) = Some (skipn 10 v)
  /\ List.length (skipn 10 v) = (len df - 10)%nat.
Proof.
  intros Hwf Hv. cbn [iloc_from df_data].
  rewrite lookup_iloc_from, Hv. split; [reflexivity |].
  rewrite length_skipn, (lookup_well_formed df name v Hwf Hv). reflexivity.
Qed.

Lemma trimmed_index (df : DataFrame) :
  sample_indexed df ->
  df_index (iloc_from 10 df) = map Z.of_nat (seq 10 (len df - 10)).
Proof.
  intro H. cbn [iloc_from df_index]. rewrite H. apply sample_index_trimmed.
Qed.

(** A well-formed log indexed by sample number that has the columns FDCW-1
    reads gives the view on which [fdcw1_outcome] is stated. *)
Lemma fdcw1_view_of_log (sc : Scenario)
    (lead_x ego_x lead_speed time : list xnum) :
  sample_indexed (scenario_df sc) ->
  well_formed (scenario_df sc) ->
  lead_vehicle_columns (scenario_df sc) <> [] ->
  lookup "ACTOR_lead_x" (df_data (scenario_df sc)) = Some lead_x ->
  lookup "ACTOR_ego_x" (df_data (scenario_df sc)) = Some ego_x ->
  lookup "ACTOR_lead_speed" (df_data (scenario_df sc)) = Some lead_speed ->
  lookup "time" (df_data (scenario_df sc)) = Some time ->
  fdcw1_view sc (len (scenario_df sc) - 10)
    (skipn 10 lead_x) (skipn 10 ego_x) (skipn 10 lead_speed) (skipn 10 time).
Proof.
  intros Hidx Hwf Hlead Hlx Hex Hls Htm.
  destruct (trimmed_lookup _ _ _ Hwf Hlx) as [? ?].
  destruct (trimmed_lookup _ _ _ Hwf Hex) as [? ?].
  destruct (trimmed_lookup _ _ _ Hwf Hls) as [? ?].
  destruct (trimmed_lookup _ _ _ Hwf Htm) as [? ?].
  constructor; try assumption.
  - unfold lead_vehicle_columns in *. now rewrite columns_iloc_from.
  - now apply trimmed_index.
Qed.

End Fdcw1Facts.

(* ================================================================== *)
(** * FDCW-1 on concrete logs *)
(* ================================================================== *)

Section Fdcw1OnLogs.

Local Open Scope string_scope.

Lemma pow_zero_one_power_of_zero : power_of_zero pow_zero_one.
Proof.
  intros q Hq. unfold pow_zero_one. now rewrite (Qeq_eq_bool _ _ Hq).
Qed.

Lemma log_tail_violation_view :
  fdcw1_view log_tail_violation 1 [Fin 5] [Fin 0] [Fin 0]
    [Fin (inject_Z 10 * 0.01)].
Proof. constructor; try reflexivity. discriminate. Qed.

Lemma log_early_violation_view :
  fdcw1_view log_early_violation 11
    (Fin 5 :: constant 10 100) (constant 11 0) (constant 11 0)
    (skipn 10 (ramp 21 0.01)).
Proof. constructor; try reflexivity. discriminate. Qed.

Lemma min_allowed_at_rest (xpow : xnum -> xnum -> xnum) :
  power_of_zero xpow ->
  min_allowed_of xpow (lead_speed_mph_of (Fin 0)) = Fin (2.8 * 0 + 8).
Proof.
  intro Hpow. unfold min_allowed_of, lead_speed_mph_of. cbn [xmul].
  rewrite Hpow by reflexivity. reflexivity.
Qed.

Lemma tail_violation_flags (xpow : xnum -> xnum -> xnum) :
  power_of_zero xpow ->
  violation_flags xpow [Fin 5] [Fin 0] [Fin 0] = [true].
Proof.
  intro Hpow. unfold violation_flags, min_allowed_distances_of. cbn [map].
  rewrite (min_allowed_at_rest xpow Hpow). reflexivity.
Qed.

Lemma early_violation_flags (xpow : xnum -> xnum -> xnum) :
  power_of_zero xpow ->
  violation_flags xpow (Fin 5 :: constant 10 100) (constant 11 0)
    (constant 11 0)
  = true :: repeat false 10.
Proof.
  intro Hpow. unfold violation_flags, min_allowed_distances_of, constant.
  cbn [map repeat]. rewrite (min_allowed_at_rest xpow Hpow). reflexivity.
Qed.

(** The log whose only trimmed sample violates: the lookup by label leaves
    the frame. *)
Lemma tail_violation_aborts (xpow : xnum -> xnum -> xnum) :
  power_of_zero xpow ->
  test_minimum_following_distance_requirement xpow log_tail_violation
  = Aborted IndexError.
Proof.
  intro Hpow.
  rewrite (fdcw1_outcome xpow _ _ _ _ _ _ log_tail_violation_view).
  rewrite (tail_violation_flags xpow Hpow). reflexivity.
Qed.

End Fdcw1OnLogs.

Section Fdcw1Claims.

Variable xpow : xnum -> xnum -> xnum.
Hypothesis xpow_zero : power_of_zero xpow.

(** Whenever the first violating trimmed sample is one of the last ten, the
    label handed to [iloc] is past the end of the frame and FDCW-1 ends in
    an [IndexError]. *)
Lemma fdcw1_tail_violation_aborts (sc : Scenario) (m p : nat)
    (lead_x ego_x lead_speed time : list xnum) :
  fdcw1_view sc m lead_x ego_x lead_speed time ->
  first_true (violation_flags xpow lead_x ego_x lead_speed) = Some p ->
  (m <= p + 10)%nat ->
  test_minimum_following_distance_requirement xpow sc = Aborted IndexError.
Proof.
  intros Hview Hfirst Hp. rewrite (fdcw1_outcome xpow sc m _ _ _ _ Hview), Hfirst.
  destruct (Nat.ltb_spec (p + 10) m); [lia | reflexivity].
Qed.

(** C1 (the code departs from it). On [log_tail_violation], a log with
    lead-vehicle columns whose last sample violates the minimum following
    distance, FDCW-1 neither reports the violation nor passes: it ends in
    an [IndexError]. *)
Theorem C1_violation_in_last_samples_is_not_reported :
  lead_vehicle_columns (scenario_df log_tail_violation) <> []
  /\ nth 0 (violation_flags xpow [Fin 5] [Fin 0] [Fin 0]) false = true
  /\ test_minimum_following_distance_requirement xpow log_tail_violation
     = Aborted IndexError.
Proof.
  split; [discriminate |]. split.
  - now rewrite (tail_violation_flags xpow xpow_zero).
  - exact (tail_violation_aborts xpow xpow_zero).
Qed.

(** C5 (the code departs from it). On [log_early_violation] the first
    violating sample is sample 10 (time 0.10 s, following distance 5 m);
    the report carries sample 20 instead (time 0.20 s, following distance
    100 m against 8 m allowed), a sample that does not violate. *)
Theorem C5_report_carries_sample_ten_places_later :
  first_true (violation_flags xpow (Fin 5 :: constant 10 100)
                (constant 11 0) (constant 11 0)) = Some O
  /\ nth 0 (following_distances_of (Fin 5 :: constant 10 100) (constant 11 0))
         NaN = Fin (5 + - 0)
  /\ nth 0 (skipn 10 (ramp 21 0.01)) NaN = Fin (inject_Z 10 * 0.01)
  /\ test_minimum_following_distance_requirement xpow log_early_violation
     = Violation (mkFdcw1 (Fin (inject_Z 20 * 0.01)) (Fin (100 + - 0))
                          (Fin (2.8 * 0 + 8)) (Fin (0 * 2.237)))
  /\ xltb (Fin (100 + - 0)) (Fin (2.8 * 0 + 8)) = false.
Proof.
  split; [now rewrite (early_violation_flags xpow xpow_zero) |].
  split; [reflexivity |]. split; [reflexivity |]. split; [| reflexivity].
  rewrite (fdcw1_outcome xpow _ _ _ _ _ _ log_early_violation_view).
  rewrite (early_violation_flags xpow xpow_zero).
  cbn [first_true Nat.add Nat.ltb Nat.leb].
  unfold min_allowed_distances_of, constant. cbn [repeat map nth].
  rewrite (min_allowed_at_rest xpow xpow_zero). reflexivity.
Qed.

(** C8. There is a log with lead-vehicle columns, indexed by sample number,
    whose first violating trimmed sample [p] is one of the last ten:
    [idxmax] returns its label [p + 10], the positional lookup with that
    label is out of bounds, and FDCW-1 ends in an [IndexError] instead of a
    violation report. *)
Theorem C8_label_used_as_position_faults :
  exists sc m lead_x ego_x lead_speed time p,
    fdcw1_view sc m lead_x ego_x lead_speed time
    /\ sample_indexed (scenario_df sc)
    /\ well_formed (scenario_df sc)
    /\ first_true (violation_flags xpow lead_x ego_x lead_speed) = Some p
    /\ (m - 10 <= p < m)%nat
    /\ idxmax_bool
         (combine (df_index (iloc_from 10 (scenario_df sc)))
                  (violation_flags xpow lead_x ego_x lead_speed))
       = ret (Z.of_nat (p + 10))
    /\ iloc (combine (df_index (iloc_from 10 (scenario_df sc)))
                     (following_distances_of lead_x ego_x))
            (Z.of_nat (p + 10))
       = raise IndexError
    /\ test_minimum_following_distance_requirement xpow sc
       = Aborted IndexError.
Proof.
  exists log_tail_violation, 1%nat, [Fin 5], [Fin 0], [Fin 0],
    [Fin (inject_Z 10 * 0.01)], O.
  split; [exact log_tail_violation_view |].
  split; [reflexivity |].
  split; [repeat constructor |].
  rewrite (tail_violation_flags xpow xpow_zero).
  split; [reflexivity |]. split; [lia |].
  split; [reflexivity |]. split; [reflexivity |].
  exact (tail_violation_aborts xpow xpow_zero).
Qed.

End Fdcw1Claims.

Lemma C1_witness :
  test_minimum_following_distance_requirement pow_zero_one log_tail_violation
  = Aborted IndexError.
Proof.
  exact (proj2 (proj2 (C1_violation_in_last_samples_is_not_reported
                         pow_zero_one pow_zero_one_power_of_zero))).
Defined.

Lemma C5_witness :
  test_minimum_following_distance_requirement pow_zero_one log_early_violation
  = Violation (mkFdcw1 (Fin (inject_Z 20 * 0.01)) (Fin (100 + - 0))
                       (Fin (2.8 * 0 + 8)) (Fin (0 * 2.237))).
Proof.
  exact (proj1 (proj2 (proj2 (proj2
           (C5_report_carries_sample_ten_places_later
              pow_zero_one pow_zero_one_power_of_zero))))).
Defined.

Lemma C8_witness :
  exists sc, test_minimum_following_distance_requirement pow_zero_one sc
             = Aborted IndexError.
Proof.
  destruct (C8_label_used_as_position_faults pow_zero_one
              pow_zero_one_power_of_zero)
    as [sc [m [lx [ex [ls [tv [p [_ [_ [_ [_ [_ [_ [_ H]]]]]]]]]]]]]].
  exists sc. exact H.
Defined.

(* ================================================================== *)
(** * FDCW-2: the degenerate reference without a lead vehicle *)
(* ================================================================== *)

Section Fdcw2Facts.

Local Open Scope string_scope.

Lemma harmless_not_above (v : xnum) : harmless v -> xgtb v (Fin 10) = false.
Proof.
  intros [-> | Hz]; [reflexivity |].
  destruct (is_zero_inv _ Hz) as [q [-> Hq]].
  unfold xgtb, xltb. apply Qltb_ge. rewrite Hq. discriminate.
Qed.

(** The relative error of a speed against itself: zero for a finite speed
    other than [-epsilon], NaN otherwise. *)
Lemma relative_error_self (e : xnum) :
  match e with
  | Fin q => if Qeq_bool (q + 0.000001) 0
             then relative_error_of e e = NaN
             else is_zero (relative_error_of e e)
  | _ => relative_error_of e e = NaN
  end.
Proof.
  destruct e as [q | | |]; try reflexivity.
  unfold relative_error_of, epsilon, xsub, xopp, xadd, xabs, xdiv.
  destruct (Qeq_bool (q + 0.000001) 0) eqn:E.
  - apply Qeq_bool_eq in E. apply Qeq_alt in E. rewrite E.
    assert (H0 : Qabs (q + - q) == 0).
    { setoid_replace (q + - q) with 0 by ring. reflexivity. }
    apply Qeq_alt in H0. rewrite H0. reflexivity.
  - apply Qeq_bool_neq in E.
    destruct (Qcompare_spec (q + 0.000001) 0) as [H | H | H];
      [contradiction | |];
      unfold xmul, is_zero, xeq;
      setoid_replace (q + - q) with 0 by ring;
      (field_simplify_eq; [reflexivity | exact E]).
Qed.

Lemma relative_error_self_harmless (e : xnum) :
  harmless (relative_error_of e e).
Proof.
  pose proof (relative_error_self e) as H. unfold harmless.
  destruct e as [q | | |]; auto.
  destruct (Qeq_bool (q + 0.000001) 0); auto.
Qed.

Lemma szip_self_harmless (s : Series xnum) :
  Forall (fun lv => harmless (snd lv)) (szip relative_error_of s s).
Proof.
  unfold szip. apply Forall_forall. intros lv Hin.
  apply in_map_iff in Hin. destruct Hin as [[[l a] [l' b]] [<- Hin]].
  simpl. assert (Hab : (l, a) = (l', b)).
  { clear - Hin. induction s as [| x s IH]; simpl in Hin; [contradiction |].
    destruct Hin as [H | H]; [now injection H as <- <- | exact (IH H)]. }
  injection Hab as _ <-. apply relative_error_self_harmless.
Qed.

Lemma select_subset {A} (s : Series A) (mask : Series bool) (x : Z * A) :
  In x (select s mask) -> In x s.
Proof.
  unfold select. intro Hin. apply in_map_iff in Hin.
  destruct Hin as [[y m] [<- Hin]]. apply filter_In in Hin.
  destruct Hin as [Hin _]. simpl. exact (in_combine_l _ _ _ _ Hin).
Qed.

Lemma argmax_from_member (best : Z * xnum) (s : Series xnum) :
  In (argmax_from best s) (best :: s).
Proof.
  revert best. induction s as [| [l v] s IH]; intro best; simpl; [auto |].
  destruct (IH (if xltb (snd best) v then (l, v) else best)) as [H | H].
  - rewrite <- H. destruct (xltb (snd best) v); auto.
  - auto.
Qed.

Lemma smax_harmless (s : Series xnum) :
  Forall (fun lv => harmless (snd lv)) s -> harmless (smax s).
Proof.
  intro Hall. unfold smax, argmax.
  destruct (dropna s) as [| b rest] eqn:Hd; [now left |].
  pose proof (argmax_from_member b rest) as Hin. rewrite <- Hd in Hin.
  unfold dropna in Hin. apply filter_In in Hin. destruct Hin as [Hin _].
  rewrite Forall_forall in Hall. specialize (Hall _ Hin).
  destruct (argmax_from b rest) as [l v]. exact Hall.
Qed.

(** Without a lead vehicle the desired speed is the ego speed itself. *)
Lemma desired_speed_without_lead (df : DataFrame) :
  lead_vehicle_columns df = [] -> desired_speed_of df = col df "ego_speed".
Proof. intro H. unfold desired_speed_of. now rewrite H. Qed.

Lemma fdcw2_without_lead_outcome (sc : Scenario) :
  lead_vehicle_columns (scenario_df sc) = [] ->
  match test_speed_error_requirement sc with
  | Passed | Skipped => True
  | Violation _ => False
  | Aborted f => f = KeyError "ego_speed" \/ f = KeyError "time"
  end.
Proof.
  intro Hno. unfold test_speed_error_requirement.
  rewrite desired_speed_without_lead
    by (unfold lead_vehicle_columns in *; now rewrite columns_iloc_from).
  unfold col.
  destruct (lookup "ego_speed" (df_data (iloc_from 10 (scenario_df sc))))
    as [ego |]; [| simpl; auto].
  cbn [bind ret].
  destruct (lookup "time" (df_data (iloc_from 10 (scenario_df sc))))
    as [tv |]; [| simpl; auto].
  cbn [bind ret].
  match goal with
  | |- context [if negb ?c then _ else _] => destruct c
  end; cbn [negb run ret]; [| exact I].
  rewrite harmless_not_above; [exact I |].
  apply smax_harmless. apply Forall_forall. intros x Hx.
  apply select_subset in Hx.
  pose proof (szip_self_harmless
                (combine (df_index (iloc_from 10 (scenario_df sc))) ego)) as H.
  rewrite Forall_forall in H. now apply H.
Qed.

Lemma fdcw2_without_lead_total (sc : Scenario) (ego time : list xnum) :
  lead_vehicle_columns (scenario_df sc) = [] ->
  lookup "ego_speed" (df_data (scenario_df sc)) = Some ego ->
  lookup "time" (df_data (scenario_df sc)) = Some time ->
  test_speed_error_requirement sc = Passed
  \/ test_speed_error_requirement sc = Skipped.
Proof.
  intros Hno Hego Htime. unfold test_speed_error_requirement.
  rewrite desired_speed_without_lead
    by (unfold lead_vehicle_columns in *; now rewrite columns_iloc_from).
  unfold col. cbn [iloc_from df_data df_index].
  rewrite !lookup_iloc_from, Hego, Htime. cbn [option_map bind ret].
  match goal with
  | |- context [if negb ?c then _ else _] => destruct c
  end; cbn [negb run ret]; [| now right].
  rewrite harmless_not_above; [now left |].
  apply smax_harmless. apply Forall_forall. intros x Hx.
  apply select_subset in Hx.
  pose proof (szip_self_harmless
                (combine (skipn 10 (df_index (scenario_df sc)))
                         (skipn 10 ego))) as H.
  rewrite Forall_forall in H. now apply H.
Qed.

End Fdcw2Facts.

(* ================================================================== *)
(** * FDCW-2: the steady-state mask and the outcome *)
(* ================================================================== *)

Section SteadyStateMask.

Local Open Scope string_scope.

Lemma nth_zip_with {A B C} (f : A -> B -> C) (a : list A) (b : list B)
    (p : nat) (da : A) (db : B) (dc : C) :
  (p < List.length a)%nat -> (p < List.length b)%nat ->
  nth p (zip_with f a b) dc = f (nth p a da) (nth p b db).
Proof.
  revert b p. induction a as [| x a IH]; intros [| y b] [| p] Ha Hb;
    simpl in *; try lia; try reflexivity.
  apply IH; lia.
Qed.

Lemma and_array_combine (mask : list bool) (idx : list Z) (flags : list bool) :
  List.length idx = List.length flags ->
  List.length mask = List.length idx ->
  and_array mask (combine idx flags) = combine idx (zip_with andb mask flags).
Proof.
  revert idx flags.
  induction mask as [| b mask IH]; intros [| l idx] [| c flags] Hlen Hm;
    simpl in *; try discriminate; try reflexivity.
  unfold and_array, zip_with in *. simpl. rewrite IH by lia. reflexivity.
Qed.

Lemma values_combine {A} (idx : list Z) (v : list A) :
  List.length idx = List.length v -> values (combine idx v) = v.
Proof.
  revert v. unfold values.
  induction idx as [| l idx IH]; intros [| x v] Hlen; simpl in *;
    try discriminate; [reflexivity |].
  rewrite IH by lia. reflexivity.
Qed.

Lemma last_half_label (m p : nat) :
  xgeb (of_Z (Z.of_nat (p + 10))) (xmul (of_nat m) (Fin 0.5))
  = (m <=? 2 * (p + 10))%nat.
Proof.
  unfold xgeb, xleb, of_Z, of_nat, xmul.
  destruct (Nat.leb_spec m (2 * (p + 10))) as [H | H].
  - apply Qleb_le.
    assert (Hq : inject_Z (Z.of_nat m) <= inject_Z (Z.of_nat (2 * (p + 10))))
      by (apply inject_nat_le; exact H).
    rewrite Nat2Z.inj_mul, inject_Z_mult in Hq.
    change (inject_Z (Z.of_nat 2)) with 2 in Hq. lra.
  - apply Qleb_gt.
    assert (Hq : inject_Z (Z.of_nat (2 * (p + 10))) < inject_Z (Z.of_nat m))
      by (rewrite <- Zlt_Qlt; lia).
    rewrite Nat2Z.inj_mul, inject_Z_mult in Hq.
    change (inject_Z (Z.of_nat 2)) with 2 in Hq. lra.
Qed.

(** What the mask of the code selects on a log indexed by sample number:
    the trimmed position [p] carries the label [p + 10], and it is this
    label that is compared with half of the trimmed length. *)
Theorem steady_state_mask_at (df : DataFrame) (m p : nat)
    (acc desired : list xnum) :
  df_index df = map Z.of_nat (seq 10 m) ->
  List.length acc = m -> List.length desired = m -> (p < m)%nat ->
  nth p (values (steady_state_mask_of df (combine (df_index df) acc)
                                         (combine (df_index df) desired)))
      false
  = ((m <=? 2 * (p + 10))%nat
     && xltb (xabs (nth p acc NaN)) (Fin 0.5)
     && xgtb (nth p desired NaN) (Fin 1))%bool.
Proof.
  intros Hidx Ha Hd Hp. unfold steady_state_mask_of, last_half_mask, len.
  rewrite Hidx. set (idx := map Z.of_nat (seq 10 m)).
  assert (Lidx : List.length idx = m)
    by (unfold idx; now rewrite length_map, length_seq).
  rewrite !smap_combine.
  set (half := map (fun l => xgeb (of_Z l) (xmul (of_nat (List.length idx))
                                                 (Fin 0.5))) idx).
  assert (Lhalf : List.length half = m) by (unfold half; now rewrite length_map).
  rewrite and_array_combine by (rewrite ?length_map; lia).
  set (slow := map (fun a => xltb (xabs a) (Fin 0.5)) acc).
  set (fast := map (fun d => xgtb d (Fin 1)) desired).
  assert (Lslow : List.length slow = m) by (unfold slow; now rewrite length_map).
  assert (Lfast : List.length fast = m) by (unfold fast; now rewrite length_map).
  assert (Lhs : List.length (zip_with andb half slow) = m)
    by (rewrite zip_with_length; lia).
  assert (Lall : List.length (zip_with andb (zip_with andb half slow) fast) = m)
    by (rewrite zip_with_length; lia).
  rewrite szip_combine, values_combine by lia.
  rewrite (nth_zip_with andb _ _ p false false) by lia.
  rewrite (nth_zip_with andb _ _ p false false) by lia.
  unfold slow, fast.
  f_equal; [f_equal |].
  - unfold half. rewrite Lidx.
    rewrite (nth_indep _ false
               ((fun l => xgeb (of_Z l) (xmul (of_nat m) (Fin 0.5))) 0%Z))
      by (rewrite length_map; lia).
    rewrite (map_nth (fun l => xgeb (of_Z l) (xmul (of_nat m) (Fin 0.5)))).
    unfold idx. rewrite trimmed_label by exact Hp. apply last_half_label.
  - rewrite (nth_indep _ false ((fun a => xltb (xabs a) (Fin 0.5)) NaN))
      by (rewrite length_map; lia).
    now rewrite (map_nth (fun a => xltb (xabs a) (Fin 0.5))).
  - rewrite (nth_indep _ false ((fun d => xgtb d (Fin 1)) NaN))
      by (rewrite length_map; lia).
    now rewrite (map_nth (fun d => xgtb d (Fin 1))).
Qed.

End SteadyStateMask.

Section Fdcw2Outcome.

Local Open Scope string_scope.

Lemma idxmax_in_labels (s : Series xnum) (l : Z) :
  idxmax s = ret l -> In l (labels s).
Proof.
  unfold idxmax, argmax. destruct (dropna s) as [| b rest] eqn:Hd;
    [discriminate |].
  pose proof (argmax_from_member b rest) as Hin. rewrite <- Hd in Hin.
  destruct (argmax_from b rest) as [l' v]. intro H. injection H as <-.
  unfold dropna in Hin. apply filter_In in Hin. destruct Hin as [Hin _].
  unfold labels. apply in_map_iff. exists (l', v). auto.
Qed.

Lemma trimmed_label_inv (m : nat) (l : Z) :
  In l (map Z.of_nat (seq 10 m)) ->
  exists p, (p < m)%nat /\ l = Z.of_nat (p + 10).
Proof.
  intro H. apply in_map_iff in H. destruct H as [k [<- Hk]].
  apply in_seq in Hk. exists (k - 10)%nat. split; [lia | f_equal; lia].
Qed.

(** The outcome of FDCW-2 on a log indexed by sample number: skipped when
    the mask selects nothing, passed when the maximum selected error does
    not exceed 10; otherwise the label [p + 10] of the worst selected
    position [p] is used as a position, so that the report carries the
    sample ten places further on, or the lookup leaves the frame. *)
Theorem fdcw2_outcome (sc : Scenario) (m : nat) (desired ego time : list xnum) :
  fdcw2_view sc m desired ego time ->
  let idx := map Z.of_nat (seq 10 m) in
  let mask :=
    steady_state_mask_of (iloc_from 10 (scenario_df sc))
      (acceleration_of (combine idx time) (combine idx ego))
      (combine idx desired) in
  let errors :=
    select (combine idx (zip_with relative_error_of desired ego)) mask in
  test_speed_error_requirement sc
  = (if negb (any mask) then Skipped
     else if xgtb (smax errors) (Fin 10) then
       match idxmax errors with
       | inr l =>
           if (l <? Z.of_nat m)%Z then
             Violation (mkFdcw2 (nth (Z.to_nat l) time NaN) (smax errors)
                                (nth (Z.to_nat l) desired NaN)
                                (nth (Z.to_nat l) ego NaN))
           else Aborted IndexError
       | inl f => Aborted f
       end
     else Passed)
  /\ (forall l, idxmax errors = ret l ->
        exists p, (p < m)%nat /\ l = Z.of_nat (p + 10)).
Proof.
  intros [Hidx Hdes Hego Htm Ld Le Lt] idx mask errors.
  assert (Lidx : List.length idx = m)
    by (unfold idx; now rewrite length_map, length_seq).
  assert (Hlab : forall l, idxmax errors = ret l ->
            exists p, (p < m)%nat /\ l = Z.of_nat (p + 10)).
  { intros l Hl. apply idxmax_in_labels in Hl. unfold labels in Hl.
    apply in_map_iff in Hl. destruct Hl as [[l' v] [Hfst Hin]].
    simpl in Hfst. subst l'. unfold errors in Hin.
    apply select_subset in Hin. apply in_combine_l in Hin.
    now apply trimmed_label_inv. }
  split; [| exact Hlab].
  unfold test_speed_error_requirement. rewrite Hdes. unfold col.
  rewrite Hego, Htm, Hidx. cbn [bind ret]. fold idx.
  rewrite szip_combine. fold mask. fold errors.
  destruct (negb (any mask)); [reflexivity |].
  destruct (xgtb (smax errors) (Fin 10)); [| reflexivity].
  destruct (idxmax errors) as [f | l] eqn:Hl; [reflexivity |].
  destruct (Hlab l eq_refl) as [p [Hp ->]]. cbn [bind ret].
  rewrite Nat2Z.id.
  destruct (Z.ltb_spec (Z.of_nat (p + 10)) (Z.of_nat m)) as [Hin | Hout].
  - rewrite (iloc_combine_inside idx time (p + 10) NaN) by lia.
    cbn [bind ret].
    rewrite (iloc_combine_inside idx desired (p + 10) NaN) by lia.
    cbn [bind ret].
    rewrite (iloc_combine_inside idx ego (p + 10) NaN) by lia.
    reflexivity.
  - rewrite iloc_combine_outside; [reflexivity |].
    rewrite length_combine. lia.
Qed.

(** A well-formed log indexed by sample number that has the columns FDCW-2
    reads gives the view on which [fdcw2_outcome] is stated. *)
Lemma fdcw2_view_of_log (sc : Scenario) (desired ego time : list xnum) :
  sample_indexed (scenario_df sc) ->
  well_formed (scenario_df sc) ->
  lookup (desired_column (scenario_df sc)) (df_data (scenario_df sc))
  = Some desired ->
  lookup "ego_speed" (df_data (scenario_df sc)) = Some ego ->
  lookup "time" (df_data (scenario_df sc)) = Some time ->
  fdcw2_view sc (len (scenario_df sc) - 10)
    (skipn 10 desired) (skipn 10 ego) (skipn 10 time).
Proof.
  intros Hidx Hwf Hdes Hego Htm.
  destruct (trimmed_lookup _ _ _ Hwf Hdes) as [Hdes' ?].
  destruct (trimmed_lookup _ _ _ Hwf Hego) as [? ?].
  destruct (trimmed_lookup _ _ _ Hwf Htm) as [? ?].
  pose proof (trimmed_index _ Hidx) as Hidx'.
  constructor; try assumption.
  unfold desired_speed_of, col. unfold desired_column in Hdes'.
  unfold lead_vehicle_columns in *. rewrite columns_iloc_from.
  destruct (filter (contains "ACTOR_lead") (columns (scenario_df sc)));
    now rewrite Hdes', Hidx'.
Qed.

End Fdcw2Outcome.

Section Fdcw2Claims.

Local Open Scope string_scope.

(** C7 (the code departs from it). On [log_creeping], a log without
    lead-vehicle columns whose ego speed is [-1e-6], the desired speed is the
    ego speed, the guarded denominator [desired + epsilon] is exactly 0 and
    the relative speed error of every trimmed sample is [0/0], NaN and not
    0: the epsilon that the code adds to avoid a division by zero does not
    avoid it here. The evaluation is skipped. *)
Theorem C7_epsilon_guard_divides_zero_by_zero :
  lead_vehicle_columns (scenario_df log_creeping) = []
  /\ (exists s,
        desired_speed_of (iloc_from 10 (scenario_df log_creeping)) = ret s
        /\ col (iloc_from 10 (scenario_df log_creeping)) "ego_speed" = ret s
        /\ values s = [Fin (-0.000001); Fin (-0.000001)]
        /\ is_zero (xadd (Fin (-0.000001)) epsilon)
        /\ values (szip relative_error_of s s) = [NaN; NaN]
        /\ ~ is_zero NaN)
  /\ test_speed_error_requirement log_creeping = Skipped.
Proof.
  split; [reflexivity |]. split; [| reflexivity].
  eexists. split; [reflexivity |]. split; [reflexivity |].
  split; [reflexivity |]. split; [reflexivity |].
  split; [reflexivity |]. intro H. exact H.
Qed.

(** What holds of FDCW-2 on every log without lead-vehicle columns: the ego
    speed is taken as the desired speed; the relative speed error of a
    sample is 0 when its ego speed is finite and different from [-epsilon],
    and NaN otherwise; the evaluation never reports a violation, and on a
    log that has the [ego_speed] and [time] columns it passes or is
    skipped. *)
Theorem fdcw2_without_lead_never_violates (sc : Scenario) :
  lead_vehicle_columns (scenario_df sc) = [] ->
  desired_speed_of (iloc_from 10 (scenario_df sc))
  = col (iloc_from 10 (scenario_df sc)) "ego_speed"
  /\ (forall q, ~ q + 0.000001 == 0 ->
        is_zero (relative_error_of (Fin q) (Fin q)))
  /\ (forall e, (forall q, e = Fin q -> q + 0.000001 == 0) ->
        relative_error_of e e = NaN)
  /\ (forall s, Forall (fun lv => harmless (snd lv))
                       (szip relative_error_of s s))
  /\ (forall r, test_speed_error_requirement sc <> Violation r)
  /\ (forall ego time,
        lookup "ego_speed" (df_data (scenario_df sc)) = Some ego ->
        lookup "time" (df_data (scenario_df sc)) = Some time ->
        test_speed_error_requirement sc = Passed
        \/ test_speed_error_requirement sc = Skipped).
Proof.
  intro Hno.
  pose proof (fdcw2_without_lead_outcome sc Hno) as Hout.
  split.
  { apply desired_speed_without_lead. unfold lead_vehicle_columns in *.
    now rewrite columns_iloc_from. }
  split.
  { intros q Hq. pose proof (relative_error_self (Fin q)) as H. simpl in H.
    destruct (Qeq_bool (q + 0.000001) 0) eqn:E; [| exact H].
    apply Qeq_bool_eq in E. contradiction. }
  split.
  { intros e He. pose proof (relative_error_self e) as H.
    destruct e as [q | | |]; try exact H.
    rewrite (Qeq_eq_bool _ _ (He q eq_refl)) in H. exact H. }
  split; [exact szip_self_harmless |].
  split.
  { intros r Hr. rewrite Hr in Hout. exact Hout. }
  intros ego time Hego Htime.
  destruct (test_speed_error_requirement sc) as [| | r | f] eqn:Ht; auto.
  - contradiction.
  - destruct (fdcw2_without_lead_total sc ego time Hno Hego Htime) as [H | H];
      rewrite Ht in H; discriminate.
Qed.

Lemma fdcw2_without_lead_never_violates_witness :
  test_speed_error_requirement log_cruising = Passed
  \/ test_speed_error_requirement log_cruising = Skipped.
Proof.
  destruct (fdcw2_without_lead_never_violates log_cruising)
    as [_ [_ [_ [_ [_ H]]]]]; [reflexivity |].
  apply (H (constant 21 5) (ramp 21 0.01)); reflexivity.
Defined.

(** C2 (the code departs from it). On [log_slow_ego] a sample satisfies the
    steady-state mask and the maximum steady-state error exceeds 10, yet no
    violation is reported: the label of the worst sample is used as a
    position and FDCW-2 ends in an [IndexError]. *)
Theorem C2_violation_in_last_samples_is_not_reported :
  exists desired actual time,
    desired_speed_of (iloc_from 10 (scenario_df log_slow_ego)) = ret desired
    /\ col (iloc_from 10 (scenario_df log_slow_ego)) "ego_speed" = ret actual
    /\ col (iloc_from 10 (scenario_df log_slow_ego)) "time" = ret time
    /\ any (steady_state_mask_of (iloc_from 10 (scenario_df log_slow_ego))
              (acceleration_of time actual) desired) = true
    /\ xgtb (smax (select (szip relative_error_of desired actual)
                     (steady_state_mask_of
                        (iloc_from 10 (scenario_df log_slow_ego))
                        (acceleration_of time actual) desired)))
            (Fin 10) = true
    /\ idxmax (select (szip relative_error_of desired actual)
                 (steady_state_mask_of
                    (iloc_from 10 (scenario_df log_slow_ego))
                    (acceleration_of time actual) desired)) = ret 11%Z
    /\ iloc time 11 = raise IndexError
    /\ test_speed_error_requirement log_slow_ego = Aborted IndexError.
Proof.
  do 3 eexists. split; [reflexivity |]. split; [reflexivity |].
  split; [reflexivity |]. repeat split; vm_compute; reflexivity.
Qed.

(** C3 (the code departs from it). On [log_early_dip] the trimmed log has
    20 samples; the sample at position 2 (label 12) is not in its last 50%,
    yet the mask of the code classifies it steady-state, because the label
    and not the position is compared with half of the trimmed length. FDCW-2
    then fails on that sample although every sample that is steady-state in
    the sense of the spec has no speed error. *)
Theorem C3_early_sample_is_classified_steady :
  exists desired actual time,
    desired_speed_of (iloc_from 10 (scenario_df log_early_dip)) = ret desired
    /\ col (iloc_from 10 (scenario_df log_early_dip)) "ego_speed" = ret actual
    /\ col (iloc_from 10 (scenario_df log_early_dip)) "time" = ret time
    /\ List.length time = 20%nat
    /\ nth 2 (values (steady_state_mask_of
                        (iloc_from 10 (scenario_df log_early_dip))
                        (acceleration_of time actual) desired)) false = true
    /\ steady_state_as_specified 20 2
         (nth 2 (values (acceleration_of time actual)) NaN)
         (nth 2 (values desired) NaN) = false
    /\ (forall p, (p < 20)%nat ->
          steady_state_as_specified 20 p
            (nth p (values (acceleration_of time actual)) NaN)
            (nth p (values desired) NaN) = true ->
          is_zero (nth p (values (szip relative_error_of desired actual)) NaN))
    /\ exists r, test_speed_error_requirement log_early_dip = Violation r.
Proof.
  do 3 eexists. split; [reflexivity |]. split; [reflexivity |].
  split; [reflexivity |]. split; [reflexivity |].
  split; [vm_compute; reflexivity |]. split; [vm_compute; reflexivity |].
  split.
  - intros p Hp.
    do 20 (destruct p as [| p]; [vm_compute; intro H; discriminate || reflexivity |]).
    lia.
  - eexists. vm_compute. reflexivity.
Qed.

End Fdcw2Claims.

(* ================================================================== *)
(** * The city profile on the 50 Hz grid *)
(* ================================================================== *)

Section MaskFacts.

Lemma mask_assign_false (a : list Q) (n : nat) (vals : list Q) :
  mask_assign a (repeat false n) vals = a.
Proof.
  revert n. induction a as [| x a IH]; intros [| n]; simpl; try reflexivity.
  now rewrite IH.
Qed.

Lemma mask_assign_true (a vals : list Q) (n : nat) :
  List.length a = n -> List.length vals = n ->
  mask_assign a (repeat true n) vals = vals.
Proof.
  revert vals n. induction a as [| x a IH]; intros [| v vals] [| n] Ha Hv;
    simpl in *; try discriminate; try reflexivity.
  rewrite IH by lia. reflexivity.
Qed.

Lemma mask_assign_app (a1 a2 : list Q) (m1 m2 : list bool) (v1 v2 : list Q) :
  List.length a1 = List.length m1 -> count_true m1 = List.length v1 ->
  mask_assign (a1 ++ a2) (m1 ++ m2) (v1 ++ v2)
  = mask_assign a1 m1 v1 ++ mask_assign a2 m2 v2.
Proof.
  revert m1 v1. unfold count_true.
  induction a1 as [| x a1 IH]; intros [| b m1] v1 Hlen Hcount;
    simpl in *; try discriminate.
  - destruct v1; [reflexivity | discriminate].
  - destruct b; simpl in *.
    + destruct v1 as [| v v1]; [discriminate |]. simpl in *.
      rewrite IH by lia. reflexivity.
    + rewrite IH by lia. reflexivity.
Qed.

Lemma mask_fill_false (a : list Q) (n : nat) (c : Q) :
  mask_fill a (repeat false n) c = a.
Proof.
  revert n. induction a as [| x a IH]; intros [| n]; simpl; try reflexivity.
  now rewrite IH.
Qed.

Lemma mask_fill_true (a : list Q) (n : nat) (c : Q) :
  List.length a = n -> mask_fill a (repeat true n) c = repeat c n.
Proof.
  revert n. induction a as [| x a IH]; intros [| n] Ha; simpl in *;
    try discriminate; try reflexivity.
  rewrite IH by lia. reflexivity.
Qed.

Lemma mask_fill_app (a1 a2 : list Q) (m1 m2 : list bool) (c : Q) :
  List.length a1 = List.length m1 ->
  mask_fill (a1 ++ a2) (m1 ++ m2) c = mask_fill a1 m1 c ++ mask_fill a2 m2 c.
Proof.
  revert m1. induction a1 as [| x a1 IH]; intros [| b m1] Hlen;
    simpl in *; try discriminate; [reflexivity |].
  rewrite IH by lia. reflexivity.
Qed.

Lemma linspace_length (start stop : Q) (num : nat) :
  List.length (linspace start stop num) = num.
Proof.
  unfold linspace. destruct num as [| [| d]]; try reflexivity.
  rewrite length_app, length_map, length_seq. simpl. lia.
Qed.

(** Sample [i] of [np.linspace(start, stop, d + 1)] is
    [start + i (stop - start) / d]. *)
Lemma linspace_nth (start stop : Q) (d i : nat) :
  (0 < d)%nat -> (i <= d)%nat ->
  nth i (linspace start stop (S d)) 0
  == start + inject_Z (Z.of_nat i) * (stop - start) / inject_Z (Z.of_nat d).
Proof.
  intros Hd Hi. unfold linspace. destruct d as [| d']; [lia |].
  set (d := S d') in *.
  assert (Hdq : 0 < inject_Z (Z.of_nat d)) by (apply inject_nat_pos; lia).
  destruct (Nat.eq_dec i d) as [-> | Hne].
  - rewrite app_nth2 by (rewrite length_map, length_seq; lia).
    rewrite length_map, length_seq, Nat.sub_diag. simpl nth. field. lra.
  - rewrite app_nth1 by (rewrite length_map, length_seq; lia).
    set (f := fun i : nat =>
                (if Qeq_bool ((stop - start) / inject_Z (Z.of_nat d)) 0
                 then inject_Z (Z.of_nat i) / inject_Z (Z.of_nat d)
                      * (stop - start)
                 else inject_Z (Z.of_nat i)
                      * ((stop - start) / inject_Z (Z.of_nat d))) + start).
    rewrite (nth_indep _ 0 (f O)) by (rewrite length_map, length_seq; lia).
    rewrite (map_nth f), seq_nth by lia. unfold f. simpl Nat.add.
    destruct (Qeq_bool ((stop - start) / inject_Z (Z.of_nat d)) 0);
      field; lra.
Qed.

Lemma map_const_repeat {A} (l : list A) (c : Q) :
  map (fun _ => c) l = repeat c (List.length l).
Proof. induction l as [| x l IH]; simpl; [reflexivity | now rewrite IH]. Qed.

Lemma le_mask_comp (a b : list Q) (hi : Q) :
  Forall2 Qeq a b -> le_mask a hi = le_mask b hi.
Proof.
  intro H. unfold le_mask. induction H as [| x y a b Hxy _ IH]; simpl;
    [reflexivity |].
  now rewrite IH, (Qleb_comp x y hi hi Hxy (Qeq_refl hi)).
Qed.

Lemma gt_mask_comp (a b : list Q) (lo : Q) :
  Forall2 Qeq a b -> gt_mask a lo = gt_mask b lo.
Proof.
  intro H. unfold gt_mask. induction H as [| x y a b Hxy _ IH]; simpl;
    [reflexivity |].
  now rewrite IH, (Qltb_comp lo lo x y (Qeq_refl lo) Hxy).
Qed.

(** [city_cycle] reads the cycle times only through comparisons. *)
Lemma city_cycle_comp (max_speed : Q) (a b view : list Q) :
  Forall2 Qeq a b ->
  city_cycle max_speed a view = city_cycle max_speed b view.
Proof.
  intro H. unfold city_cycle, between_mask.
  rewrite !(le_mask_comp a b), !(gt_mask_comp a b) by exact H.
  destruct H; reflexivity.
Qed.

End MaskFacts.

Section CityCycle.

Lemma count_true_false (n : nat) : count_true (repeat false n) = O.
Proof. unfold count_true. induction n; simpl; auto. Qed.

Lemma count_true_true (n : nat) : count_true (repeat true n) = n.
Proof. unfold count_true. induction n; simpl; auto. Qed.

(** Assignment through a mask that selects one block. *)
Lemma assign_block (pre mid post : nat) (a_pre a_mid a_post vals : list Q) :
  List.length a_pre = pre -> List.length a_mid = mid ->
  List.length vals = mid ->
  mask_assign (a_pre ++ a_mid ++ a_post)
    (repeat false pre ++ repeat true mid ++ repeat false post) vals
  = a_pre ++ vals ++ a_post.
Proof.
  intros Hpre Hmid Hvals.
  change vals with ([] ++ vals).
  rewrite mask_assign_app
    by (rewrite ?repeat_length, ?count_true_false; auto).
  rewrite mask_assign_false.
  rewrite <- (app_nil_r vals) at 1.
  rewrite mask_assign_app
    by (rewrite ?repeat_length, ?count_true_true; auto).
  rewrite mask_assign_true, mask_assign_false by auto. reflexivity.
Qed.

Lemma fill_block (pre mid post : nat) (a_pre a_mid a_post : list Q) (c : Q) :
  List.length a_pre = pre -> List.length a_mid = mid ->
  mask_fill (a_pre ++ a_mid ++ a_post)
    (repeat false pre ++ repeat true mid ++ repeat false post) c
  = a_pre ++ repeat c mid ++ a_post.
Proof.
  intros Hpre Hmid.
  rewrite mask_fill_app by (rewrite repeat_length; auto).
  rewrite mask_fill_false.
  rewrite mask_fill_app by (rewrite repeat_length; auto).
  rewrite mask_fill_true, mask_fill_false by auto. reflexivity.
Qed.

Lemma local_accel_mask :
  le_mask local_grid 5
  = repeat false 0 ++ repeat true 251 ++ repeat false 749.
Proof. vm_compute. reflexivity. Qed.

Lemma local_cruise_mask :
  between_mask local_grid 5 10
  = repeat false 251 ++ repeat true 250 ++ repeat false 499.
Proof. vm_compute. reflexivity. Qed.

Lemma local_decel_mask :
  between_mask local_grid 10 15
  = repeat false 501 ++ repeat true 250 ++ repeat false 249.
Proof. vm_compute. reflexivity. Qed.

Lemma local_stop_mask :
  gt_mask local_grid 15
  = repeat false 751 ++ repeat true 249 ++ repeat false 0.
Proof. vm_compute. reflexivity. Qed.

Lemma np_any_block (pre mid post : nat) :
  (0 < mid)%nat ->
  np_any (repeat false pre ++ repeat true mid ++ repeat false post) = true.
Proof.
  intro H. unfold np_any. apply existsb_exists. exists true.
  split; [| reflexivity]. apply in_or_app. right. apply in_or_app. left.
  destruct mid; [lia | now left].
Qed.

Lemma count_true_block (pre mid post : nat) :
  count_true (repeat false pre ++ repeat true mid ++ repeat false post) = mid.
Proof.
  unfold count_true. rewrite !filter_app, !length_app.
  fold (count_true (repeat false pre)). fold (count_true (repeat true mid)).
  fold (count_true (repeat false post)).
  rewrite !count_true_false, count_true_true. lia.
Qed.

(** The four phases of one cycle: 251 samples ramping up from 0 to
    [0.6 max], 250 samples at [0.6 max], 250 samples ramping down to 0 and
    249 samples at 0. *)
Lemma stop_and_go_phases (max_speed : Q) :
  stop_and_go max_speed
  = ((linspace 0 (max_speed * 0.6) 251 ++ repeat (max_speed * 0.6) 250)
     ++ linspace (max_speed * 0.6) 0 250) ++ repeat 0 249 ++ [].
Proof.
  unfold stop_and_go, city_cycle.
  destruct local_grid as [| t0 ts] eqn:Hgrid; [discriminate |].
  rewrite <- Hgrid. clear Hgrid t0 ts.
  rewrite local_accel_mask, local_cruise_mask, local_decel_mask,
    local_stop_mask.
  rewrite !np_any_block by lia. rewrite !count_true_block.
  replace (repeat 0 1000) with ([] ++ repeat 0 251 ++ repeat 0 749)
    by reflexivity.
  rewrite (assign_block 0 251 749) by (rewrite ?linspace_length; reflexivity).
  cbn [app].
  replace (repeat 0 749) with (repeat 0 250 ++ repeat 0 499) by reflexivity.
  rewrite (fill_block 251 250 499) by (rewrite ?linspace_length; reflexivity).
  replace (repeat 0 499) with (repeat 0 250 ++ repeat 0 249) by reflexivity.
  rewrite (app_assoc (linspace 0 (max_speed * 0.6) 251)).
  rewrite (assign_block 501 250 249)
    by (rewrite ?length_app, ?linspace_length, ?repeat_length; reflexivity).
  rewrite (app_assoc _ (linspace (max_speed * 0.6) 0 250)).
  replace (repeat 0 249) with (repeat 0 249 ++ []) at 1
    by apply app_nil_r.
  rewrite (fill_block 751 249 0)
    by (rewrite ?length_app, ?linspace_length, ?repeat_length; reflexivity).
  reflexivity.
Qed.

End CityCycle.

Section CityLoop.

Lemma start_index (i : nat) :
  Z.to_nat (py_int (inject_Z (Z.of_nat i) * cycle_duration / 0.02))
  = (1000 * i)%nat.
Proof.
  rewrite (py_int_whole _ (Z.of_nat (1000 * i))).
  - apply Nat2Z.id.
  - lia.
  - rewrite Nat2Z.inj_mul, inject_Z_mult.
    change (inject_Z (Z.of_nat 1000)) with 1000. unfold cycle_duration.
    field.
Qed.

Lemma cycle_count (n : nat) :
  Z.to_nat (py_int (inject_Z (Z.of_nat n) / (cycle_duration / 0.02)))
  = (n / 1000)%nat.
Proof.
  unfold py_int.
  assert (Hx : inject_Z (Z.of_nat n) / (cycle_duration / 0.02)
               == inject_Z (Z.of_nat n) / inject_Z 1000).
  { unfold cycle_duration. change (inject_Z 1000) with 1000. field. }
  assert (Hpos : 0 <= inject_Z (Z.of_nat n) / (cycle_duration / 0.02)).
  { rewrite Hx. apply Qle_shift_div_l; [reflexivity |].
    pose proof (inject_nat_nonneg n). lra. }
  apply Qltb_ge in Hpos. rewrite Hpos, (Qfloor_comp _ _ Hx), <- Zdiv_Qdiv.
  change 1000%Z with (Z.of_nat 1000).
  rewrite <- Nat2Z.inj_div. apply Nat2Z.id.
Qed.

Lemma firstn_exact {A} (p r : list A) (n : nat) :
  List.length p = n -> firstn n (p ++ r) = p.
Proof.
  intros <-. rewrite firstn_app, Nat.sub_diag, firstn_all. simpl.
  apply app_nil_r.
Qed.

Lemma skipn_exact {A} (p r : list A) (n : nat) :
  List.length p = n -> skipn n (p ++ r) = r.
Proof.
  intros <-. rewrite skipn_app, Nat.sub_diag, skipn_all. reflexivity.
Qed.

Lemma grid_length (dt : Q) (n : nat) : List.length (grid dt n) = n.
Proof. unfold grid. now rewrite length_map, length_seq. Qed.

Lemma grid_nth (dt : Q) (n a : nat) :
  (a < n)%nat -> nth a (grid dt n) 0 = 0 + inject_Z (Z.of_nat a) * dt.
Proof.
  intro Ha. unfold grid.
  set (f := fun i : nat => 0 + inject_Z (Z.of_nat i) * dt).
  rewrite (nth_indep _ 0 (f O)) by (rewrite length_map, length_seq; lia).
  now rewrite (map_nth f), seq_nth by lia.
Qed.

Lemma map_seq_shift {A} (f : nat -> A) (a len : nat) :
  map f (seq a len) = map (fun j => f (a + j)%nat) (seq 0 len).
Proof.
  revert a. induction len as [| len IH]; intro a; simpl; [reflexivity |].
  rewrite Nat.add_0_r. f_equal.
  rewrite (IH (S a)), <- seq_shift, map_map. apply map_ext. intro j.
  f_equal. lia.
Qed.

Lemma grid_slice (dt : Q) (n a len : nat) :
  (a + len <= n)%nat ->
  slice (grid dt n) a (a + len)
  = map (fun j => 0 + inject_Z (Z.of_nat (a + j)) * dt) (seq 0 len).
Proof.
  intro H. unfold slice, grid.
  rewrite skipn_map, firstn_map, skipn_seq.
  replace (a + len - a)%nat with len by lia.
  replace (n - a)%nat with (len + (n - a - len))%nat by lia.
  rewrite seq_app, (firstn_exact (seq (0 + a) len)) by apply length_seq.
  cbn [Nat.add].
  apply (map_seq_shift (fun i => 0 + inject_Z (Z.of_nat i) * dt)).
Qed.

(** The cycle-local times of every full cycle of the 50 Hz grid are those
    of the first one. *)
Lemma cycle_times_local (n i : nat) :
  (1000 * (i + 1) <= n)%nat ->
  Forall2 Qeq
    (map (fun t => t - nth (1000 * i) (grid 0.02 n) 0)
         (slice (grid 0.02 n) (1000 * i) (1000 * (i + 1))))
    local_grid.
Proof.
  intro H.
  replace (1000 * (i + 1))%nat with (1000 * i + 1000)%nat by lia.
  rewrite grid_slice, grid_nth, map_map by lia.
  unfold local_grid. generalize (seq 0 1000). intro l.
  induction l as [| j l IH]; simpl; constructor; [| exact IH].
  rewrite Nat2Z.inj_add, inject_Z_plus. ring.
Qed.

Lemma stop_and_go_unfold (max_speed : Q) :
  stop_and_go max_speed = city_cycle max_speed local_grid (repeat 0 1000).
Proof. unfold stop_and_go. reflexivity. Qed.

Lemma city_loop_cons (i : nat) (rest : list nat) (time : list Q)
    (max_speed : Q) (speeds : list Q) :
  city_loop (i :: rest) time max_speed speeds
  = let n := List.length time in
    let start_idx :=
      Z.to_nat (py_int (inject_Z (Z.of_nat i) * cycle_duration / 0.02)) in
    let end_idx :=
      Nat.min
        (Z.to_nat (py_int (inject_Z (Z.of_nat (i + 1)) * cycle_duration / 0.02)))
        n in
    if (n <=? start_idx)%nat then speeds
    else
      city_loop rest time max_speed
        (update_slice speeds start_idx end_idx
           (city_cycle max_speed
              (map (fun t => t - nth start_idx time 0)
                   (slice time start_idx end_idx)))).
Proof. reflexivity. Qed.

(** The loop writes one [stop_and_go] cycle per full block of 1000 samples
    and leaves the remainder untouched. *)
Lemma city_loop_cycles (max_speed : Q) (n k : nat) :
  forall (i0 : nat) (prefix : list Q),
    List.length prefix = (1000 * i0)%nat ->
    (1000 * (i0 + k) <= n)%nat ->
    city_loop (seq i0 k) (grid 0.02 n) max_speed
      (prefix ++ repeat 0 (n - 1000 * i0))
    = prefix ++ List.concat (repeat (stop_and_go max_speed) k)
        ++ repeat 0 (n - 1000 * (i0 + k)).
Proof.
  induction k as [| k IH]; intros i0 prefix Hpre Hn.
  - cbn [seq city_loop repeat List.concat app]. rewrite Nat.add_0_r.
    reflexivity.
  - cbn [seq]. rewrite city_loop_cons. cbv zeta.
    rewrite !start_index, grid_length.
    replace (Nat.min (1000 * (i0 + 1)) n) with (1000 * (i0 + 1))%nat by lia.
    destruct (Nat.leb_spec n (1000 * i0)) as [Hbad | _]; [lia |].
    replace (n - 1000 * i0)%nat
      with (1000 + (n - 1000 * (i0 + 1)))%nat by lia.
    rewrite repeat_app.
    unfold update_slice.
    rewrite (city_cycle_comp max_speed _ local_grid)
      by (apply cycle_times_local; lia).
    unfold slice.
    replace (Nat.max (1000 * i0) (1000 * (i0 + 1))) with (1000 * (i0 + 1))%nat
      by lia.
    rewrite (firstn_exact prefix) by exact Hpre.
    rewrite (skipn_exact prefix) by exact Hpre.
    replace (1000 * (i0 + 1) - 1000 * i0)%nat with 1000%nat by lia.
    rewrite (firstn_exact (repeat 0 1000)) by apply repeat_length.
    rewrite (app_assoc prefix (repeat 0 1000)).
    rewrite (skipn_exact (prefix ++ repeat 0 1000))
      by (rewrite length_app, repeat_length; lia).
    rewrite <- stop_and_go_unfold.
    rewrite (app_assoc prefix (stop_and_go max_speed)).
    replace (n - 1000 * (i0 + 1))%nat with (n - 1000 * S i0)%nat by lia.
    rewrite IH.
    + cbn [repeat List.concat]. rewrite <- !app_assoc.
      replace (S i0 + k)%nat with (i0 + S k)%nat by lia. reflexivity.
    + rewrite length_app. unfold stop_and_go.
      rewrite city_cycle_length, repeat_length. lia.
    + lia.
Qed.

(** [create_city_profile] on the 50 Hz grid: [n / 1000] full cycles, then
    zeros. *)
Theorem city_profile_structure (max_speed min_speed : Q) (n : nat) :
  create_city_profile (grid 0.02 n) max_speed min_speed
  = List.concat (repeat (stop_and_go max_speed) (n / 1000))
    ++ repeat 0 (n - 1000 * (n / 1000)).
Proof.
  unfold create_city_profile, zeros_like.
  rewrite map_const_repeat, grid_length, cycle_count.
  pose proof (Nat.Div0.mul_div_le n 1000) as Hle.
  pose proof (city_loop_cycles max_speed n (n / 1000) 0 []) as H.
  cbn [app] in H. rewrite Nat.mul_0_r, Nat.sub_0_r in H.
  apply H; [reflexivity | exact Hle].
Qed.

End CityLoop.

Section CityPhases.

Lemma nth_concat_repeat (P rest : list Q) (len k : nat) :
  List.length P = len ->
  forall i j, (i < k)%nat -> (j < len)%nat ->
    nth (len * i + j) (List.concat (repeat P k) ++ rest) 0 = nth j P 0.
Proof.
  intro HP. induction k as [| k IH]; intros i j Hi Hj; [lia |].
  cbn [repeat List.concat]. rewrite <- app_assoc.
  destruct i as [| i].
  - rewrite Nat.mul_0_r, Nat.add_0_l. apply app_nth1. lia.
  - rewrite app_nth2 by (rewrite HP; nia).
    replace (len * S i + j - List.length P)%nat with (len * i + j)%nat
      by (rewrite HP; nia).
    apply IH; lia.
Qed.

Lemma stop_and_go_length (max_speed : Q) :
  List.length (stop_and_go max_speed) = 1000%nat.
Proof.
  rewrite stop_and_go_unfold, city_cycle_length. apply repeat_length.
Qed.

Lemma inject_nat_le_inv (a b : nat) :
  inject_Z (Z.of_nat a) <= inject_Z (Z.of_nat b) -> (a <= b)%nat.
Proof. rewrite <- Zle_Qle. lia. Qed.

Lemma inject_nat_lt_inv (a b : nat) :
  inject_Z (Z.of_nat a) < inject_Z (Z.of_nat b) -> (a < b)%nat.
Proof. rewrite <- Zlt_Qlt. lia. Qed.

(** Sample [j] of one cycle, by phase. *)
Lemma stop_and_go_nth (max_speed : Q) (j : nat) :
  (j < 1000)%nat ->
  ((j <= 250)%nat ->
     nth j (stop_and_go max_speed) 0
     == max_speed * 0.6 * (inject_Z (Z.of_nat j) / 250))
  /\ ((250 < j <= 500)%nat ->
        nth j (stop_and_go max_speed) 0 == max_speed * 0.6)
  /\ ((500 < j <= 750)%nat ->
        nth j (stop_and_go max_speed) 0
        == max_speed * 0.6 * ((750 - inject_Z (Z.of_nat j)) / 249))
  /\ ((750 < j)%nat -> nth j (stop_and_go max_speed) 0 == 0).
Proof.
  intro Hj. rewrite stop_and_go_phases.
  set (lin1 := linspace 0 (max_speed * 0.6) 251).
  set (lin2 := linspace (max_speed * 0.6) 0 250).
  assert (L1 : List.length lin1 = 251%nat) by apply linspace_length.
  assert (L2 : List.length lin2 = 250%nat) by apply linspace_length.
  assert (Lc : List.length (repeat (max_speed * 0.6) 250) = 250%nat)
    by apply repeat_length.
  repeat split; intro H.
  - rewrite app_nth1 by (rewrite !length_app, L1, L2, Lc; lia).
    rewrite app_nth1 by (rewrite !length_app, L1, Lc; lia).
    rewrite app_nth1 by (rewrite L1; lia).
    unfold lin1. rewrite (linspace_nth 0 (max_speed * 0.6) 250 j) by lia.
    change (inject_Z (Z.of_nat 250)) with 250. field.
  - rewrite app_nth1 by (rewrite !length_app, L1, L2, Lc; lia).
    rewrite app_nth1 by (rewrite !length_app, L1, Lc; lia).
    rewrite app_nth2 by (rewrite L1; lia).
    rewrite (nth_indep _ 0 (max_speed * 0.6)) by (rewrite Lc, L1; lia).
    rewrite nth_repeat. reflexivity.
  - rewrite app_nth1 by (rewrite !length_app, L1, L2, Lc; lia).
    rewrite app_nth2 by (rewrite !length_app, L1, Lc; lia).
    rewrite length_app, L1, Lc.
    unfold lin2.
    rewrite (linspace_nth (max_speed * 0.6) 0 249 (j - (251 + 250))) by lia.
    replace (Z.of_nat (j - (251 + 250))) with (Z.of_nat j + - 501)%Z by lia.
    rewrite inject_Z_plus.
    change (inject_Z (Z.of_nat 249)) with 249.
    change (inject_Z (- 501)) with (- 501). field.
  - rewrite app_nth2 by (rewrite !length_app, L1, L2, Lc; lia).
    rewrite app_nil_r.
    rewrite nth_repeat. reflexivity.
Qed.

(** On the 50 Hz grid the samples after the last full block of 1000 stay
    at zero: no truncated cycle is written. *)
Theorem city_partial_cycle_is_zero (max_speed min_speed : Q) (n k : nat) :
  (1000 * (n / 1000) <= k)%nat ->
  nth k (create_city_profile (grid 0.02 n) max_speed min_speed) 0 = 0.
Proof.
  intro Hk. rewrite city_profile_structure.
  assert (Hlen : List.length
                   (List.concat (repeat (stop_and_go max_speed) (n / 1000)))
                 = (1000 * (n / 1000))%nat).
  { generalize (n / 1000)%nat. intro c. induction c as [| c IH].
    - rewrite Nat.mul_0_r. reflexivity.
    - cbn [repeat List.concat]. rewrite length_app, IH, stop_and_go_length.
      lia. }
  rewrite app_nth2 by (rewrite Hlen; exact Hk).
  apply nth_repeat.
Qed.

End CityPhases.

Section CityTheorems.

Lemma arange_50Hz (duration : Q) (time : list Q) :
  arange 0 duration 0.02 = Some time ->
  exists n, time = grid 0.02 n.
Proof.
  apply arange_is_grid.
Qed.

(** C6 as stated fails: with a step of 1 s and a duration of 20 s (one whole
    cycle) the sample at 6 s is 0 and not [0.6 max], and at 50 Hz with a
    duration of 30 s the sample at 26 s, cycle-local time 6 s of the
    truncated second cycle, is 0 as well. *)
Lemma C6_counterexample :
  ~ city_cruise_as_specified 1 20 30 5
  /\ ~ city_cruise_as_specified 0.02 30 30 5.
Proof.
  split; intro H.
  - specialize (H (grid 1 20) 6%nat eq_refl).
    assert (Hk : (6 < List.length (grid 1 20))%nat)
      by (rewrite grid_length; lia).
    specialize (H Hk).
    assert (Ht : 5 < cycle_local (nth 6 (grid 1 20) 0) <= 10)
      by (split; [reflexivity | discriminate]).
    specialize (H Ht). vm_compute in H. discriminate.
  - specialize (H (grid 0.02 1500) 1300%nat eq_refl).
    assert (Hk : (1300 < List.length (grid 0.02 1500))%nat)
      by (rewrite grid_length; lia).
    specialize (H Hk).
    assert (Ht : 5 < cycle_local (nth 1300 (grid 0.02 1500) 0) <= 10)
      by (split; [reflexivity | discriminate]).
    specialize (H Ht). vm_compute in H. discriminate.
Qed.

(** C6, amended. At the step of 0.02 s, in every full block of 1000 samples
    (20 s) of the city profile the sample at cycle-local time [tau] is
    [0.6 max tau / 5] up to 5 s, [0.6 max] in (5, 10], falls linearly to 0
    in (10, 15] and is 0 after 15 s; the sample at every 20 s boundary is
    0. *)
Theorem C6_city_full_cycles_at_50Hz
    (duration max_speed min_speed : Q) (time : list Q) (i j : nat) :
  arange 0 duration 0.02 = Some time ->
  (1000 * (i + 1) <= List.length time)%nat ->
  (j < 1000)%nat ->
  let tau := inject_Z (Z.of_nat j) * 0.02 in
  let v := nth (1000 * i + j) (create_city_profile time max_speed min_speed) 0 in
  nth (1000 * i + j) time 0 == 20 * inject_Z (Z.of_nat i) + tau
  /\ (tau <= 5 -> v == max_speed * 0.6 * (tau / 5))
  /\ (5 < tau <= 10 -> v == max_speed * 0.6)
  /\ (10 < tau <= 15 -> v == max_speed * 0.6 * ((15 - tau) / 4.98))
  /\ (15 < tau -> v == 0)
  /\ (forall k, (1000 * k < List.length time)%nat ->
        nth (1000 * k) (create_city_profile time max_speed min_speed) 0 == 0).
Proof.
  intros Har Hi Hj tau v.
  destruct (arange_50Hz duration time Har) as [n ->].
  rewrite grid_length in *.
  assert (Hc : (i < n / 1000)%nat).
  { apply Nat.div_le_lower_bound; lia. }
  assert (Hv : v = nth j (stop_and_go max_speed) 0).
  { unfold v. rewrite city_profile_structure.
    apply nth_concat_repeat; [apply stop_and_go_length | exact Hc | exact Hj]. }
  destruct (stop_and_go_nth max_speed j Hj) as [Hup [Hhold [Hdown Hstop]]].
  assert (Htau : forall c : nat,
            (tau <= inject_Z (Z.of_nat c) * 0.02 -> (j <= c)%nat)
            /\ (inject_Z (Z.of_nat c) * 0.02 < tau -> (c < j)%nat)).
  { intro c. unfold tau. split; intro H.
    - apply inject_nat_le_inv. lra.
    - apply inject_nat_lt_inv. lra. }
  split.
  { rewrite grid_nth by lia. unfold tau.
    rewrite Nat2Z.inj_add, Nat2Z.inj_mul, inject_Z_plus, inject_Z_mult.
    change (inject_Z (Z.of_nat 1000)) with 1000. ring. }
  split.
  { intro H. rewrite Hv, Hup.
    - unfold tau. field.
    - apply (Htau 250%nat). change (inject_Z (Z.of_nat 250)) with 250. lra. }
  split.
  { intros [Hlo Hhi]. rewrite Hv. apply Hhold. split.
    - apply (Htau 250%nat). change (inject_Z (Z.of_nat 250)) with 250. lra.
    - apply (Htau 500%nat). change (inject_Z (Z.of_nat 500)) with 500. lra. }
  split.
  { intros [Hlo Hhi]. rewrite Hv, Hdown.
    - unfold tau. field.
    - split.
      + apply (Htau 500%nat). change (inject_Z (Z.of_nat 500)) with 500. lra.
      + apply (Htau 750%nat). change (inject_Z (Z.of_nat 750)) with 750. lra. }
  split.
  { intro H. rewrite Hv. apply Hstop.
    apply (Htau 750%nat). change (inject_Z (Z.of_nat 750)) with 750. lra. }
  intros k Hk.
  destruct (Nat.lt_ge_cases k (n / 1000)) as [Hfull | Hpart].
  - rewrite city_profile_structure.
    rewrite <- (Nat.add_0_r (1000 * k)).
    rewrite (nth_concat_repeat _ _ 1000)
      by (try apply stop_and_go_length; lia).
    destruct (stop_and_go_nth max_speed 0 ltac:(lia)) as [H0 _].
    rewrite H0 by lia. change (inject_Z (Z.of_nat 0)) with 0. field.
  - rewrite city_partial_cycle_is_zero by nia. reflexivity.
Qed.

Lemma C6_witness :
  nth 300 (create_city_profile (grid 0.02 1000) 30 5) 0 == 30 * 0.6.
Proof.
  pose proof (C6_city_full_cycles_at_50Hz 20 30 5 (grid 0.02 1000) 0 300) as H.
  cbv zeta in H.
  destruct H as [_ [_ [H _]]].
  - reflexivity.
  - rewrite grid_length. lia.
  - lia.
  - apply H. split; [reflexivity | discriminate].
Defined.

End CityTheorems.

(* ================================================================== *)
(** * Further properties of the requirement evaluator *)
(* ================================================================== *)

Section EvaluatorProperties.

Variable xpow : xnum -> xnum -> xnum.

Local Open Scope string_scope.

(** On a log indexed by sample number FDCW-1 reports a violation exactly
    when the first violating trimmed position [p] satisfies [p + 10 < m],
    [m] being the trimmed length; the report then carries the quantities of
    the trimmed position [p + 10]. *)
Theorem fdcw1_reports_exactly_when (sc : Scenario) (m : nat)
    (lead_x ego_x lead_speed time : list xnum) (r : fdcw1_report) :
  fdcw1_view sc m lead_x ego_x lead_speed time ->
  test_minimum_following_distance_requirement xpow sc = Violation r
  <-> exists p,
        first_true (violation_flags xpow lead_x ego_x lead_speed) = Some p
        /\ (p + 10 < m)%nat
        /\ r = mkFdcw1 (nth (p + 10) time NaN)
                 (nth (p + 10) (following_distances_of lead_x ego_x) NaN)
                 (nth (p + 10) (min_allowed_distances_of xpow lead_speed) NaN)
                 (nth (p + 10) (map lead_speed_mph_of lead_speed) NaN).
Proof.
  intro Hview. rewrite (fdcw1_outcome xpow sc m _ _ _ _ Hview).
  destruct (first_true (violation_flags xpow lead_x ego_x lead_speed))
    as [p |].
  - destruct (Nat.ltb_spec (p + 10) m) as [Hin | Hout].
    + split.
      * intro H. injection H as <-. exists p. auto.
      * intros [q [Hq [_ ->]]]. injection Hq as <-. reflexivity.
    + split; [discriminate |].
      intros [q [Hq [Hlt _]]]. injection Hq as <-. lia.
  - split; [discriminate |]. intros [q [Hq _]]. discriminate.
Qed.

(** FDCW-1 reads its columns in the order lead position, ego position, lead
    speed: as soon as some column name contains [ACTOR_lead], the first of
    the three that is missing is reported as a [KeyError]. *)
Theorem fdcw1_missing_column (sc : Scenario) :
  lead_vehicle_columns (scenario_df sc) <> [] ->
  (lookup "ACTOR_lead_x" (df_data (scenario_df sc)) = None ->
   test_minimum_following_distance_requirement xpow sc
   = Aborted (KeyError "ACTOR_lead_x"))
  /\ (lookup "ACTOR_lead_x" (df_data (scenario_df sc)) <> None ->
      lookup "ACTOR_ego_x" (df_data (scenario_df sc)) = None ->
      test_minimum_following_distance_requirement xpow sc
      = Aborted (KeyError "ACTOR_ego_x"))
  /\ (lookup "ACTOR_lead_x" (df_data (scenario_df sc)) <> None ->
      lookup "ACTOR_ego_x" (df_data (scenario_df sc)) <> None ->
      lookup "ACTOR_lead_speed" (df_data (scenario_df sc)) = None ->
      test_minimum_following_distance_requirement xpow sc
      = Aborted (KeyError "ACTOR_lead_speed")).
Proof.
  intro Hlead. unfold test_minimum_following_distance_requirement.
  unfold lead_vehicle_columns in *. rewrite columns_iloc_from.
  destruct (filter (contains "ACTOR_lead") (columns (scenario_df sc)))
    as [| c0 cs]; [contradiction |].
  unfold col. cbn [iloc_from df_data df_index]. rewrite !lookup_iloc_from.
  destruct (lookup "ACTOR_lead_x" (df_data (scenario_df sc))) as [lx |].
  - destruct (lookup "ACTOR_ego_x" (df_data (scenario_df sc))) as [ex |].
    + destruct (lookup "ACTOR_lead_speed" (df_data (scenario_df sc)))
        as [ls |].
      * repeat split; intros; congruence.
      * repeat split; intros; first [congruence | reflexivity].
    + repeat split; intros; first [congruence | reflexivity].
  - repeat split; intros; first [congruence | reflexivity].
Qed.

(** A well-formed log with lead columns in which no trimmed sample violates
    passes FDCW-1 whatever its index, and even without a [time] column:
    the time is only read to build a failure report. *)
Theorem fdcw1_passes_without_violation (sc : Scenario)
    (lead_x ego_x lead_speed : list xnum) :
  well_formed (scenario_df sc) ->
  lead_vehicle_columns (scenario_df sc) <> [] ->
  lookup "ACTOR_lead_x" (df_data (scenario_df sc)) = Some lead_x ->
  lookup "ACTOR_ego_x" (df_data (scenario_df sc)) = Some ego_x ->
  lookup "ACTOR_lead_speed" (df_data (scenario_df sc)) = Some lead_speed ->
  first_true (violation_flags xpow (skipn 10 lead_x) (skipn 10 ego_x)
                (skipn 10 lead_speed)) = None ->
  test_minimum_following_distance_requirement xpow sc = Passed.
Proof.
  intros Hwf Hlead Hlx Hex Hls Hnone.
  destruct (trimmed_lookup _ _ _ Hwf Hlx) as [Hlx' Llx].
  destruct (trimmed_lookup _ _ _ Hwf Hex) as [Hex' Lex].
  destruct (trimmed_lookup _ _ _ Hwf Hls) as [Hls' Lls].
  unfold test_minimum_following_distance_requirement.
  unfold lead_vehicle_columns in *. rewrite columns_iloc_from.
  destruct (filter (contains "ACTOR_lead") (columns (scenario_df sc)))
    as [| c0 cs]; [contradiction |].
  unfold col. rewrite Hlx', Hex', Hls'. cbn [bind ret].
  rewrite !smap_combine, !szip_combine.
  fold (following_distances_of (skipn 10 lead_x) (skipn 10 ego_x)).
  fold (min_allowed_distances_of xpow (skipn 10 lead_speed)).
  fold (violation_flags xpow (skipn 10 lead_x) (skipn 10 ego_x)
          (skipn 10 lead_speed)).
  rewrite any_first_true_none; [reflexivity | | exact Hnone].
  unfold violation_flags, following_distances_of, min_allowed_distances_of.
  cbn [iloc_from df_index].
  rewrite !zip_with_length; rewrite ?zip_with_length, ?length_map, ?length_skipn;
    unfold len in *; rewrite ?length_skipn in *; lia.
Qed.

(** A log of at most ten samples has nothing left after the trim: with lead
    columns present it passes FDCW-1. *)
Theorem fdcw1_short_log_passes (sc : Scenario)
    (lead_x ego_x lead_speed : list xnum) :
  (len (scenario_df sc) <= 10)%nat ->
  lead_vehicle_columns (scenario_df sc) <> [] ->
  lookup "ACTOR_lead_x" (df_data (scenario_df sc)) = Some lead_x ->
  lookup "ACTOR_ego_x" (df_data (scenario_df sc)) = Some ego_x ->
  lookup "ACTOR_lead_speed" (df_data (scenario_df sc)) = Some lead_speed ->
  test_minimum_following_distance_requirement xpow sc = Passed.
Proof.
  intros Hshort Hlead Hlx Hex Hls.
  unfold test_minimum_following_distance_requirement.
  unfold lead_vehicle_columns in *. rewrite columns_iloc_from.
  destruct (filter (contains "ACTOR_lead") (columns (scenario_df sc)))
    as [| c0 cs]; [contradiction |].
  unfold col. cbn [iloc_from df_data df_index].
  rewrite !lookup_iloc_from, Hlx, Hex, Hls. cbn [option_map bind ret].
  rewrite (skipn_all2 (df_index (scenario_df sc))) by exact Hshort.
  reflexivity.
Qed.

End EvaluatorProperties.

Section SpeedErrorProperties.

Local Open Scope string_scope.

Lemma smax_member (s : Series xnum) :
  smax s = NaN \/ exists l, In (l, smax s) s.
Proof.
  unfold smax, argmax.
  destruct (dropna s) as [| b rest] eqn:Hd; [now left |].
  pose proof (argmax_from_member b rest) as Hin. rewrite <- Hd in Hin.
  unfold dropna in Hin. apply filter_In in Hin. destruct Hin as [Hin _].
  destruct (argmax_from b rest) as [l v]. right. exists l. exact Hin.
Qed.

(** Whenever FDCW-2 reports a violation, the error it reports exceeds the
    limit of 10 percent. *)
Theorem fdcw2_reported_error_exceeds_limit (sc : Scenario) (r : fdcw2_report) :
  test_speed_error_requirement sc = Violation r ->
  xgtb (fdcw2_max_error r) (Fin 10) = true.
Proof.
  unfold test_speed_error_requirement.
  destruct (desired_speed_of (iloc_from 10 (scenario_df sc)))
    as [f | desired]; [discriminate |].
  cbn [bind].
  destruct (col (iloc_from 10 (scenario_df sc)) "ego_speed")
    as [f | actual]; [discriminate |].
  cbn [bind].
  destruct (col (iloc_from 10 (scenario_df sc)) "time")
    as [f | time]; [discriminate |].
  cbn [bind].
  match goal with
  | |- context [if negb ?c then _ else _] => destruct c
  end; cbn [negb]; [| discriminate].
  match goal with
  | |- context [if xgtb ?e (Fin 10) then _ else _] =>
      destruct (xgtb e (Fin 10)) eqn:Hgt; [| discriminate]
  end.
  repeat match goal with
         | |- context [bind ?m _] => destruct m; cbn [bind]; [discriminate |]
         end.
  cbn [ret run]. intro H. injection H as <-. exact Hgt.
Qed.

(** When no trimmed sample has a relative error above 10 percent (NaN
    errors included), FDCW-2 passes or is skipped: it neither reports a
    violation nor leaves the frame. *)
Theorem fdcw2_never_fails_within_limit (sc : Scenario)
    (desired ego time : list xnum) :
  lookup (desired_column (scenario_df sc)) (df_data (scenario_df sc))
  = Some desired ->
  lookup "ego_speed" (df_data (scenario_df sc)) = Some ego ->
  lookup "time" (df_data (scenario_df sc)) = Some time ->
  Forall (fun v => xgtb v (Fin 10) = false)
         (zip_with relative_error_of (skipn 10 desired) (skipn 10 ego)) ->
  test_speed_error_requirement sc = Passed
  \/ test_speed_error_requirement sc = Skipped.
Proof.
  intros Hdes Hego Htm Hall. unfold test_speed_error_requirement.
  assert (Hd : desired_speed_of (iloc_from 10 (scenario_df sc))
               = ret (combine (skipn 10 (df_index (scenario_df sc)))
                              (skipn 10 desired))).
  { unfold desired_speed_of, col. unfold desired_column in Hdes.
    unfold lead_vehicle_columns in *. rewrite columns_iloc_from.
    cbn [iloc_from df_data df_index]. rewrite !lookup_iloc_from.
    destruct (filter (contains "ACTOR_lead") (columns (scenario_df sc)));
      now rewrite Hdes. }
  rewrite Hd. unfold col. cbn [iloc_from df_data df_index].
  rewrite !lookup_iloc_from, Hego, Htm. cbn [option_map bind ret].
  match goal with
  | |- context [if negb ?c then _ else _] => destruct c
  end; cbn [negb run ret]; [| now right].
  rewrite szip_combine.
  match goal with
  | |- context [if xgtb ?e (Fin 10) then _ else _] =>
      assert (Hle : xgtb e (Fin 10) = false)
  end.
  { match goal with
    | |- xgtb (smax ?s) _ = false => destruct (smax_member s) as [-> | [l Hin]]
    end; [reflexivity |].
    apply select_subset in Hin.
    apply in_combine_r in Hin. rewrite Forall_forall in Hall.
    now apply Hall. }
  rewrite Hle. now left.
Qed.

(** FDCW-2 reads the desired-speed column first, then [ego_speed], then
    [time]: the first one that is missing is reported as a [KeyError]. *)
Theorem fdcw2_missing_column (sc : Scenario) :
  (lookup (desired_column (scenario_df sc)) (df_data (scenario_df sc)) = None ->
   test_speed_error_requirement sc
   = Aborted (KeyError (desired_column (scenario_df sc))))
  /\ (lookup (desired_column (scenario_df sc)) (df_data (scenario_df sc))
      <> None ->
      lookup "ego_speed" (df_data (scenario_df sc)) = None ->
      test_speed_error_requirement sc = Aborted (KeyError "ego_speed"))
  /\ (lookup (desired_column (scenario_df sc)) (df_data (scenario_df sc))
      <> None ->
      lookup "ego_speed" (df_data (scenario_df sc)) <> None ->
      lookup "time" (df_data (scenario_df sc)) = None ->
      test_speed_error_requirement sc = Aborted (KeyError "time")).
Proof.
  unfold test_speed_error_requirement, desired_speed_of, desired_column, col.
  unfold lead_vehicle_columns. rewrite columns_iloc_from.
  cbn [iloc_from df_data df_index]. rewrite !lookup_iloc_from.
  destruct (filter (contains "ACTOR_lead") (columns (scenario_df sc)));
    repeat match goal with
           | |- context [lookup ?k (df_data (scenario_df sc))] =>
               destruct (lookup k (df_data (scenario_df sc)))
           end;
    repeat split; intros; first [congruence | reflexivity].
Qed.

(** A log of at most eleven samples is skipped by FDCW-2: after the trim at
    most one sample is left, and the first trimmed sample has no
    acceleration (its difference is NaN), so the mask selects nothing. *)
Theorem fdcw2_short_log_is_skipped (sc : Scenario)
    (desired ego time : list xnum) :
  (len (scenario_df sc) <= 11)%nat ->
  lookup (desired_column (scenario_df sc)) (df_data (scenario_df sc))
  = Some desired ->
  lookup "ego_speed" (df_data (scenario_df sc)) = Some ego ->
  lookup "time" (df_data (scenario_df sc)) = Some time ->
  test_speed_error_requirement sc = Skipped.
Proof.
  intros Hshort Hdes Hego Htm. unfold test_speed_error_requirement.
  assert (Hd : desired_speed_of (iloc_from 10 (scenario_df sc))
               = ret (combine (skipn 10 (df_index (scenario_df sc)))
                              (skipn 10 desired))).
  { unfold desired_speed_of, col. unfold desired_column in Hdes.
    unfold lead_vehicle_columns in *. rewrite columns_iloc_from.
    cbn [iloc_from df_data df_index]. rewrite !lookup_iloc_from.
    destruct (filter (contains "ACTOR_lead") (columns (scenario_df sc)));
      now rewrite Hdes. }
  rewrite Hd. unfold col, steady_state_mask_of, last_half_mask, len.
  cbn [iloc_from df_data df_index].
  rewrite !lookup_iloc_from, Hego, Htm. cbn [option_map bind ret].
  assert (Hlen : (List.length (skipn 10 (df_index (scenario_df sc))) <= 1)%nat)
    by (rewrite length_skipn; unfold len in Hshort; lia).
  destruct (skipn 10 (df_index (scenario_df sc))) as [| l0 [| l1 rest]];
    [reflexivity | | simpl in Hlen; lia].
  destruct (skipn 10 ego) as [| e0 es]; [reflexivity |].
  destruct (skipn 10 time) as [| t0 ts];
    destruct (skipn 10 desired) as [| d0 ds];
    cbn [combine acceleration_of diff diff_from smap map fst snd xdiv xabs
         xltb and_array szip any existsb List.length];
    rewrite ?andb_false_r; reflexivity.
Qed.

End SpeedErrorProperties.

Lemma log_safe_following_view :
  fdcw1_view log_safe_following 11 (constant 11 100) (constant 11 0)
    (constant 11 0) (skipn 10 (ramp 21 0.01)).
Proof. constructor; try reflexivity. discriminate. Qed.

Lemma fdcw1_passes_iff_witness :
  test_minimum_following_distance_requirement pow_zero_one log_safe_following
  = Passed.
Proof.
  apply (proj2 (fdcw1_passes_iff pow_zero_one log_safe_following 11 _ _ _ _
                  log_safe_following_view)).
  intro p. vm_compute.
  do 11 (destruct p as [| p]; [reflexivity |]). destruct p; reflexivity.
Defined.

Lemma fdcw1_reports_exactly_when_witness :
  exists r,
    test_minimum_following_distance_requirement pow_zero_one log_early_violation
    = Violation r.
Proof.
  eexists.
  apply (proj2 (fdcw1_reports_exactly_when pow_zero_one log_early_violation 11
                  _ _ _ _ _ log_early_violation_view)).
  exists O. split; [reflexivity |]. split; [lia | reflexivity].
Defined.

Lemma fdcw1_missing_column_witness :
  test_minimum_following_distance_requirement pow_zero_one log_leader_only
  = Aborted (KeyError "ACTOR_lead_x").
Proof.
  apply (proj1 (fdcw1_missing_column pow_zero_one log_leader_only
                  ltac:(discriminate))).
  reflexivity.
Defined.

Lemma fdcw1_passes_without_violation_witness :
  test_minimum_following_distance_requirement pow_zero_one log_safe_following
  = Passed.
Proof.
  apply (fdcw1_passes_without_violation pow_zero_one log_safe_following
           (constant 21 100) (constant 21 0) (constant 21 0));
    try reflexivity.
  - repeat constructor.
  - discriminate.
Defined.

Lemma fdcw1_short_log_passes_witness :
  test_minimum_following_distance_requirement pow_zero_one log_too_short
  = Passed.
Proof.
  apply (fdcw1_short_log_passes pow_zero_one log_too_short
           (constant 8 1) (constant 8 0) (constant 8 5));
    try reflexivity.
  - vm_compute. lia.
  - discriminate.
Defined.

Lemma fdcw2_reported_error_exceeds_limit_witness :
  exists r, test_speed_error_requirement log_early_dip = Violation r
            /\ xgtb (fdcw2_max_error r) (Fin 10) = true.
Proof.
  eexists. split; [vm_compute; reflexivity |].
  apply (fdcw2_reported_error_exceeds_limit log_early_dip).
  vm_compute. reflexivity.
Defined.

Lemma fdcw2_never_fails_within_limit_witness :
  test_speed_error_requirement log_close_tracking = Passed
  \/ test_speed_error_requirement log_close_tracking = Skipped.
Proof.
  apply (fdcw2_never_fails_within_limit log_close_tracking
           (constant 30 10) (constant 30 9.5) (ramp 30 0.01));
    try reflexivity.
  repeat constructor.
Defined.

Lemma fdcw2_missing_column_witness :
  test_speed_error_requirement log_leader_only
  = Aborted (KeyError "ACTOR_lead_speed").
Proof.
  apply (proj1 (fdcw2_missing_column log_leader_only)). reflexivity.
Defined.

Lemma fdcw2_short_log_is_skipped_witness :
  test_speed_error_requirement log_tail_violation = Skipped.
Proof.
  apply (fdcw2_short_log_is_skipped log_tail_violation
           (constant 11 0) (constant 11 0) (ramp 11 0.01));
    first [reflexivity | vm_compute; lia].
Defined.

(* ================================================================== *)
(** * Further properties of the profiles: sample by sample *)
(* ================================================================== *)

Section MaskAccess.

Lemma mask_fill_nth (a : list Q) (mask : list bool) (c d : Q) (i : nat) :
  (i < List.length a)%nat ->
  nth i (mask_fill a mask c) d = if nth i mask false then c else nth i a d.
Proof.
  revert mask i. induction a as [| x a IH]; intros [| b mask] [| i] Hi;
    simpl in *; try lia; try reflexivity.
  apply IH. lia.
Qed.

Lemma mask_assign_nth_false (a : list Q) (mask : list bool) (vals : list Q)
    (d : Q) (i : nat) :
  nth i mask false = false ->
  nth i (mask_assign a mask vals) d = nth i a d.
Proof.
  revert mask vals i. induction a as [| x a IH]; intros [| b mask] vals [| i] H;
    simpl in *; try reflexivity.
  - subst b. reflexivity.
  - destruct b; [destruct vals |]; simpl; now apply IH.
Qed.

Lemma mask_assign_nth_true (a : list Q) (mask : list bool) (vals : list Q)
    (d : Q) (i : nat) :
  (i < List.length a)%nat ->
  nth i mask false = true ->
  (count_true (firstn i mask) < List.length vals)%nat ->
  nth i (mask_assign a mask vals) d = nth (count_true (firstn i mask)) vals d.
Proof.
  unfold count_true. revert mask vals i.
  induction a as [| x a IH]; intros [| b mask] vals [| i] Hi Hm Hc;
    simpl in *; try lia; try discriminate.
  - subst b. destruct vals; simpl in *; [lia | reflexivity].
  - destruct b; simpl in *.
    + destruct vals as [| v vals]; simpl in *; [lia |].
      apply IH; [lia | exact Hm | lia].
    + apply IH; [lia | exact Hm | exact Hc].
Qed.

(** [a[mask] = f(t[mask])]: a selected position receives [f] of its own
    sample. *)
Lemma mask_assign_map_take (f : Q -> Q) (a time : list Q) (mask : list bool)
    (d : Q) (i : nat) :
  (i < List.length a)%nat -> (i < List.length time)%nat ->
  nth i mask false = true ->
  nth i (mask_assign a mask (map f (take_mask time mask))) d
  = f (nth i time d).
Proof.
  revert time mask i.
  induction a as [| x a IH]; intros [| t time] [| b mask] [| i] Ha Ht Hm;
    simpl in *; try lia; try discriminate.
  - subst b. reflexivity.
  - destruct b; simpl; apply IH; (lia || exact Hm).
Qed.

Lemma le_mask_nth (time : list Q) (hi : Q) (i : nat) :
  (i < List.length time)%nat ->
  nth i (le_mask time hi) false = Qleb (nth i time 0) hi.
Proof.
  intro Hi. unfold le_mask.
  rewrite (nth_indep _ false ((fun t => Qleb t hi) 0))
    by (rewrite length_map; exact Hi).
  apply (map_nth (fun t => Qleb t hi)).
Qed.

Lemma gt_mask_nth (time : list Q) (lo : Q) (i : nat) :
  (i < List.length time)%nat ->
  nth i (gt_mask time lo) false = Qltb lo (nth i time 0).
Proof.
  intro Hi. unfold gt_mask.
  rewrite (nth_indep _ false ((fun t => Qltb lo t) 0))
    by (rewrite length_map; exact Hi).
  apply (map_nth (fun t => Qltb lo t)).
Qed.

Lemma between_mask_nth (time : list Q) (lo hi : Q) (i : nat) :
  (i < List.length time)%nat ->
  nth i (between_mask time lo hi) false
  = (Qltb lo (nth i time 0) && Qleb (nth i time 0) hi)%bool.
Proof.
  intro Hi. unfold between_mask.
  change (mask_and (gt_mask time lo) (le_mask time hi))
    with (zip_with andb (gt_mask time lo) (le_mask time hi)).
  rewrite (nth_zip_with andb _ _ i false false)
    by (unfold gt_mask, le_mask; rewrite length_map; exact Hi).
  now rewrite gt_mask_nth, le_mask_nth.
Qed.

Lemma between_mask_inside (time : list Q) (lo hi : Q) (i : nat) :
  (i < List.length time)%nat ->
  lo < nth i time 0 <= hi ->
  nth i (between_mask time lo hi) false = true.
Proof.
  intros Hi [H1 H2]. rewrite between_mask_nth by exact Hi.
  apply andb_true_iff. split; [now apply Qltb_lt | now apply Qleb_le].
Qed.

Lemma between_mask_outside (time : list Q) (lo hi : Q) (i : nat) :
  (i < List.length time)%nat ->
  nth i time 0 <= lo \/ hi < nth i time 0 ->
  nth i (between_mask time lo hi) false = false.
Proof.
  intros Hi H. rewrite between_mask_nth by exact Hi.
  apply andb_false_iff. destruct H as [H | H];
    [left; now apply Qltb_ge | right; now apply Qleb_gt].
Qed.

Lemma gt_mask_outside (time : list Q) (lo : Q) (i : nat) :
  (i < List.length time)%nat ->
  nth i time 0 <= lo ->
  nth i (gt_mask time lo) false = false.
Proof.
  intros Hi H. rewrite gt_mask_nth by exact Hi. now apply Qltb_ge.
Qed.

Lemma le_mask_outside (time : list Q) (hi : Q) (i : nat) :
  (i < List.length time)%nat ->
  hi < nth i time 0 ->
  nth i (le_mask time hi) false = false.
Proof.
  intros Hi H. rewrite le_mask_nth by exact Hi. now apply Qleb_gt.
Qed.

End MaskAccess.

Section HoldPhases.

Variable sin : Q -> Q.
Variable pi : Q.

(** Rewriting with the lengths of the intermediate arrays. *)
Ltac lengths :=
  repeat (rewrite ?mask_assign_length, ?mask_fill_length, ?zeros_like_length).

(** The highway profile, sample by sample and for any time array: a sample
    taken in (20, 40] holds [0.8 max], a sample in (40, 60] is
    [0.8 max + 5 sin(2 pi (t - 40) / 20)] and a sample in (60, 80] holds
    [0.7 max]. *)
Theorem highway_hold_phases (time : list Q) (max_speed min_speed : Q)
    (i : nat) :
  (i < List.length time)%nat ->
  let t := nth i time 0 in
  let v := nth i (create_highway_profile sin pi time max_speed min_speed) 0 in
  (20 < t <= 40 -> v = max_speed * 0.8)
  /\ (40 < t <= 60 ->
      v = max_speed * 0.8 + 5 * sin (2 * pi * (t - 40) / 20))
  /\ (60 < t <= 80 -> v = max_speed * 0.7).
Proof.
  intros Hi t v. subst t v. unfold create_highway_profile.
  repeat split; intros [H1 H2].
  - rewrite mask_assign_nth_false by (apply gt_mask_outside; first [lia | lra]).
    rewrite mask_fill_nth by (lengths; lia).
    rewrite between_mask_outside by first [lia | left; lra].
    rewrite mask_assign_nth_false
      by (apply between_mask_outside; first [lia | left; lra]).
    rewrite mask_fill_nth by (lengths; lia).
    rewrite between_mask_inside by first [lia | split; lra].
    reflexivity.
  - rewrite mask_assign_nth_false by (apply gt_mask_outside; first [lia | lra]).
    rewrite mask_fill_nth by (lengths; lia).
    rewrite between_mask_outside by first [lia | left; lra].
    rewrite (mask_assign_map_take
               (fun t => max_speed * 0.8 + 5 * sin (2 * pi * (t - 40) / 20)))
      by (lengths; first [lia | apply between_mask_inside;
                                first [lia | split; lra]]).
    reflexivity.
  - rewrite mask_assign_nth_false by (apply gt_mask_outside; first [lia | lra]).
    rewrite mask_fill_nth by (lengths; lia).
    rewrite between_mask_inside by first [lia | split; lra].
    reflexivity.
Qed.

(** The mixed profile, for any time array: a sample taken in (50, 70] holds
    [max_speed]. *)
Theorem mixed_cruise_phase (time : list Q) (max_speed min_speed : Q) (i : nat) :
  (i < List.length time)%nat ->
  50 < nth i time 0 <= 70 ->
  nth i (create_mixed_profile time max_speed min_speed) 0 = max_speed.
Proof.
  intros Hi [H1 H2]. unfold create_mixed_profile.
  assert (Hdecel : nth i (gt_mask time 70) false = false)
    by (apply gt_mask_outside; [lia | lra]).
  assert (Hcruise : nth i (between_mask time 50 70) false = true)
    by (apply between_mask_inside; [lia | split; lra]).
  assert (Hany : np_any (between_mask time 50 70) = true).
  { unfold np_any. apply existsb_exists. exists true. split; [| reflexivity].
    rewrite <- Hcruise. apply nth_In.
    unfold between_mask, mask_and, gt_mask, le_mask.
    rewrite length_map, length_combine, !length_map. lia. }
  rewrite Hany.
  assert (Hfill : forall s, List.length s = List.length time ->
            nth i (mask_fill s (between_mask time 50 70) max_speed) 0
            = max_speed).
  { intros s Hs. rewrite mask_fill_nth by lia. now rewrite Hcruise. }
  destruct (np_any (gt_mask time 70)).
  - rewrite mask_assign_nth_false by exact Hdecel.
    apply Hfill. destruct (np_any (le_mask time 30));
      destruct (np_any (between_mask time 30 50)); lengths; reflexivity.
  - apply Hfill. destruct (np_any (le_mask time 30));
      destruct (np_any (between_mask time 30 50)); lengths; reflexivity.
Qed.

End HoldPhases.

Section CyclePhases.

Variable sin : Q -> Q.
Variable pi : Q.

Lemma clip1_inside (lo hi x : Q) : lo <= x <= hi -> clip1 lo hi x = x.
Proof.
  intros [H1 H2]. unfold clip1.
  assert (E1 : Qltb x lo = false) by now apply Qltb_ge.
  rewrite E1.
  assert (E2 : Qltb hi x = false) by now apply Qltb_ge.
  now rewrite E2.
Qed.

Lemma clip_nth (a : list Q) (lo hi : Q) (i : nat) :
  (i < List.length a)%nat ->
  nth i (clip a lo hi) 0 = clip1 lo hi (nth i a 0).
Proof.
  intro Hi. unfold clip.
  rewrite (nth_indep _ 0 (clip1 lo hi 0)) by (rewrite length_map; exact Hi).
  apply map_nth.
Qed.

(** What the synthesizer returns for a scenario type, in terms of the
    profile builder it dispatches to. *)
Lemma synthesized_cycle (duration dt max_speed min_speed : Q)
    (scenario_type : string) (c : Cycle) :
  create_cacc_optimized_drive_cycle sin pi duration dt max_speed min_speed
    scenario_type = Some c ->
  arange 0 duration dt = Some (cycle_time c)
  /\ cycle_speed c
     = clip (if String.eqb scenario_type "highway"
             then create_highway_profile sin pi (cycle_time c)
                    max_speed min_speed
             else if String.eqb scenario_type "city"
             then create_city_profile (cycle_time c) max_speed min_speed
             else create_mixed_profile (cycle_time c) max_speed min_speed)
            0 max_speed.
Proof.
  unfold create_cacc_optimized_drive_cycle.
  destruct (arange 0 duration dt) as [time |]; [| discriminate].
  intro H. injection H as <-. split; reflexivity.
Qed.

(** A highway cycle synthesized on float64 arrays (a duration or a step
    that is not whole), sample by sample: [0.8 max] in (20, 40],
    [0.8 max + 5 sin(2 pi (t - 40) / 20)] clipped to [[0, max]] in (40, 60]
    and [0.7 max] in (60, 80]. *)
Theorem highway_cycle_phases (duration dt max_speed min_speed : Q)
    (c : Cycle) (i : nat) :
  float_arguments duration dt ->
  create_cacc_optimized_drive_cycle sin pi duration dt max_speed min_speed
    "highway" = Some c ->
  0 <= max_speed ->
  (i < List.length (cycle_time c))%nat ->
  let t := nth i (cycle_time c) 0 in
  let v := nth i (cycle_speed c) 0 in
  (20 < t <= 40 -> v = max_speed * 0.8)
  /\ (40 < t <= 60 ->
      v = clip1 0 max_speed
            (max_speed * 0.8 + 5 * sin (2 * pi * (t - 40) / 20)))
  /\ (60 < t <= 80 -> v = max_speed * 0.7).
Proof.
  intros _ Hc Hmax Hi t v.
  destruct (synthesized_cycle _ _ _ _ _ _ Hc) as [_ Hs].
  cbn [String.eqb Ascii.eqb Bool.eqb] in Hs.
  destruct (highway_hold_phases sin pi (cycle_time c) max_speed min_speed i Hi)
    as [Hcruise [Hadjust Hfollow]].
  unfold v. rewrite Hs.
  rewrite clip_nth by (rewrite create_highway_profile_length; exact Hi).
  repeat split; intro H.
  - rewrite (Hcruise H). apply clip1_inside. lra.
  - now rewrite (Hadjust H).
  - rewrite (Hfollow H). apply clip1_inside. lra.
Qed.

(** A mixed cycle (the fallback for every unrecognised scenario type
    included) synthesized on float64 arrays (a duration or a step that is
    not whole) holds [max_speed] at every sample taken in (50, 70]. *)
Theorem mixed_cycle_cruise (duration dt max_speed min_speed : Q)
    (scenario_type : string) (c : Cycle) (i : nat) :
  float_arguments duration dt ->
  scenario_type <> "highway"%string -> scenario_type <> "city"%string ->
  create_cacc_optimized_drive_cycle sin pi duration dt max_speed min_speed
    scenario_type = Some c ->
  0 <= max_speed ->
  (i < List.length (cycle_time c))%nat ->
  50 < nth i (cycle_time c) 0 <= 70 ->
  nth i (cycle_speed c) 0 = max_speed.
Proof.
  intros _ Hh Hcity Hc Hmax Hi Ht.
  destruct (synthesized_cycle _ _ _ _ _ _ Hc) as [_ Hs].
  destruct (String.eqb_spec scenario_type "highway"); [contradiction |].
  destruct (String.eqb_spec scenario_type "city"); [contradiction |].
  rewrite Hs, clip_nth by (rewrite create_mixed_profile_length; exact Hi).
  rewrite (mixed_cruise_phase (cycle_time c) max_speed min_speed i Hi Ht).
  apply clip1_inside. lra.
Qed.

End CyclePhases.

Section RampEnds.

Lemma count_true_pos (mask : list bool) (i : nat) :
  nth i mask false = true -> (1 <= count_true mask)%nat.
Proof.
  unfold count_true. revert i.
  induction mask as [| b mask IH]; intros [| i] H; simpl in *;
    try discriminate.
  - subst b. simpl. lia.
  - destruct b; simpl; [lia | exact (IH i H)].
Qed.

Lemma count_true_app (a b : list bool) :
  count_true (a ++ b) = (count_true a + count_true b)%nat.
Proof. unfold count_true. now rewrite filter_app, length_app. Qed.

(** The rank of the last position among the selected ones. *)
Lemma count_true_before_last (mask : list bool) (m : nat) :
  List.length mask = S m -> nth m mask false = true ->
  count_true (firstn m mask) = (count_true mask - 1)%nat
  /\ (1 <= count_true mask)%nat.
Proof.
  intros Hlen Hm.
  assert (Hsplit : mask = firstn m mask ++ [true]).
  { rewrite <- (firstn_skipn m mask) at 1. f_equal.
    assert (Hs : List.length (skipn m mask) = 1%nat)
      by (rewrite length_skipn; lia).
    destruct (skipn m mask) as [| b [| b' rest]] eqn:E; try discriminate.
    f_equal. rewrite <- Hm.
    rewrite <- (firstn_skipn m mask) at 1.
    rewrite app_nth2 by (rewrite length_firstn; lia).
    rewrite length_firstn, E.
    replace (m - Nat.min m (List.length mask))%nat with O by lia.
    reflexivity. }
  rewrite Hsplit at 2 3. rewrite count_true_app.
  change (count_true [true]) with 1%nat. lia.
Qed.

Lemma linspace_first (start stop : Q) (num : nat) :
  (1 <= num)%nat -> nth 0 (linspace start stop num) 0 == start.
Proof.
  intro H. destruct num as [| [| d]]; [lia | simpl; ring |].
  assert (Hd : 0 < inject_Z (Z.of_nat (S d))) by (apply inject_nat_pos; lia).
  unfold linspace. cbn [seq map app nth].
  change (inject_Z (Z.of_nat 0)) with 0.
  destruct (Qeq_bool ((stop - start) / inject_Z (Z.of_nat (S d))) 0);
    field; lra.
Qed.

Lemma linspace_last (start stop : Q) (num : nat) :
  (2 <= num)%nat -> nth (num - 1) (linspace start stop num) 0 = stop.
Proof.
  intro H. destruct num as [| [| d]]; try lia.
  unfold linspace.
  rewrite app_nth2 by (rewrite length_map, length_seq; lia).
  rewrite length_map, length_seq.
  replace (S (S d) - 1 - S d)%nat with O by lia. reflexivity.
Qed.

(** A ramp written through a mask that selects the last sample: the last
    sample receives the last value of the ramp. *)
Lemma ramp_reaches_last (s : list Q) (mask : list bool) (a b : Q) (m : nat) :
  List.length s = S m -> List.length mask = S m ->
  nth m mask false = true ->
  nth m (mask_assign s mask (linspace a b (count_true mask))) 0
  = nth (count_true mask - 1) (linspace a b (count_true mask)) 0.
Proof.
  intros Hs Hmask Hm.
  destruct (count_true_before_last mask m Hmask Hm) as [Hrank Hpos].
  rewrite mask_assign_nth_true; rewrite ?Hrank, ?linspace_length;
    first [reflexivity | lia | exact Hm].
Qed.

End RampEnds.

Section CycleEnds.

Variable sin : Q -> Q.
Variable pi : Q.

Lemma gt_mask_length (time : list Q) (lo : Q) :
  List.length (gt_mask time lo) = List.length time.
Proof. unfold gt_mask. apply length_map. Qed.

Lemma np_any_nth (mask : list bool) (i : nat) :
  nth i mask false = true -> np_any mask = true.
Proof.
  intro H. unfold np_any. apply existsb_exists. exists true.
  split; [| reflexivity]. rewrite <- H. apply nth_In.
  destruct (Nat.lt_ge_cases i (List.length mask)) as [Hlt | Hge];
    [exact Hlt |].
  rewrite nth_overflow in H by exact Hge. discriminate.
Qed.

(** The end of a highway cycle synthesized on float64 arrays (a duration or
    a step that is not whole) whose last sample lies past 80 s: with at
    least two samples past 80 s the last speed is [min_speed] clipped to
    [[0, max]]; with exactly one, the ramp has a single point and the last
    speed is [0.7 max]. *)
Theorem highway_cycle_final_speed (duration dt max_speed min_speed : Q)
    (c : Cycle) (m : nat) :
  float_arguments duration dt ->
  create_cacc_optimized_drive_cycle sin pi duration dt max_speed min_speed
    "highway" = Some c ->
  0 <= max_speed ->
  List.length (cycle_time c) = S m ->
  80 < nth m (cycle_time c) 0 ->
  ((2 <= count_true (gt_mask (cycle_time c) 80))%nat ->
   nth m (cycle_speed c) 0 = clip1 0 max_speed min_speed)
  /\ (count_true (gt_mask (cycle_time c) 80) = 1%nat ->
      nth m (cycle_speed c) 0 == max_speed * 0.7).
Proof.
  intros _ Hc Hmax Hlen Ht.
  destruct (synthesized_cycle sin pi _ _ _ _ _ _ Hc) as [_ Hs].
  cbn [String.eqb Ascii.eqb Bool.eqb] in Hs.
  set (time := cycle_time c) in *.
  assert (Hmask : nth m (gt_mask time 80) false = true).
  { rewrite gt_mask_nth by lia. now apply Qltb_lt. }
  assert (Hv : nth m (cycle_speed c) 0
               = clip1 0 max_speed
                   (nth (count_true (gt_mask time 80) - 1)
                      (linspace (max_speed * 0.7) min_speed
                         (count_true (gt_mask time 80))) 0)).
  { rewrite Hs, clip_nth by (rewrite create_highway_profile_length; lia).
    f_equal. unfold create_highway_profile.
    apply ramp_reaches_last;
      repeat (first [rewrite mask_fill_length | rewrite mask_assign_length
                    | rewrite zeros_like_length | rewrite gt_mask_length]);
      first [exact Hlen | exact Hmask]. }
  split; intro Hk.
  - rewrite Hv, linspace_last by exact Hk. reflexivity.
  - rewrite Hv, Hk. cbn [Nat.sub linspace nth].
    rewrite clip1_inside; [ring | split; nra].
Qed.

(** The end of a mixed cycle synthesized on float64 arrays (a duration or a
    step that is not whole) whose last sample lies past 70 s: with at least
    two samples past 70 s the last speed is [min_speed] clipped to
    [[0, max]]; with exactly one it is [max_speed]. *)
Theorem mixed_cycle_final_speed (duration dt max_speed min_speed : Q)
    (scenario_type : string) (c : Cycle) (m : nat) :
  float_arguments duration dt ->
  scenario_type <> "highway"%string -> scenario_type <> "city"%string ->
  create_cacc_optimized_drive_cycle sin pi duration dt max_speed min_speed
    scenario_type = Some c ->
  0 <= max_speed ->
  List.length (cycle_time c) = S m ->
  70 < nth m (cycle_time c) 0 ->
  ((2 <= count_true (gt_mask (cycle_time c) 70))%nat ->
   nth m (cycle_speed c) 0 = clip1 0 max_speed min_speed)
  /\ (count_true (gt_mask (cycle_time c) 70) = 1%nat ->
      nth m (cycle_speed c) 0 == max_speed).
Proof.
  intros _ Hh Hcity Hc Hmax Hlen Ht.
  destruct (synthesized_cycle sin pi _ _ _ _ _ _ Hc) as [_ Hs].
  destruct (String.eqb_spec scenario_type "highway"); [contradiction |].
  destruct (String.eqb_spec scenario_type "city"); [contradiction |].
  set (time := cycle_time c) in *.
  assert (Hmask : nth m (gt_mask time 70) false = true).
  { rewrite gt_mask_nth by lia. now apply Qltb_lt. }
  assert (Hv : nth m (cycle_speed c) 0
               = clip1 0 max_speed
                   (nth (count_true (gt_mask time 70) - 1)
                      (linspace max_speed min_speed
                         (count_true (gt_mask time 70))) 0)).
  { rewrite Hs, clip_nth by (rewrite create_mixed_profile_length; lia).
    f_equal. unfold create_mixed_profile.
    rewrite (np_any_nth (gt_mask time 70) m Hmask).
    apply ramp_reaches_last; [| now rewrite gt_mask_length | exact Hmask].
    destruct (np_any (le_mask time 30));
      destruct (np_any (between_mask time 30 50));
      destruct (np_any (between_mask time 50 70));
      repeat (first [rewrite mask_fill_length | rewrite mask_assign_length
                    | rewrite zeros_like_length]);
      exact Hlen. }
  split; intro Hk.
  - rewrite Hv, linspace_last by exact Hk. reflexivity.
  - rewrite Hv, Hk. cbn [Nat.sub linspace nth].
    rewrite clip1_inside; [ring | split; nra].
Qed.

End CycleEnds.

(* ================================================================== *)
(** * Further properties of the city profile *)
(* ================================================================== *)

Section CityBounds.

Variable P : Q -> Prop.

Lemma Forall_firstn_keeps (n : nat) (l : list Q) :
  Forall P l -> Forall P (firstn n l).
Proof.
  intro H. revert n. induction H as [| x l Hx _ IH]; intros [| n]; simpl;
    constructor; auto.
Qed.

Lemma Forall_skipn_keeps (n : nat) (l : list Q) :
  Forall P l -> Forall P (skipn n l).
Proof.
  intro H. revert n. induction H as [| x l Hx Hl IH]; intros [| n]; simpl;
    auto.
Qed.

Lemma mask_assign_keeps (a : list Q) (mask : list bool) (vals : list Q) :
  Forall P a -> Forall P vals -> Forall P (mask_assign a mask vals).
Proof.
  intro Ha. revert mask vals.
  induction Ha as [| x a Hx Ha IH]; intros [| b mask] vals Hv; simpl;
    try constructor; auto.
  destruct b.
  - destruct Hv as [| v vals Hv0 Hv]; constructor; auto.
  - constructor; auto.
Qed.

Lemma mask_fill_keeps (a : list Q) (mask : list bool) (c : Q) :
  Forall P a -> P c -> Forall P (mask_fill a mask c).
Proof.
  intros Ha Hc. revert mask.
  induction Ha as [| x a Hx Ha IH]; intros [| b mask]; simpl;
    try constructor; auto.
  destruct b; auto.
Qed.

Lemma update_slice_keeps (a : list Q) (start stop : nat)
    (f : list Q -> list Q) :
  (forall v, Forall P v -> Forall P (f v)) ->
  Forall P a -> Forall P (update_slice a start stop f).
Proof.
  intros Hf Ha. unfold update_slice, slice.
  apply Forall_app. split; [now apply Forall_firstn_keeps |].
  apply Forall_app. split; [| now apply Forall_skipn_keeps].
  apply Hf. now apply Forall_firstn_keeps, Forall_skipn_keeps.
Qed.

End CityBounds.

Section CityRange.

(** Every sample of [np.linspace(a, b, num)] lies between bounds that hold
    for both ends. *)
Lemma linspace_within (lo hi a b : Q) (num : nat) :
  lo <= a <= hi -> lo <= b <= hi ->
  Forall (fun v => lo <= v <= hi) (linspace a b num).
Proof.
  intros Ha Hb. destruct num as [| [| d]]; [constructor | |].
  - constructor; [| constructor].
    setoid_replace (0 * (b - a) + a) with a by ring. exact Ha.
  - unfold linspace. apply Forall_app. split; [| now repeat constructor].
    apply Forall_forall. intros v Hv. apply in_map_iff in Hv.
    destruct Hv as [i [<- Hi]]. apply in_seq in Hi. cbv beta zeta.
    set (dq := inject_Z (Z.of_nat (S d))).
    set (x := inject_Z (Z.of_nat i)).
    assert (Hdq : 0 < dq) by (apply inject_nat_pos; lia).
    assert (Hx0 : 0 <= x) by apply inject_nat_nonneg.
    assert (Hx1 : x <= dq) by (apply inject_nat_le; lia).
    pose (r := x / dq).
    assert (Hr0 : 0 <= r) by (apply Qle_shift_div_l; lra).
    assert (Hr1 : r <= 1) by (apply Qle_shift_div_r; lra).
    assert (Hval : (if Qeq_bool ((b - a) / dq) 0
                    then x / dq * (b - a) else x * ((b - a) / dq)) + a
                   == a + r * (b - a)).
    { unfold r. destruct (Qeq_bool ((b - a) / dq) 0); field; lra. }
    rewrite Hval.
    assert (H1 : 0 <= r * (b - lo)) by (apply Qmult_le_0_compat; lra).
    assert (H2 : 0 <= (1 - r) * (a - lo)) by (apply Qmult_le_0_compat; lra).
    assert (H3 : 0 <= r * (hi - b)) by (apply Qmult_le_0_compat; lra).
    assert (H4 : 0 <= (1 - r) * (hi - a)) by (apply Qmult_le_0_compat; lra).
    split; lra.
Qed.

Lemma city_cycle_within (max_speed : Q) (cycle_time view : list Q) :
  0 <= max_speed ->
  Forall (fun v => 0 <= v <= max_speed * 0.6) view ->
  Forall (fun v => 0 <= v <= max_speed * 0.6)
         (city_cycle max_speed cycle_time view).
Proof.
  intros Hmax Hview. unfold city_cycle.
  destruct cycle_time as [| t ts]; [exact Hview |].
  repeat match goal with
         | |- context [if ?c then _ else _] => destruct c
         end;
    repeat first
      [ assumption
      | apply mask_assign_keeps
      | apply mask_fill_keeps
      | apply linspace_within
      | split; lra ].
Qed.

Lemma city_loop_within (cycles : list nat) (time : list Q) (max_speed : Q)
    (speeds : list Q) :
  0 <= max_speed ->
  Forall (fun v => 0 <= v <= max_speed * 0.6) speeds ->
  Forall (fun v => 0 <= v <= max_speed * 0.6)
         (city_loop cycles time max_speed speeds).
Proof.
  intro Hmax. revert speeds.
  induction cycles as [| i rest IH]; intros speeds Hs; [exact Hs |].
  rewrite city_loop_cons. cbv zeta.
  match goal with
  | |- context [if ?c then _ else _] => destruct c
  end; [exact Hs |].
  apply IH. apply update_slice_keeps; [| exact Hs].
  intros v Hv. now apply city_cycle_within.
Qed.

(** Every speed of a city profile lies in [[0, 0.6 max]], whatever the time
    array. *)
Lemma city_profile_within (time : list Q) (max_speed min_speed : Q) :
  0 <= max_speed ->
  Forall (fun v => 0 <= v <= max_speed * 0.6)
         (create_city_profile time max_speed min_speed).
Proof.
  intro Hmax. unfold create_city_profile. apply city_loop_within; [exact Hmax |].
  unfold zeros_like. apply Forall_forall. intros v Hv.
  apply in_map_iff in Hv. destruct Hv as [t [<- _]]. lra.
Qed.

Lemma clip_inside (a : list Q) (lo hi : Q) :
  Forall (fun v => lo <= v <= hi) a -> clip a lo hi = a.
Proof.
  intro H. unfold clip. induction H as [| x a Hx _ IH]; simpl;
    [reflexivity |].
  now rewrite IH, clip1_inside.
Qed.

End CityRange.

Section CityCycles.

Variable sin : Q -> Q.
Variable pi : Q.

Lemma unclipped_city_speeds (duration dt max_speed min_speed : Q)
    (c : Cycle) :
  create_cacc_optimized_drive_cycle sin pi duration dt max_speed min_speed
    "city" = Some c ->
  0 <= max_speed ->
  cycle_speed c = create_city_profile (cycle_time c) max_speed min_speed
  /\ Forall (fun v => 0 <= v <= max_speed * 0.6) (cycle_speed c).
Proof.
  intros Hc Hmax.
  destruct (synthesized_cycle sin pi _ _ _ _ _ _ Hc) as [_ Hs].
  cbn [String.eqb Ascii.eqb Bool.eqb] in Hs.
  pose proof (city_profile_within (cycle_time c) max_speed min_speed Hmax)
    as Hin.
  assert (Heq : cycle_speed c
                = create_city_profile (cycle_time c) max_speed min_speed).
  { rewrite Hs. apply clip_inside. apply Forall_forall. intros v Hv.
    rewrite Forall_forall in Hin. specialize (Hin v Hv). lra. }
  split; [exact Heq | now rewrite Heq].
Qed.

(** For the city scenario the final clipping changes nothing: the returned
    speeds are the city profile itself and all lie in [[0, 0.6 max]]. *)
Theorem city_cycle_is_unclipped (duration dt max_speed min_speed : Q)
    (c : Cycle) :
  create_cacc_optimized_drive_cycle sin pi duration dt max_speed min_speed
    "city" = Some c ->
  0 <= max_speed ->
  cycle_speed c = create_city_profile (cycle_time c) max_speed min_speed
  /\ Forall (fun v => 0 <= v <= max_speed * 0.6) (cycle_speed c).
Proof. exact (unclipped_city_speeds duration dt max_speed min_speed c). Qed.

(** A city cycle of fewer than 1000 samples is at standstill throughout:
    the profile writes whole blocks of 1000 samples only, whatever the
    step. *)
Theorem city_cycle_below_1000_samples_is_zero
    (duration dt max_speed min_speed : Q) (c : Cycle) :
  create_cacc_optimized_drive_cycle sin pi duration dt max_speed min_speed
    "city" = Some c ->
  0 <= max_speed ->
  (List.length (cycle_time c) < 1000)%nat ->
  cycle_speed c = repeat 0 (List.length (cycle_time c)).
Proof.
  intros Hc Hmax Hshort.
  destruct (unclipped_city_speeds duration dt max_speed min_speed c Hc Hmax)
    as [-> _].
  unfold create_city_profile.
  rewrite cycle_count, Nat.div_small by exact Hshort.
  cbn [seq city_loop]. unfold zeros_like. apply map_const_repeat.
Qed.

End CityCycles.

Section CityAt50Hz.

Variable sin : Q -> Q.
Variable pi : Q.

(** At the step of 0.02 s a city cycle repeats itself every 1000 samples:
    two samples at the same offset of two full blocks are equal. *)
Theorem city_cycle_repeats_every_1000_samples
    (duration max_speed min_speed : Q) (c : Cycle) (i i' j : nat) :
  create_cacc_optimized_drive_cycle sin pi duration 0.02 max_speed min_speed
    "city" = Some c ->
  0 <= max_speed ->
  (1000 * (i + 1) <= List.length (cycle_time c))%nat ->
  (1000 * (i' + 1) <= List.length (cycle_time c))%nat ->
  (j < 1000)%nat ->
  nth (1000 * i + j) (cycle_speed c) 0 = nth (1000 * i' + j) (cycle_speed c) 0.
Proof.
  intros Hc Hmax Hi Hi' Hj.
  destruct (unclipped_city_speeds sin pi duration 0.02 max_speed
              min_speed c Hc Hmax) as [-> _].
  destruct (synthesized_cycle sin pi _ _ _ _ _ _ Hc) as [Har _].
  destruct (arange_50Hz duration _ Har) as [n Hn]. rewrite Hn in *.
  rewrite grid_length in *. rewrite city_profile_structure.
  rewrite !(nth_concat_repeat _ _ 1000);
    first [reflexivity | apply stop_and_go_length | exact Hj
          | apply Nat.div_le_lower_bound; lia].
Qed.

(** At the step of 0.02 s the samples after the last full block of 1000
    are all zero: a last cycle that does not fit is not written at all. *)
Theorem city_cycle_has_no_partial_cycle
    (duration max_speed min_speed : Q) (c : Cycle) (k : nat) :
  create_cacc_optimized_drive_cycle sin pi duration 0.02 max_speed min_speed
    "city" = Some c ->
  0 <= max_speed ->
  (1000 * (List.length (cycle_time c) / 1000) <= k)%nat ->
  nth k (cycle_speed c) 0 = 0.
Proof.
  intros Hc Hmax Hk.
  destruct (unclipped_city_speeds sin pi duration 0.02 max_speed
              min_speed c Hc Hmax) as [-> _].
  destruct (synthesized_cycle sin pi _ _ _ _ _ _ Hc) as [Har _].
  destruct (arange_50Hz duration _ Har) as [n Hn]. rewrite Hn in *.
  rewrite grid_length in Hk. now apply city_partial_cycle_is_zero.
Qed.

End CityAt50Hz.

(* ================================================================== *)
(** * Every cycle starts at rest *)
(* ================================================================== *)

Section StartAtRest.

Variable sin : Q -> Q.
Variable pi : Q.

Lemma nth_first_of_ramp (s : list Q) (mask : list bool) (a b : Q) :
  (1 <= List.length s)%nat -> nth 0 mask false = true ->
  nth 0 (mask_assign s mask (linspace a b (count_true mask))) 0 == a.
Proof.
  intros Hs Hm.
  pose proof (count_true_pos mask 0 Hm) as Hpos.
  rewrite mask_assign_nth_true;
    [| lia | exact Hm
     | cbn [firstn]; change (count_true []) with O;
       rewrite linspace_length; lia].
  cbn [firstn]. change (count_true []) with O.
  now apply linspace_first.
Qed.

Lemma city_cycle_first (max_speed : Q) (cycle_time view : list Q) :
  (1 <= List.length cycle_time)%nat -> (1 <= List.length view)%nat ->
  nth 0 cycle_time 0 == 0 ->
  nth 0 (city_cycle max_speed cycle_time view) 0 == 0.
Proof.
  intros Hct Hview H0. unfold city_cycle.
  destruct cycle_time as [| t0 ts] eqn:E; [simpl in Hct; lia |].
  rewrite <- E in *. clear E.
  assert (Haccel : nth 0 (le_mask cycle_time 5) false = true).
  { rewrite le_mask_nth by lia. apply Qleb_le. rewrite H0. discriminate. }
  assert (Hcruise : nth 0 (between_mask cycle_time 5 10) false = false).
  { apply between_mask_outside; [lia | left; rewrite H0; discriminate]. }
  assert (Hdecel : nth 0 (between_mask cycle_time 10 15) false = false).
  { apply between_mask_outside; [lia | left; rewrite H0; discriminate]. }
  assert (Hstop : nth 0 (gt_mask cycle_time 15) false = false).
  { apply gt_mask_outside; [lia | rewrite H0; discriminate]. }
  rewrite (np_any_nth _ 0 Haccel).
  assert (H1 : nth 0 (mask_assign view (le_mask cycle_time 5)
                        (linspace 0 (max_speed * 0.6)
                           (count_true (le_mask cycle_time 5)))) 0 == 0)
    by (apply nth_first_of_ramp; assumption).
  set (s1 := mask_assign view (le_mask cycle_time 5) _) in *.
  assert (L1 : (1 <= List.length s1)%nat)
    by (unfold s1; now rewrite mask_assign_length).
  destruct (np_any (between_mask cycle_time 5 10));
    destruct (np_any (between_mask cycle_time 10 15));
    destruct (np_any (gt_mask cycle_time 15));
    repeat first
      [ rewrite mask_fill_nth
          by (repeat (first [rewrite mask_fill_length
                            | rewrite mask_assign_length]); lia)
      | rewrite mask_assign_nth_false by assumption
      | rewrite Hcruise | rewrite Hdecel | rewrite Hstop ];
    exact H1.
Qed.

Lemma nth_first_firstn (n : nat) (l : list Q) :
  (1 <= n)%nat -> nth 0 (firstn n l) 0 = nth 0 l 0.
Proof. intro H. destruct n; [lia |]. destruct l; reflexivity. Qed.

Lemma city_loop_first (cycles : list nat) (time : list Q) (max_speed : Q)
    (speeds : list Q) :
  List.length speeds = List.length time ->
  (1 <= List.length time)%nat ->
  nth 0 speeds 0 == 0 ->
  nth 0 (city_loop cycles time max_speed speeds) 0 == 0.
Proof.
  revert speeds.
  induction cycles as [| i rest IH]; intros speeds Hlen Hn H0; [exact H0 |].
  rewrite city_loop_cons. cbv zeta. rewrite !start_index.
  destruct (Nat.leb_spec (List.length time) (1000 * i)) as [_ | Hlt];
    [exact H0 |].
  apply IH;
    [rewrite update_slice_length; [exact Hlen | apply city_cycle_length]
    | exact Hn |].
  unfold update_slice.
  destruct i as [| i].
  - rewrite Nat.mul_0_r in *.
    set (e := Nat.min (1000 * (0 + 1)) (List.length time)).
    assert (He : (1 <= e)%nat) by (unfold e; lia).
    cbn [firstn app].
    assert (Lview : List.length (slice speeds 0 e) = e).
    { unfold slice. cbn [skipn]. rewrite length_firstn. lia. }
    assert (Lct : List.length (slice time 0 e) = e).
    { unfold slice. cbn [skipn]. rewrite length_firstn. lia. }
    rewrite app_nth1 by (rewrite city_cycle_length, Lview; lia).
    apply city_cycle_first.
    + rewrite length_map, Lct. exact He.
    + rewrite Lview. exact He.
    + set (g := fun t : Q => t - nth 0 time 0).
      rewrite (nth_indep _ 0 (g 0)) by (rewrite length_map, Lct; lia).
      rewrite (map_nth g). unfold g, slice. cbn [skipn].
      rewrite Nat.sub_0_r, nth_first_firstn by exact He. ring.
  - rewrite app_nth1 by (rewrite length_firstn; lia).
    rewrite nth_first_firstn by lia. exact H0.
Qed.

Lemma city_profile_first (time : list Q) (max_speed min_speed : Q) :
  nth 0 (create_city_profile time max_speed min_speed) 0 == 0.
Proof.
  unfold create_city_profile. destruct time as [| t0 ts] eqn:E.
  - unfold zeros_like. cbn [map List.length].
    destruct (seq 0 _); reflexivity.
  - rewrite <- E. apply city_loop_first.
    + apply zeros_like_length.
    + rewrite E. simpl. lia.
    + rewrite E. reflexivity.
Qed.

Lemma take_mask_first (time : list Q) (mask : list bool) :
  nth 0 mask false = true -> (1 <= List.length time)%nat ->
  (1 <= List.length (take_mask time mask))%nat.
Proof.
  destruct time as [| t ts]; destruct mask as [| b m]; simpl; try lia;
    try discriminate.
  intros -> _. simpl. lia.
Qed.

Lemma highway_profile_first (time : list Q) (max_speed min_speed : Q) :
  (1 <= List.length time)%nat -> nth 0 time 0 == 0 ->
  nth 0 (create_highway_profile sin pi time max_speed min_speed) 0 == 0.
Proof.
  intros Hn H0. unfold create_highway_profile.
  rewrite mask_assign_nth_false
    by (apply gt_mask_outside; [lia | rewrite H0; discriminate]).
  rewrite mask_fill_nth
    by (repeat (first [rewrite mask_fill_length | rewrite mask_assign_length
                      | rewrite zeros_like_length]); lia).
  rewrite between_mask_outside by (lia || (left; rewrite H0; discriminate)).
  rewrite mask_assign_nth_false
    by (apply between_mask_outside; [lia | left; rewrite H0; discriminate]).
  rewrite mask_fill_nth
    by (repeat (first [rewrite mask_fill_length | rewrite mask_assign_length
                      | rewrite zeros_like_length]); lia).
  rewrite between_mask_outside by (lia || (left; rewrite H0; discriminate)).
  apply nth_first_of_ramp; [now rewrite zeros_like_length |].
  rewrite le_mask_nth by lia. apply Qleb_le. rewrite H0. discriminate.
Qed.

Lemma mixed_profile_first (time : list Q) (max_speed min_speed : Q) :
  (1 <= List.length time)%nat -> nth 0 time 0 == 0 ->
  nth 0 (create_mixed_profile time max_speed min_speed) 0 == 0.
Proof.
  intros Hn H0. unfold create_mixed_profile.
  assert (Hcity : nth 0 (le_mask time 30) false = true).
  { rewrite le_mask_nth by lia. apply Qleb_le. rewrite H0. discriminate. }
  assert (Haccel : nth 0 (between_mask time 30 50) false = false).
  { apply between_mask_outside; [lia | left; rewrite H0; discriminate]. }
  assert (Hcruise : nth 0 (between_mask time 50 70) false = false).
  { apply between_mask_outside; [lia | left; rewrite H0; discriminate]. }
  assert (Hdecel : nth 0 (gt_mask time 70) false = false).
  { apply gt_mask_outside; [lia | rewrite H0; discriminate]. }
  rewrite (np_any_nth _ 0 Hcity).
  set (city := create_city_profile (take_mask time (le_mask time 30))
                 (max_speed * 0.7) 0).
  assert (H1 : nth 0 (mask_assign (zeros_like time) (le_mask time 30) city) 0
               == 0).
  { rewrite mask_assign_nth_true.
    - cbn [firstn]. change (count_true []) with O.
      apply city_profile_first.
    - rewrite zeros_like_length. lia.
    - exact Hcity.
    - cbn [firstn]. change (count_true []) with O. unfold city.
      rewrite create_city_profile_length.
      pose proof (take_mask_first time _ Hcity Hn). lia. }
  set (s1 := mask_assign (zeros_like time) (le_mask time 30) city) in *.
  assert (L1 : (1 <= List.length s1)%nat)
    by (unfold s1; rewrite mask_assign_length, zeros_like_length; lia).
  destruct (np_any (between_mask time 30 50));
    destruct (np_any (between_mask time 50 70));
    destruct (np_any (gt_mask time 70));
    repeat first
      [ rewrite mask_fill_nth
          by (repeat (first [rewrite mask_fill_length
                            | rewrite mask_assign_length]); lia)
      | rewrite mask_assign_nth_false by assumption
      | rewrite Haccel | rewrite Hcruise | rewrite Hdecel ];
    exact H1.
Qed.

Lemma first_speed_is_zero (duration dt max_speed min_speed : Q)
    (scenario_type : string) (c : Cycle) :
  create_cacc_optimized_drive_cycle sin pi duration dt max_speed min_speed
    scenario_type = Some c ->
  0 < duration -> 0 < dt -> 0 <= max_speed ->
  nth 0 (cycle_speed c) 0 == 0.
Proof.
  intros Hc Hd Hdt Hmax.
  destruct (synthesized_cycle sin pi _ _ _ _ _ _ Hc) as [Har Hs].
  destruct (arange_is_grid duration dt _ Har) as [n Htime].
  destruct n as [| n].
  { rewrite Hs, Htime.
    destruct (String.eqb scenario_type "highway");
      [| destruct (String.eqb scenario_type "city")]; reflexivity. }
  assert (Hlen : (1 <= List.length (cycle_time c))%nat).
  { rewrite Htime, grid_length. lia. }
  assert (H0 : nth 0 (cycle_time c) 0 == 0).
  { rewrite Htime. unfold grid. cbn [seq map nth].
    change (inject_Z (Z.of_nat 0)) with 0. ring. }
  assert (Hclip : forall v, v == 0 -> clip1 0 max_speed v == 0).
  { intros v Hv. rewrite clip1_inside; [exact Hv | rewrite Hv; split; lra]. }
  rewrite Hs.
  destruct (String.eqb scenario_type "highway").
  - rewrite clip_nth by (rewrite create_highway_profile_length; lia).
    now apply Hclip, highway_profile_first.
  - destruct (String.eqb scenario_type "city").
    + rewrite clip_nth by (rewrite create_city_profile_length; lia).
      apply Hclip, city_profile_first.
    + rewrite clip_nth by (rewrite create_mixed_profile_length; lia).
      now apply Hclip, mixed_profile_first.
Qed.

(** Whatever the scenario type, a cycle synthesized for a positive duration
    and step and a non-negative maximum speed starts at rest: its first
    speed is 0. *)
Theorem cycle_starts_at_rest (duration dt max_speed min_speed : Q)
    (scenario_type : string) (c : Cycle) :
  create_cacc_optimized_drive_cycle sin pi duration dt max_speed min_speed
    scenario_type = Some c ->
  0 < duration -> 0 < dt -> 0 <= max_speed ->
  nth 0 (cycle_speed c) 0 == 0.
Proof.
  exact (first_speed_is_zero duration dt max_speed min_speed scenario_type c).
Qed.

End StartAtRest.

(* ================================================================== *)
(** * The city phase of a mixed cycle at 50 Hz *)
(* ================================================================== *)

Section MixedAt50Hz.

Variable sin : Q -> Q.
Variable pi : Q.

Lemma le_mask_grid_30 (n : nat) :
  le_mask (grid 0.02 n) 30 = map (fun i => (i <=? 1500)%nat) (seq 0 n).
Proof.
  unfold le_mask, grid. rewrite map_map. apply map_ext. intro i.
  destruct (Nat.leb_spec i 1500) as [H | H].
  - apply Qleb_le. pose proof (inject_nat_le i 1500 H) as Hq.
    change (inject_Z (Z.of_nat 1500)) with 1500 in Hq. lra.
  - apply Qleb_gt. pose proof (inject_nat_le 1501 i H) as Hq.
    change (inject_Z (Z.of_nat 1501)) with 1501 in Hq. lra.
Qed.

Lemma take_mask_map_filter {A} (f : nat -> A) (p : nat -> bool) (l : list nat) :
  take_mask (map f l) (map p l) = map f (filter p l).
Proof.
  induction l as [| x l IH]; [reflexivity |]. cbn [map take_mask filter].
  destruct (p x); cbn [map]; now rewrite IH.
Qed.

Lemma count_true_map_filter (p : nat -> bool) (l : list nat) :
  count_true (map p l) = List.length (filter p l).
Proof.
  unfold count_true. induction l as [| x l IH]; [reflexivity |].
  cbn [map filter]. destruct (p x); cbn [List.length]; now rewrite IH.
Qed.

Lemma filter_leb_seq (b n : nat) :
  filter (fun i => (i <=? b)%nat) (seq 0 n) = seq 0 (Nat.min n (S b)).
Proof.
  induction n as [| n IH]; [reflexivity |].
  rewrite seq_S, filter_app, IH. cbn [filter Nat.add].
  destruct (Nat.leb_spec n b) as [H | H].
  - replace (Nat.min n (S b)) with n by lia.
    replace (Nat.min (S n) (S b)) with (S n) by lia.
    now rewrite seq_S.
  - rewrite app_nil_r. f_equal. lia.
Qed.

Lemma firstn_seq_start (k n : nat) :
  (k <= n)%nat -> firstn k (seq 0 n) = seq 0 k.
Proof.
  intro H. replace n with (k + (n - k))%nat by lia.
  rewrite seq_app. apply firstn_exact, length_seq.
Qed.

(** The samples selected by [time <= 30] on the 50 Hz grid are the first
    1501 ones. *)
Lemma city_phase_of_grid (n : nat) :
  take_mask (grid 0.02 n) (le_mask (grid 0.02 n) 30)
  = grid 0.02 (Nat.min n 1501).
Proof.
  rewrite le_mask_grid_30. unfold grid.
  now rewrite take_mask_map_filter, filter_leb_seq.
Qed.

Lemma city_phase_rank (n k : nat) :
  (k <= n)%nat -> (k <= 1501)%nat ->
  count_true (firstn k (le_mask (grid 0.02 n) 30)) = k.
Proof.
  intros Hn Hk.
  rewrite le_mask_grid_30, firstn_map, firstn_seq_start by exact Hn.
  rewrite count_true_map_filter, filter_leb_seq, length_seq. lia.
Qed.

Lemma mixed_profile_idle (max_speed min_speed : Q) (n k : nat) :
  (1000 <= k <= 1500)%nat -> (k < n)%nat ->
  nth k (create_mixed_profile (grid 0.02 n) max_speed min_speed) 0 = 0.
Proof.
  intros [Hk1 Hk2] Hn. unfold create_mixed_profile.
  set (time := grid 0.02 n).
  assert (Ltime : List.length time = n) by apply grid_length.
  assert (Ht : nth k time 0 <= 30).
  { unfold time. rewrite grid_nth by exact Hn.
    pose proof (inject_nat_le k 1500 Hk2) as Hq.
    change (inject_Z (Z.of_nat 1500)) with 1500 in Hq. lra. }
  assert (Hcity : nth k (le_mask time 30) false = true).
  { rewrite le_mask_nth by lia. now apply Qleb_le. }
  assert (Haccel : nth k (between_mask time 30 50) false = false)
    by (apply between_mask_outside; [lia | now left]).
  assert (Hcruise : nth k (between_mask time 50 70) false = false)
    by (apply between_mask_outside; [lia | left; lra]).
  assert (Hdecel : nth k (gt_mask time 70) false = false)
    by (apply gt_mask_outside; [lia | lra]).
  rewrite (np_any_nth _ k Hcity).
  assert (H1 : nth k (mask_assign (zeros_like time) (le_mask time 30)
                        (create_city_profile
                           (take_mask time (le_mask time 30))
                           (max_speed * 0.7) 0)) 0 = 0).
  { assert (Hrank : count_true (firstn k (le_mask time 30)) = k)
      by (apply city_phase_rank; lia).
    assert (Hvals : take_mask time (le_mask time 30)
                    = grid 0.02 (Nat.min n 1501))
      by apply city_phase_of_grid.
    rewrite mask_assign_nth_true;
      rewrite ?Hrank, ?Hvals, ?create_city_profile_length, ?grid_length,
        ?zeros_like_length, ?Ltime;
      [| lia | exact Hcity | lia].
    apply city_partial_cycle_is_zero.
    assert (Hdiv : (Nat.min n 1501 / 1000 < 2)%nat)
      by (apply Nat.Div0.div_lt_upper_bound; lia).
    nia. }
  set (s1 := mask_assign (zeros_like time) (le_mask time 30) _) in *.
  assert (L1 : List.length s1 = n)
    by (unfold s1; now rewrite mask_assign_length, zeros_like_length).
  destruct (np_any (between_mask time 30 50));
    destruct (np_any (between_mask time 50 70));
    destruct (np_any (gt_mask time 70));
    repeat first
      [ rewrite mask_fill_nth
          by (repeat (first [rewrite mask_fill_length
                            | rewrite mask_assign_length]); lia)
      | rewrite mask_assign_nth_false by assumption
      | rewrite Haccel | rewrite Hcruise | rewrite Hdecel ];
    exact H1.
Qed.

(** At the step of 0.02 s a mixed cycle (the fallback for every
    unrecognised scenario type included) stands still from 20 s to 30 s:
    its city phase holds 1501 samples, of which only the first 1000 are
    written. *)
Theorem mixed_cycle_stands_still_from_20s_to_30s
    (duration max_speed min_speed : Q) (scenario_type : string) (c : Cycle)
    (k : nat) :
  scenario_type <> "highway"%string -> scenario_type <> "city"%string ->
  create_cacc_optimized_drive_cycle sin pi duration 0.02 max_speed min_speed
    scenario_type = Some c ->
  0 <= max_speed ->
  (1000 <= k <= 1500)%nat ->
  (k < List.length (cycle_time c))%nat ->
  nth k (cycle_speed c) 0 = 0
  /\ 20 <= nth k (cycle_time c) 0 <= 30.
Proof.
  intros Hh Hcity Hc Hmax Hk Hlen.
  destruct (synthesized_cycle sin pi _ _ _ _ _ _ Hc) as [Har Hs].
  destruct (String.eqb_spec scenario_type "highway"); [contradiction |].
  destruct (String.eqb_spec scenario_type "city"); [contradiction |].
  destruct (arange_50Hz duration _ Har) as [m Hm]. rewrite Hm in *.
  rewrite grid_length in Hlen. split.
  - rewrite Hs, clip_nth
      by (rewrite create_mixed_profile_length, grid_length; exact Hlen).
    rewrite mixed_profile_idle by assumption.
    apply clip1_inside. lra.
  - rewrite grid_nth by exact Hlen.
    pose proof (inject_nat_le k 1500 (proj2 Hk)) as H1.
    pose proof (inject_nat_le 1000 k (proj1 Hk)) as H2.
    change (inject_Z (Z.of_nat 1500)) with 1500 in H1.
    change (inject_Z (Z.of_nat 1000)) with 1000 in H2. lra.
Qed.

End MixedAt50Hz.

(* ================================================================== *)
(** * The cycle validator on any frame *)
(* ================================================================== *)

Section ValidatorProperties.

Lemma gradient_returns (f : list xnum) (dx : xnum) :
  (2 <= List.length f)%nat ->
  exists acc, gradient f dx = ret acc /\ List.length acc = List.length f.
Proof.
  intro H.
  assert (Hg : exists acc, gradient f dx = ret acc).
  { unfold gradient. destruct f as [| f0 [| f1 rest]]; simpl in H; try lia.
    destruct (rev (f0 :: f1 :: rest)) as [| l1 [| l2 tl]] eqn:E;
      try (apply (f_equal (@List.length xnum)) in E;
           rewrite length_rev in E; discriminate).
    eexists. reflexivity. }
  destruct Hg as [acc Hg]. exists acc. split; [exact Hg |].
  exact (proj1 (gradient_shape f dx acc Hg)).
Qed.

Lemma gradient_fails (f : list xnum) (dx : xnum) :
  (List.length f < 2)%nat -> gradient f dx = raise ValueError.
Proof.
  destruct f as [| f0 [| f1 rest]]; simpl; intro H; try reflexivity. lia.
Qed.

Lemma np_max_returns (a : list xnum) :
  a <> [] -> exists m, np_max a = ret m.
Proof. destruct a; [congruence | intros _; eexists; reflexivity]. Qed.

Lemma np_min_returns (a : list xnum) :
  a <> [] -> exists m, np_min a = ret m.
Proof. destruct a; [congruence | intros _; eexists; reflexivity]. Qed.

Lemma nonempty_of_length {A} (l : list A) (n : nat) :
  (n < List.length l)%nat -> l <> [].
Proof. destruct l; simpl; [lia | discriminate]. Qed.

Lemma validate_returns (df : Frame) :
  List.length (frame_time df) = List.length (frame_speed df) ->
  (2 <= List.length (frame_speed df))%nat ->
  exists st, validate_drive_cycle df = ret st.
Proof.
  intros Hlen H2. unfold validate_drive_cycle.
  destruct (gradient_returns (frame_speed df)
              (np_mean (np_diff (frame_time df))) H2) as [acc [-> Lacc]].
  cbn [bind ret].
  destruct (np_max_returns acc) as [ma ->];
    [apply (nonempty_of_length _ 0); lia |].
  destruct (np_min_returns acc) as [mi ->];
    [apply (nonempty_of_length _ 0); lia |].
  destruct (np_max_returns (frame_speed df)) as [hi ->];
    [apply (nonempty_of_length _ 0); lia |].
  destruct (np_min_returns (frame_speed df)) as [lo ->];
    [apply (nonempty_of_length _ 0); lia |].
  cbn [bind ret].
  destruct (frame_time df) as [| t0 ts] eqn:Et; [simpl in Hlen; lia |].
  destruct (rev (t0 :: ts)) as [| tn tl] eqn:Er.
  { apply (f_equal (@List.length xnum)) in Er.
    rewrite length_rev in Er. discriminate. }
  eexists. reflexivity.
Qed.

(** A frame whose two columns have the same length is validated exactly
    when it holds at least two samples; with fewer, [np.gradient] raises a
    ValueError and no statistics are returned. *)
Theorem validate_needs_two_samples (df : Frame) :
  List.length (frame_time df) = List.length (frame_speed df) ->
  ((2 <= List.length (frame_speed df))%nat ->
   exists st, validate_drive_cycle df = ret st)
  /\ ((List.length (frame_speed df) < 2)%nat ->
      validate_drive_cycle df = raise ValueError).
Proof.
  intro Hlen. split.
  - now apply validate_returns.
  - intro H. unfold validate_drive_cycle.
    now rewrite gradient_fails by exact H.
Qed.

Lemma count_true_le_length (mask : list bool) :
  (count_true mask <= List.length mask)%nat.
Proof.
  unfold count_true. induction mask as [| b mask IH]; [simpl; lia |].
  cbn [filter]. destruct b; simpl; lia.
Qed.

(** What a successful validation was computed from. *)
Lemma validate_inv (df : Frame) (st : ValidationStats) :
  validate_drive_cycle df = ret st ->
  exists acc hi lo t0 tn ts tl,
    gradient (frame_speed df) (np_mean (np_diff (frame_time df))) = ret acc
    /\ np_max (frame_speed df) = ret hi
    /\ np_min (frame_speed df) = ret lo
    /\ frame_time df = t0 :: ts
    /\ rev (frame_time df) = tn :: tl
    /\ max_speed_mps st = hi
    /\ max_speed_mph st = xmul hi (Fin 2.237)
    /\ min_speed_mps st = lo
    /\ avg_speed_mps st = np_mean (frame_speed df)
    /\ np_max acc = ret (max_acceleration st)
    /\ np_min acc = ret (max_deceleration st)
    /\ steady_state_percentage st
       = xmul (xdiv (of_nat (count_true (steady_mask acc)))
                    (of_nat (List.length (steady_mask acc)))) (Fin 100)
    /\ duration_sec st = xsub tn t0.
Proof.
  unfold validate_drive_cycle.
  destruct (gradient _ _) as [e | acc] eqn:Eg; [discriminate |]. cbn [bind].
  destruct (np_max acc) as [e | ma] eqn:Ema; [discriminate |]. cbn [bind].
  destruct (np_min acc) as [e | mi] eqn:Emi; [discriminate |]. cbn [bind].
  destruct (np_max (frame_speed df)) as [e | hi] eqn:Ehi; [discriminate |].
  cbn [bind].
  destruct (np_min (frame_speed df)) as [e | lo] eqn:Elo; [discriminate |].
  cbn [bind].
  destruct (frame_time df) as [| t0 ts] eqn:Et; [discriminate |].
  destruct (rev (t0 :: ts)) as [| tn tl] eqn:Er; [discriminate |].
  intro H. injection H as <-.
  exists acc, hi, lo, t0, tn, ts, tl.
  cbn [max_speed_mps max_speed_mph min_speed_mps avg_speed_mps
       max_acceleration max_deceleration steady_state_percentage
       duration_sec].
  repeat split; first [reflexivity | assumption].
Qed.

(** Whenever the validator returns, the steady-state percentage is a finite
    number between 0 and 100, also when accelerations are infinite or NaN
    (a time column that does not advance). *)
Theorem steady_state_percentage_in_range (df : Frame) (st : ValidationStats) :
  validate_drive_cycle df = ret st ->
  exists p, steady_state_percentage st = Fin p /\ 0 <= p <= 100.
Proof.
  intro H.
  destruct (validate_inv df st H)
    as (acc & hi & lo & t0 & tn & ts & tl & Hg & _ & _ & _ & _ & _ & _ & _
        & _ & _ & _ & Hp & _).
  destruct (gradient_shape _ _ _ Hg) as [Lacc [L2 _]].
  rewrite Hp. unfold steady_mask at 2. rewrite length_map.
  pose proof (count_true_le_length (steady_mask acc)) as Hc.
  unfold steady_mask in Hc at 2. rewrite length_map in Hc.
  set (c := count_true (steady_mask acc)) in *.
  set (n := List.length acc) in *.
  assert (Hn : 0 < inject_Z (Z.of_nat n)) by (apply inject_nat_pos; lia).
  assert (Hcn : inject_Z (Z.of_nat c) <= inject_Z (Z.of_nat n))
    by now apply inject_nat_le.
  pose proof (inject_nat_nonneg c) as Hc0.
  unfold of_nat, xdiv.
  assert (Hcmp : (inject_Z (Z.of_nat n) ?= 0) = Gt) by (now apply Qgt_alt).
  rewrite Hcmp. cbn [xmul]. eexists. split; [reflexivity |].
  split.
  - apply Qmult_le_0_compat; [| lra].
    apply Qle_shift_div_l; lra.
  - assert (Hle : inject_Z (Z.of_nat c) / inject_Z (Z.of_nat n) <= 1)
      by (apply Qle_shift_div_r; lra).
    lra.
Qed.

Lemma fold_xmax_fin (l : list Q) (a : Q) :
  exists m, fold_left xmax (map Fin l) (Fin a) = Fin m
            /\ In m (a :: l) /\ a <= m /\ Forall (fun v => v <= m) l.
Proof.
  revert a. induction l as [| x l IH]; intro a.
  - exists a. repeat split; [now left | lra | constructor].
  - cbn [map fold_left]. unfold xmax at 2. cbn [is_nan orb xltb].
    destruct (Qltb a x) eqn:E.
    + apply Qltb_lt in E.
      destruct (IH x) as [m [Hm [Hin [Hle Hall]]]].
      exists m. repeat split; [exact Hm | now right | lra |].
      constructor; [exact Hle | exact Hall].
    + apply Qltb_ge in E.
      destruct (IH a) as [m [Hm [Hin [Hle Hall]]]].
      exists m. repeat split; [exact Hm | | exact Hle |].
      * destruct Hin as [<- | Hin]; [now left | right; now right].
      * constructor; [lra | exact Hall].
Qed.

Lemma fold_xmin_fin (l : list Q) (a : Q) :
  exists m, fold_left xmin (map Fin l) (Fin a) = Fin m
            /\ In m (a :: l) /\ m <= a /\ Forall (fun v => m <= v) l.
Proof.
  revert a. induction l as [| x l IH]; intro a.
  - exists a. repeat split; [now left | lra | constructor].
  - cbn [map fold_left]. unfold xmin at 2. cbn [is_nan orb xltb].
    destruct (Qltb x a) eqn:E.
    + apply Qltb_lt in E.
      destruct (IH x) as [m [Hm [Hin [Hle Hall]]]].
      exists m. repeat split; [exact Hm | now right | lra |].
      constructor; [exact Hle | exact Hall].
    + apply Qltb_ge in E.
      destruct (IH a) as [m [Hm [Hin [Hle Hall]]]].
      exists m. repeat split; [exact Hm | | exact Hle |].
      * destruct Hin as [<- | Hin]; [now left | right; now right].
      * constructor; [lra | exact Hall].
Qed.

Lemma speed_statistics (vs : list Q) (df : Frame) (st : ValidationStats) :
  frame_speed df = map Fin vs ->
  validate_drive_cycle df = ret st ->
  exists hi lo,
    max_speed_mps st = Fin hi /\ min_speed_mps st = Fin lo
    /\ max_speed_mph st = xmul (max_speed_mps st) (Fin 2.237)
    /\ In hi vs /\ In lo vs
    /\ Forall (fun v => lo <= v <= hi) vs.
Proof.
  intros Hvs H.
  destruct (validate_inv df st H)
    as (acc & hi & lo & t0 & tn & ts & tl & _ & Hmax & Hmin & _ & _ & E1 & E2
        & E3 & _).
  rewrite E2, E1, E3. rewrite Hvs in *. clear E1 E2 E3.
  destruct vs as [| v0 vs]; [discriminate |].
  cbn [map np_max np_min] in Hmax, Hmin.
  injection Hmax as <-. injection Hmin as <-.
  destruct (fold_xmax_fin vs v0) as [mx [-> [Hinx [Hlex Hallx]]]].
  destruct (fold_xmin_fin vs v0) as [mn [-> [Hinn [Hlen Halln]]]].
  exists mx, mn.
  repeat split; try reflexivity; try assumption.
  constructor; [split; assumption |].
  rewrite Forall_forall in *. intros v Hv. split; auto.
Qed.

(** On a frame of finite speeds the reported maximum and minimum are samples
    of the speed column that bound every sample, and the speed in mph is the
    reported maximum times 2.237. *)
Theorem validate_speed_statistics (vs : list Q) (df : Frame)
    (st : ValidationStats) :
  frame_speed df = map Fin vs ->
  validate_drive_cycle df = ret st ->
  exists hi lo,
    max_speed_mps st = Fin hi /\ min_speed_mps st = Fin lo
    /\ max_speed_mph st = xmul (max_speed_mps st) (Fin 2.237)
    /\ In hi vs /\ In lo vs
    /\ Forall (fun v => lo <= v <= hi) vs.
Proof. exact (speed_statistics vs df st). Qed.

End ValidatorProperties.

(* ================================================================== *)
(** * The validator on a synthesized cycle *)
(* ================================================================== *)

Section SynthesizeThenValidate.

Variable sin : Q -> Q.
Variable pi : Q.

Lemma cycle_speed_length (duration dt max_speed min_speed : Q)
    (scenario_type : string) (c : Cycle) :
  create_cacc_optimized_drive_cycle sin pi duration dt max_speed min_speed
    scenario_type = Some c ->
  List.length (cycle_speed c) = List.length (cycle_time c).
Proof.
  intro Hc. destruct (synthesized_cycle sin pi _ _ _ _ _ _ Hc) as [_ ->].
  unfold clip. rewrite length_map.
  destruct (String.eqb scenario_type "highway");
    [apply create_highway_profile_length |].
  destruct (String.eqb scenario_type "city");
    [apply create_city_profile_length | apply create_mixed_profile_length].
Qed.

(** A synthesized cycle of at least two samples is always accepted by the
    validator, whatever the scenario type: the reported maximum speed lies
    in [[0, max_speed]], the reported minimum is 0 (the cycle starts at
    rest) and the reported duration is the time of the last sample. *)
Theorem synthesized_cycle_validates (duration dt max_speed min_speed : Q)
    (scenario_type : string) (c : Cycle) :
  create_cacc_optimized_drive_cycle sin pi duration dt max_speed min_speed
    scenario_type = Some c ->
  0 <= max_speed ->
  (2 <= List.length (cycle_time c))%nat ->
  exists st hi lo d,
    validate_drive_cycle (frame_of_cycle c) = ret st
    /\ max_speed_mps st = Fin hi /\ 0 <= hi <= max_speed
    /\ min_speed_mps st = Fin lo /\ lo == 0
    /\ duration_sec st = Fin d
    /\ d == nth (List.length (cycle_time c) - 1) (cycle_time c) 0.
Proof.
  intros Hc Hmax Hlen.
  pose proof (cycle_speed_length _ _ _ _ _ _ Hc) as Hsl.
  destruct (synthesized_cycle sin pi _ _ _ _ _ _ Hc) as [Har Hs].
  destruct (arange_is_grid duration dt _ Har) as [n Htime].
  assert (Ltime : List.length (cycle_time c) = n)
    by (rewrite Htime; apply grid_length).
  destruct n as [| [| m]]; try lia.
  assert (H0 : nth 0 (cycle_speed c) 0 == 0).
  { assert (Ht0 : nth 0 (cycle_time c) 0 == 0).
    { rewrite Htime. unfold grid. cbn [seq map nth].
      change (inject_Z (Z.of_nat 0)) with 0. ring. }
    assert (Hclip : forall v, v == 0 -> clip1 0 max_speed v == 0).
    { intros v Hv. rewrite clip1_inside; [exact Hv | rewrite Hv; split; lra]. }
    rewrite Hs.
    destruct (String.eqb scenario_type "highway").
    - rewrite clip_nth by (rewrite create_highway_profile_length; lia).
      apply Hclip, highway_profile_first; [lia | exact Ht0].
    - destruct (String.eqb scenario_type "city").
      + rewrite clip_nth by (rewrite create_city_profile_length; lia).
        apply Hclip, city_profile_first.
      + rewrite clip_nth by (rewrite create_mixed_profile_length; lia).
        apply Hclip, mixed_profile_first; [lia | exact Ht0]. }
  assert (Hbounds : Forall (fun v => 0 <= v <= max_speed) (cycle_speed c))
    by (rewrite Hs; now apply clip_bounds).
  destruct (validate_returns (frame_of_cycle c)) as [st Hst].
  { unfold frame_of_cycle. cbn [frame_time frame_speed].
    rewrite !length_map. now symmetry. }
  { unfold frame_of_cycle. cbn [frame_speed]. rewrite length_map. lia. }
  destruct (speed_statistics (cycle_speed c) (frame_of_cycle c) st eq_refl Hst)
    as (hi & lo & Ehi & Elo & _ & Hinhi & Hinlo & Hall).
  destruct (validate_inv _ _ Hst)
    as (acc & hi' & lo' & t0 & tn & ts & tl & _ & _ & _ & Et & Er & _ & _ & _
        & _ & _ & _ & _ & Edur).
  unfold frame_of_cycle in Et, Er. cbn [frame_time] in Et, Er.
  rewrite Ltime. rewrite Htime in Et, Er |- *. unfold grid in Et, Er.
  set (g := fun i : nat => 0 + inject_Z (Z.of_nat i) * dt) in *.
  rewrite seq_S in Er. cbn [Nat.add] in Er.
  rewrite !map_app, rev_app_distr in Er. cbn [map rev app] in Er, Et.
  injection Et as <- _. injection Er as <- _.
  rewrite Forall_forall in Hbounds, Hall.
  exists st, hi, lo, (g (S m) + - g O).
  split; [exact Hst |]. split; [exact Ehi |].
  split; [exact (Hbounds hi Hinhi) |]. split; [exact Elo |].
  split.
  - pose proof (Hbounds lo Hinlo) as [Hlo _].
    assert (Hin0 : In (nth 0 (cycle_speed c) 0) (cycle_speed c))
      by (apply nth_In; lia).
    pose proof (Hall _ Hin0) as [Hle _]. lra.
  - split; [exact Edur |].
    replace (S (S m) - 1)%nat with (S m) by lia.
    rewrite grid_nth by lia. fold (g (S m)). unfold g.
    change (inject_Z (Z.of_nat 0)) with 0. ring.
Qed.

End SynthesizeThenValidate.

(* ================================================================== *)
(** * The properties above on concrete cycles and frames *)
(* ================================================================== *)

Lemma float_arguments_half_second : float_arguments 100 0.5.
Proof. intros [_ H]. discriminate H. Qed.

Lemma highway_cycle_phases_witness :
  exists c,
    create_cacc_optimized_drive_cycle (fun x => x) 3 100 0.5 30.5 5.5
      "highway"%string = Some c
    /\ nth 60 (cycle_speed c) 0 = 30.5 * 0.8.
Proof.
  eexists. split; [vm_compute; reflexivity |].
  refine (proj1 (highway_cycle_phases (fun x => x) 3 100 0.5 30.5 5.5 _ 60
                   float_arguments_half_second _ _ _) _).
  - vm_compute. reflexivity.
  - discriminate.
  - apply Nat.ltb_lt. vm_compute. reflexivity.
  - split; vm_compute; [reflexivity | discriminate].
Defined.

Lemma mixed_cycle_cruise_witness :
  exists c,
    create_cacc_optimized_drive_cycle (fun x => x) 3 100 0.5 30.5 5.5
      "mixed"%string = Some c
    /\ nth 120 (cycle_speed c) 0 = 30.5.
Proof.
  eexists. split; [vm_compute; reflexivity |].
  refine (mixed_cycle_cruise (fun x => x) 3 100 0.5 30.5 5.5 "mixed"%string
            _ 120 float_arguments_half_second _ _ _ _ _ _).
  - discriminate.
  - discriminate.
  - vm_compute. reflexivity.
  - discriminate.
  - apply Nat.ltb_lt. vm_compute. reflexivity.
  - split; vm_compute; [reflexivity | discriminate].
Defined.

Lemma highway_cycle_final_speed_witness :
  exists c,
    create_cacc_optimized_drive_cycle (fun x => x) 3 100 0.5 30.5 5.5
      "highway"%string = Some c
    /\ nth 199 (cycle_speed c) 0 = clip1 0 30.5 5.5.
Proof.
  eexists. split; [vm_compute; reflexivity |].
  refine (proj1 (highway_cycle_final_speed (fun x => x) 3 100 0.5 30.5 5.5
                   _ 199 float_arguments_half_second _ _ _ _) _).
  - vm_compute. reflexivity.
  - discriminate.
  - vm_compute. reflexivity.
  - vm_compute. reflexivity.
  - apply Nat.leb_le. vm_compute. reflexivity.
Defined.

Lemma mixed_cycle_final_speed_witness :
  exists c,
    create_cacc_optimized_drive_cycle (fun x => x) 3 100 0.5 30.5 5.5
      "mixed"%string = Some c
    /\ nth 199 (cycle_speed c) 0 = clip1 0 30.5 5.5.
Proof.
  eexists. split; [vm_compute; reflexivity |].
  refine (proj1 (mixed_cycle_final_speed (fun x => x) 3 100 0.5 30.5 5.5
                   "mixed"%string _ 199 float_arguments_half_second
                   _ _ _ _ _ _) _).
  - discriminate.
  - discriminate.
  - vm_compute. reflexivity.
  - discriminate.
  - vm_compute. reflexivity.
  - vm_compute. reflexivity.
  - apply Nat.leb_le. vm_compute. reflexivity.
Defined.

Lemma city_cycle_is_unclipped_witness :
  exists c,
    create_cacc_optimized_drive_cycle (fun x => x) 3 40 0.02 30 5
      "city"%string = Some c
    /\ Forall (fun v => 0 <= v <= 30 * 0.6) (cycle_speed c).
Proof.
  eexists. split; [vm_compute; reflexivity |].
  refine (proj2 (city_cycle_is_unclipped (fun x => x) 3 40 0.02 30 5 _ _ _)).
  - vm_compute. reflexivity.
  - discriminate.
Defined.

Lemma city_cycle_below_1000_samples_is_zero_witness :
  exists c,
    create_cacc_optimized_drive_cycle (fun x => x) 3 100 1 30 5
      "city"%string = Some c
    /\ cycle_speed c = repeat 0 (List.length (cycle_time c)).
Proof.
  eexists. split; [vm_compute; reflexivity |].
  refine (city_cycle_below_1000_samples_is_zero (fun x => x) 3 100 1 30 5 _
            _ _ _).
  - vm_compute. reflexivity.
  - discriminate.
  - apply Nat.ltb_lt. vm_compute. reflexivity.
Defined.

Lemma city_cycle_repeats_every_1000_samples_witness :
  exists c,
    create_cacc_optimized_drive_cycle (fun x => x) 3 40 0.02 30 5
      "city"%string = Some c
    /\ nth (1000 * 0 + 300) (cycle_speed c) 0
       = nth (1000 * 1 + 300) (cycle_speed c) 0.
Proof.
  eexists. split; [vm_compute; reflexivity |].
  refine (city_cycle_repeats_every_1000_samples (fun x => x) 3 40 30 5 _
            0 1 300 _ _ _ _ _).
  - vm_compute. reflexivity.
  - discriminate.
  - apply Nat.leb_le. vm_compute. reflexivity.
  - apply Nat.leb_le. vm_compute. reflexivity.
  - apply Nat.ltb_lt. vm_compute. reflexivity.
Defined.

Lemma city_cycle_has_no_partial_cycle_witness :
  exists c,
    create_cacc_optimized_drive_cycle (fun x => x) 3 30 0.02 30 5
      "city"%string = Some c
    /\ nth 1200 (cycle_speed c) 0 = 0.
Proof.
  eexists. split; [vm_compute; reflexivity |].
  refine (city_cycle_has_no_partial_cycle (fun x => x) 3 30 30 5 _ 1200
            _ _ _).
  - vm_compute. reflexivity.
  - discriminate.
  - apply Nat.leb_le. vm_compute. reflexivity.
Defined.

Lemma cycle_starts_at_rest_witness :
  exists c,
    create_cacc_optimized_drive_cycle (fun x => x) 3 100 1 30 5
      "highway"%string = Some c
    /\ nth 0 (cycle_speed c) 0 == 0.
Proof.
  eexists. split; [vm_compute; reflexivity |].
  refine (cycle_starts_at_rest (fun x => x) 3 100 1 30 5 "highway"%string _
            _ _ _ _).
  - vm_compute. reflexivity.
  - reflexivity.
  - reflexivity.
  - discriminate.
Defined.

Lemma mixed_cycle_stands_still_from_20s_to_30s_witness :
  exists c,
    create_cacc_optimized_drive_cycle (fun x => x) 3 30 0.02 30 5
      "mixed"%string = Some c
    /\ nth 1200 (cycle_speed c) 0 = 0
    /\ 20 <= nth 1200 (cycle_time c) 0 <= 30.
Proof.
  eexists. split; [vm_compute; reflexivity |].
  refine (mixed_cycle_stands_still_from_20s_to_30s (fun x => x) 3 30 30 5
            "mixed"%string _ 1200 _ _ _ _ _ _).
  - discriminate.
  - discriminate.
  - vm_compute. reflexivity.
  - discriminate.
  - split; apply Nat.leb_le; vm_compute; reflexivity.
  - apply Nat.ltb_lt. vm_compute. reflexivity.
Defined.

Lemma validate_needs_two_samples_witness :
  validate_drive_cycle (mkFrame [Fin 0] [Fin 3]) = raise ValueError.
Proof.
  apply (proj2 (validate_needs_two_samples (mkFrame [Fin 0] [Fin 3])
                  eq_refl)).
  simpl. lia.
Defined.

Lemma steady_state_percentage_in_range_witness :
  exists st p,
    validate_drive_cycle (mkFrame [Fin 0; Fin 0; Fin 0] [Fin 1; Fin 2; Fin 2])
    = ret st
    /\ steady_state_percentage st = Fin p /\ 0 <= p <= 100.
Proof.
  eexists.
  destruct (steady_state_percentage_in_range
              (mkFrame [Fin 0; Fin 0; Fin 0] [Fin 1; Fin 2; Fin 2]) _ eq_refl)
    as [p Hp].
  exists p. split; [reflexivity | exact Hp].
Defined.

Lemma validate_speed_statistics_witness :
  exists st hi lo,
    validate_drive_cycle (mkFrame [Fin 0; Fin 1; Fin 2] [Fin 4; Fin 9; Fin 2])
    = ret st
    /\ max_speed_mps st = Fin hi /\ min_speed_mps st = Fin lo
    /\ Forall (fun v => lo <= v <= hi) [4; 9; 2].
Proof.
  eexists.
  destruct (validate_speed_statistics [4; 9; 2]
              (mkFrame [Fin 0; Fin 1; Fin 2] [Fin 4; Fin 9; Fin 2]) _
              eq_refl eq_refl)
    as (hi & lo & Hhi & Hlo & _ & _ & _ & Hall).
  exists hi, lo. split; [reflexivity |]. auto.
Defined.

Lemma synthesized_cycle_validates_witness :
  exists c st lo,
    create_cacc_optimized_drive_cycle (fun x => x) 3 1 0.02 30 5
      "highway"%string = Some c
    /\ validate_drive_cycle (frame_of_cycle c) = ret st
    /\ min_speed_mps st = Fin lo /\ lo == 0.
Proof.
  eexists.
  destruct (synthesized_cycle_validates (fun x => x) 3 1 0.02 30 5
              "highway"%string _ eq_refl)
    as (st & hi & lo & d & Hst & _ & _ & Hlo & Hz & _);
    [discriminate | apply Nat.leb_le; vm_compute; reflexivity |].
  exists st, lo. split; [reflexivity |]. auto.
Defined.

Lemma steady_state_mask_at_witness :
  nth 2 (values (steady_state_mask_of
                   (iloc_from 10 (scenario_df log_early_dip))
                   (combine (df_index (iloc_from 10 (scenario_df log_early_dip)))
                            (constant 20 0))
                   (combine (df_index (iloc_from 10 (scenario_df log_early_dip)))
                            (constant 20 10))))
      false
  = true.
Proof.
  rewrite (steady_state_mask_at (iloc_from 10 (scenario_df log_early_dip))
             20 2 (constant 20 0) (constant 20 10));
    first [reflexivity | lia].
Defined.
